(** * rx_calibration: the MC fitting components

    A shallow embedding of [MCFitter] (hltcalibration/mc_fitter.py) and
    [FitComponent] (hltcalibration/fit_component.py): the construction of a
    component from its configuration dictionary, the weighted-dataset
    builder, the fit with its error-method check, the tail-fixing loop and
    the cache protocol of [MCFitter.run].

    Python methods become computations in a state-and-exception monad over
    a [World]: the model (PDF) whose parameters are mutated in place, the
    plotting dictionary shared with the caller, the file system, and the
    chronological trace of the calls made to the external collaborators
    (ROOT's RDataFrame, zfit, the plotter, the logger). *)

From Stdlib Require Import Floats.PrimFloat.
From stdpp Require Import gmap strings list.

Set Default Proof Using "Type".
#[global] Set Warnings "-register-all,-inexact-float".
Open Scope string_scope.
Open Scope list_scope.

(** ** Python values *)

(** The values a YAML/JSON-like configuration dictionary holds. Dictionary
    keys are strings. *)
Inductive pyval :=
| PyNone
| PyBool (b : bool)
| PyInt (z : Z)
| PyFloat (x : float)
| PyStr (s : string)
| PyDict (d : gmap string pyval).

(** The exceptions raised by the code or surfaced from its collaborators. *)
Inductive exn :=
| KeyError (key : string)
| ValueError (msg : string)
| TypeError (msg : string)
| AttributeError (attr : string)
| NotImplementedError (msg : string)
| ExternalError (origin : string).

Inductive result (A : Type) :=
| Ok (a : A)
| Err (e : exn).
Arguments Ok {A} a.
Arguments Err {A} e.

(** [x is None] *)
Definition is_none (v : pyval) : bool :=
  match v with PyNone => true | _ => false end.

(** [v[key]] on a configuration value: only dictionaries are subscriptable
    by a string. *)
Definition py_getitem (v : pyval) (key : string) : result pyval :=
  match v with
  | PyDict d =>
      match d !! key with
      | Some x => Ok x
      | None => Err (KeyError key)
      end
  | _ => Err (TypeError "object is not subscriptable by a string")
  end.

(** [v != s] for a string literal [s]: a value of another type is never
    equal to a string. *)
Definition py_ne_str (v : pyval) (s : string) : bool :=
  match v with
  | PyStr x => negb (String.eqb x s)
  | _ => true
  end.

(** [s.endswith(suffix)] *)
Definition endswith (s suffix : string) : bool :=
  String.prefix (String.rev suffix) (String.rev s).

(** [n * s] on strings *)
Fixpoint str_mul (n : nat) (s : string) : string :=
  match n with
  | O => EmptyString
  | S k => s +:+ str_mul k s
  end.

(** ** The tabular source: ROOT's RDataFrame

    A data frame is a lazy computation graph: a number of entries and named
    columns, each giving a value per entry. [Define] returns a new node and
    leaves the frame it is called on as it was. *)

Inductive num :=
| NInt (z : Z)
| NDouble (x : float).

Record RDataFrame := {
  rdf_nentries : nat;
  rdf_columns : list (string * (nat → num));
}.

Fixpoint assoc {A : Type} (key : string) (l : list (string * A)) : option A :=
  match l with
  | [] => None
  | (k, a) :: rest => if String.eqb k key then Some a else assoc key rest
  end.

Definition GetColumnNames (rdf : RDataFrame) : list string :=
  (rdf_columns rdf).*1.

(** [rdf.Define(name, expr)] for an expression that is a numeric literal:
    the new column holds that constant at every entry. This is the column
    augmentation the spec asks of the tabular source (section 6); what ROOT
    itself may refuse (a name that is no identifier) is outside the model. *)
Definition Define (rdf : RDataFrame) (name : string) (c : num) : RDataFrame :=
  {| rdf_nentries := rdf_nentries rdf;
     rdf_columns := rdf_columns rdf ++ [(name, λ _, c)] |}.

(** The array a column materialises to. *)
Definition column (rdf : RDataFrame) (name : string) : option (list num) :=
  match assoc name (rdf_columns rdf) with
  | Some f => Some (f <$> seq 0 (rdf_nentries rdf))
  | None => None
  end.

(** [rdf.AsNumpy(cols)]: a dictionary from column name to array. *)
Fixpoint AsNumpy (rdf : RDataFrame) (cols : list string)
  : result (gmap string (list num)) :=
  match cols with
  | [] => Ok ∅
  | c :: rest =>
      match column rdf c with
      | None => Err (ExternalError "AsNumpy: unknown column")
      | Some arr =>
          match AsNumpy rdf rest with
          | Ok d => Ok (<[c := arr]> d)
          | Err e => Err e
          end
      end
  end.

(** ** The model engine: zfit *)

Record Space := {
  space_obs : list string;
  space_limits : list (float * float);
}.

(** A zfit parameter: the object the tail-fixing loop mutates. The limits
    are those of [zfit.Parameter(name, value, lower, upper)]; either may
    be absent. *)
Record zparam := {
  par_name : string;
  par_value : float;
  par_floating : bool;
  par_lower : option float;
  par_upper : option float;
}.

(** The parameter with another value, and with another floating flag. *)
Definition with_value (par : zparam) (val : float) : zparam :=
  {| par_name := par_name par; par_value := val;
     par_floating := par_floating par;
     par_lower := par_lower par; par_upper := par_upper par |}.

Definition with_floating (par : zparam) (b : bool) : zparam :=
  {| par_name := par_name par; par_value := par_value par;
     par_floating := b;
     par_lower := par_lower par; par_upper := par_upper par |}.

(** The check [par.set_value(val)] makes: a value below the lower limit or
    above the upper limit is refused. (zfit tolerates rounding at a limit,
    by at most 1e-7; that margin is outside the model.) *)
Definition outside_limits (par : zparam) (val : float) : bool :=
  match par_lower par with
  | Some lower => PrimFloat.ltb val lower
  | None => false
  end
  || match par_upper par with
     | Some upper => PrimFloat.ltb upper val
     | None => false
     end.

(** The message of the [ValueError] of [set_value]; zfit's text, which
    also prints the value and the limits, is cut down to the name. *)
Definition limits_msg (name : string) : string :=
  "Setting value invalid for parameter " +:+ name.

(** The PDF: its observable space and its parameter objects, floating or
    fixed, in the order zfit enumerates them. *)
Record BasePDF := {
  pdf_space : Space;
  pdf_params : list zparam;
}.

Definition pdf_obs (pdf : BasePDF) : list string := space_obs (pdf_space pdf).

Definition with_params (pdf : BasePDF) (l : list zparam) : BasePDF :=
  {| pdf_space := pdf_space pdf; pdf_params := l |}.

(** [zfit.Data]: observable values and per-event weights, as
    [zfit.Data.from_numpy] receives them. *)
Record zdata := {
  zd_obs : Space;
  zd_array : list num;
  zd_weights : list num;
}.

(** [zfit.result.FitResult]: per parameter its value at the minimum and,
    once [hesse] has run, its error. *)
Record FitResult := {
  res_params : list (string * (float * option float));
  res_frozen : bool;
}.

Definition freeze (res : FitResult) : FitResult :=
  {| res_params := res_params res; res_frozen := true |}.

Inductive Minimizer :=
| AnealingMinimizer (ntries : nat) (pvalue : float)
| Minuit.

(** The values of a fit result lie within the limits of the parameters of
    the model that carry their names. *)
Definition within_limits_of (pdf : BasePDF) (res : FitResult) : Prop :=
  ∀ p n v e,
    p ∈ pdf_params pdf → (n, (v, e)) ∈ res_params res → par_name p = n →
    outside_limits p v = false.

(** The names and values of a fit result, without the errors. *)
Definition res_values (res : FitResult) : list (string * float) :=
  (λ it, (it.1, it.2.1)) <$> res_params res.

(** The collaborators whose code is outside the repository. Each may raise.
    The minimizer moves the parameters of the model it is given; zfit's
    minimisers keep every parameter within its limits, so the values they
    report are values the parameters accept. The Hessian step adds the
    errors to the result and leaves names and values alone. *)
Class Engine := {
  minimize : Minimizer → BasePDF → zdata → result (BasePDF * FitResult);
  hesse : FitResult → string → result FitResult;
  zfit_plot : zdata → BasePDF → gmap string pyval → result unit;
  py_repr : pyval → string;
  minimize_within_limits : ∀ m pdf zdt pdf' res,
    minimize m pdf zdt = Ok (pdf', res) → within_limits_of pdf' res;
  hesse_keeps_values : ∀ res method res',
    hesse res method = Ok res' → res_values res' = res_values res;
}.

(** [str(v)] as the f-strings apply it: a string is itself, any other value
    is rendered by the interpreter. *)
Definition py_str {engine : Engine} (v : pyval) : string :=
  match v with
  | PyStr s => s
  | _ => py_repr v
  end.

(** ** The world *)

Inductive level := DEBUG | INFO | WARNING.

(** Calls made to the collaborators, in the order they happen. *)
Inductive event :=
| Log (lvl : level) (msg : string)
| LogValue (lvl : level) (name : string) (val : float)
| PrintPdf
| PrintResult
| EvGetColumnNames
| EvDefine (name : string) (expr : string)
| EvAsNumpy (cols : list string)
| EvFromNumpy
| EvUnbinnedNLL
| EvMinimize (m : Minimizer)
| EvHesse (method : string)
| EvFreeze
| EvMakedirs (dir : string)
| EvPlot
| EvSavefig (path : string)
| EvIsFile (path : string)
| EvToJson (path : string)
| EvFromJson (path : string).

(** Modelled from the spec: the [Parameter] class of
    hltcalibration/parameter.py, which is not among the sources. The spec's
    ParameterSet is a mapping from parameter name to (value, uncertainty)
    with unique names; it is persisted to a record and read back verbatim.
    (The class name is a reserved word here, so the type takes the spec's
    name.) *)
Abbreviation ParameterSet := (gmap string (float * float)).

Inductive file :=
| FileParameter (par : ParameterSet)
| FilePlot
| FileOther.

Record World := {
  (** the model, shared by reference and mutated in place *)
  w_pdf : BasePDF;
  (** the dictionary object behind [self._plt_cfg] (it is [cfg['plotting']]
      itself, not a copy), or [None] *)
  w_plt_cfg : pyval;
  w_files : gmap string file;
  w_dirs : gset string;
  w_trace : list event;
}.

Definition set_pdf (pdf : BasePDF) (w : World) : World :=
  {| w_pdf := pdf; w_plt_cfg := w_plt_cfg w; w_files := w_files w;
     w_dirs := w_dirs w; w_trace := w_trace w |}.

Definition set_plt_cfg (v : pyval) (w : World) : World :=
  {| w_pdf := w_pdf w; w_plt_cfg := v; w_files := w_files w;
     w_dirs := w_dirs w; w_trace := w_trace w |}.

Definition set_files (fs : gmap string file) (w : World) : World :=
  {| w_pdf := w_pdf w; w_plt_cfg := w_plt_cfg w; w_files := fs;
     w_dirs := w_dirs w; w_trace := w_trace w |}.

Definition set_dirs (ds : gset string) (w : World) : World :=
  {| w_pdf := w_pdf w; w_plt_cfg := w_plt_cfg w; w_files := w_files w;
     w_dirs := ds; w_trace := w_trace w |}.

(** [w] after the calls [evs] have been recorded. *)
Definition add_trace (evs : list event) (w : World) : World :=
  {| w_pdf := w_pdf w; w_plt_cfg := w_plt_cfg w; w_files := w_files w;
     w_dirs := w_dirs w; w_trace := w_trace w ++ evs |}.

(** ** The monad: state and exceptions

    A raised exception keeps the mutations made before it, as in Python. *)
Definition M (A : Type) : Type := World → result A * World.

#[global] Instance M_ret : MRet M := λ A a w, (Ok a, w).

#[global] Instance M_bind : MBind M := λ A B f m w,
  match m w with
  | (Ok a, w') => f a w'
  | (Err e, w') => (Err e, w')
  end.

Definition raise {A : Type} (e : exn) : M A := λ w, (Err e, w).

Definition lift {A : Type} (r : result A) : M A := λ w, (r, w).

Definition emit (e : event) : M unit := λ w, (Ok tt, add_trace [e] w).

Definition log (lvl : level) (msg : string) : M unit := emit (Log lvl msg).

Definition read {A : Type} (f : World → A) : M A := λ w, (Ok (f w), w).

Definition modify (f : World → World) : M unit := λ w, (Ok tt, f w).

(** [for x in l: body]: an exception raised by the body ends the loop and
    keeps what the iterations before it did. *)
Fixpoint for_each {A : Type} (body : A → M unit) (l : list A) : M unit :=
  match l with
  | [] => mret tt
  | x :: rest => body x;; for_each body rest
  end.

(** The positions, counted from [k], of the floating parameters of [l]. *)
Fixpoint floating_refs (k : nat) (l : list zparam) : list nat :=
  match l with
  | [] => []
  | p :: rest =>
      if par_floating p then k :: floating_refs (S k) rest
      else floating_refs (S k) rest
  end.

(** The model of [w] with the parameter objects [l]. *)
Definition with_pdf_params (l : list zparam) (w : World) : World :=
  set_pdf (with_params (w_pdf w) l) w.

(** ** Calls to the collaborators, in the monad *)

Section collaborators.
Context {engine : Engine}.

(** [self._pdf.get_params()]: zfit's default is [floating=True], so the
    call lists the parameters that are floating when it is made and leaves
    the fixed ones out. The caller gets the parameter objects themselves,
    here their positions in the model. *)
Definition get_params : M (list nat) :=
  read (λ w, floating_refs 0 (pdf_params (w_pdf w))).

(** The object behind a reference, and its replacement by a mutated one. *)
Definition deref (par : nat) : M zparam :=
  l ← read (λ w, pdf_params (w_pdf w));
  match l !! par with
  | Some p => mret p
  | None => raise (ExternalError "no such parameter object")
  end.

Definition store (par : nat) (p : zparam) : M unit :=
  modify (λ w, with_pdf_params (<[par := p]> (pdf_params (w_pdf w))) w).

(** [par.name] *)
Definition name_of (par : nat) : M string :=
  p ← deref par;
  mret (par_name p).

(** [par.set_value(val)]: zfit raises [ValueError] for a value outside the
    limits of the parameter, and assigns otherwise. *)
Definition set_value (par : nat) (val : float) : M unit :=
  p ← deref par;
  if outside_limits p val then raise (ValueError (limits_msg (par_name p)))
  else store par (with_value p val).

(** [par.floating = b] *)
Definition set_floating (par : nat) (b : bool) : M unit :=
  p ← deref par;
  store par (with_floating p b).

(** [os.path.isfile(path)] *)
Definition isfile (path : string) : M bool :=
  emit (EvIsFile path);;
  read (λ w, bool_decide (is_Some (w_files w !! path))).

(** [os.makedirs(dir, exist_ok=True)] *)
Definition makedirs (dir : pyval) : M unit :=
  match dir with
  | PyStr d =>
      emit (EvMakedirs d);;
      modify (λ w, set_dirs ({[d]} ∪ w_dirs w) w)
  | _ => raise (TypeError "makedirs: expected str, bytes or os.PathLike")
  end.

(** [plt.savefig(path)] *)
Definition savefig (path : string) : M unit :=
  emit (EvSavefig path);;
  modify (λ w, set_files (<[path := FilePlot]> (w_files w)) w).

(** [ZFitPlotter(data=data, model=self._pdf)] and its [plot] called with
    the plotting dictionary unpacked as keyword arguments: the options
    must be a mapping. *)
Definition plot (data : zdata) (plt_cfg : pyval) : M unit :=
  match plt_cfg with
  | PyDict opts =>
      emit EvPlot;;
      pdf ← read w_pdf;
      lift (zfit_plot data pdf opts)
  | _ => raise (TypeError "argument after ** must be a mapping")
  end.

(** [self._minimizer.minimize(nll)] with [nll] built from the model and
    the data: the model's parameters move with the minimisation. *)
Definition call_minimize (m : Minimizer) (zdt : zdata) : M FitResult :=
  emit (EvMinimize m);;
  pdf ← read w_pdf;
  '(pdf', res) ← lift (minimize m pdf zdt);
  modify (set_pdf pdf');;
  mret res.

(** [res.hesse(method=method)] *)
Definition call_hesse (res : FitResult) (method : string) : M FitResult :=
  emit (EvHesse method);;
  lift (hesse res method).

(** [rdf.AsNumpy(cols)] *)
Definition as_numpy (rdf : RDataFrame) (cols : list string)
  : M (gmap string (list num)) :=
  emit (EvAsNumpy cols);;
  lift (AsNumpy rdf cols).

(** [d[key]] on the dictionary of arrays *)
Definition array_getitem (d : gmap string (list num)) (key : string)
  : result (list num) :=
  match d !! key with
  | Some arr => Ok arr
  | None => Err (KeyError key)
  end.

(** [wgt_name in l_col] for a list of strings *)
Definition py_in (v : pyval) (l : list string) : bool :=
  match v with
  | PyStr s => bool_decide (s ∈ l)
  | _ => false
  end.

(** [self._obs_name, = self._pdf.obs] *)
Definition unpack_single (l : list string) : result string :=
  match l with
  | [x] => Ok x
  | [] => Err (ValueError "not enough values to unpack (expected 1, got 0)")
  | _ => Err (ValueError "too many values to unpack (expected 1)")
  end.

(** The loop of [_res_to_par]: [obj[par_name] = val, err] for every item of
    [res.params]; [d_val['hesse']] is missing when no error was computed. *)
Fixpoint fill_parameter (obj : ParameterSet)
    (items : list (string * (float * option float))) : result ParameterSet :=
  match items with
  | [] => Ok obj
  | (par_name, (val, Some err)) :: rest =>
      fill_parameter (<[par_name := (val, err)]> obj) rest
  | (_, (_, None)) :: _ => Err (KeyError "hesse")
  end.

(** Modelled from the spec: [Parameter.to_json(path)] persists the set to
    the record at [path]. *)
Definition to_json (par : ParameterSet) (path : string) : M unit :=
  emit (EvToJson path);;
  modify (λ w, set_files (<[path := FileParameter par]> (w_files w)) w).

(** Modelled from the spec: [Parameter.from_json(path)] reconstructs the
    set verbatim from the record; a file that is not such a record cannot
    be read. *)
Definition from_json (path : string) : M ParameterSet :=
  emit (EvFromJson path);;
  file ← read (λ w, w_files w !! path);
  match file with
  | Some (FileParameter par) => mret par
  | Some _ => raise (ValueError "not a parameter record")
  | None => raise (ExternalError "FileNotFoundError")
  end.

(** Modelled from the spec: [name in sig_par] and [sig_par[name]] on the
    [Parameter] mapping. *)
Definition contains (sig_par : ParameterSet) (name : string) : bool :=
  bool_decide (is_Some (sig_par !! name)).

Definition getitem (sig_par : ParameterSet) (name : string)
  : result (float * float) :=
  match sig_par !! name with
  | Some x => Ok x
  | None => Err (KeyError name)
  end.
End collaborators.

(** The character U+0022, which the log line of [_add_weights] quotes. *)
Definition dquote : string := String (Ascii.ascii_of_nat 34) EmptyString.

(** ** mc_fitter.py: class MCFitter *)

Module MCFitter.
(** The attributes [__init__] sets. [_out_dir] is only declared, and
    assigned when there is a fitting configuration; [_pdf] is the model of
    the world and [_plt_cfg] the plotting dictionary of the world. *)
Record t := {
  _name : pyval;
  _fit_cfg : pyval;
  _out_dir : option pyval;
  _rdf : option RDataFrame;
  _obs : Space;
  _obs_name : string;
  _minimizer : Minimizer;
}.

(** What [run] returns: the model on the pass-through path, the fitted
    parameters otherwise. *)
Inductive run_result :=
| RetPdf (pdf : BasePDF)
| RetPar (par : ParameterSet).

Section methods.
Context {engine : Engine}.

Definition __init__ (cfg : gmap string pyval) (rdf : option RDataFrame)
  : M t :=
  name ← lift (py_getitem (PyDict cfg) "name");
  let fit_cfg := default PyNone (cfg !! "fitting") in
  modify (set_plt_cfg (default PyNone (cfg !! "plotting")));;
  out_dir ← (if is_none fit_cfg then mret None
             else d ← lift (py_getitem (PyDict cfg) "out_dir");
                  mret (Some d));
  pdf ← read w_pdf;
  obs_name ← lift (unpack_single (pdf_obs pdf));
  mret {| _name := name; _fit_cfg := fit_cfg; _out_dir := out_dir;
          _rdf := rdf; _obs := pdf_space pdf; _obs_name := obs_name;
          _minimizer := AnealingMinimizer 10 0.05 |}.

Definition _add_weights (rdf : RDataFrame) (wgt_name : pyval)
  : M RDataFrame :=
  emit EvGetColumnNames;;
  let l_col := GetColumnNames rdf in
  if py_in wgt_name l_col then
    log DEBUG ("Weights column " +:+ py_str wgt_name
                 +:+ " found, not defining ones");;
    mret rdf
  else
    log DEBUG ("Weights column " +:+ py_str wgt_name
                 +:+ " not found, defining " +:+ dquote +:+ "weights"
                 +:+ dquote +:+ " as ones");;
    match wgt_name with
    | PyStr w =>
        emit (EvDefine w "1.0");;
        mret (Define rdf w (NDouble 1))
    | _ => raise (TypeError "Define: the column name must be a string")
    end.

Definition _res_to_par (self : t) (res : FitResult) : M ParameterSet :=
  if is_none (_fit_cfg self) then
    raise (ValueError "Cannot find fit configuration")
  else
    err_method ← lift (py_getitem (_fit_cfg self) "error_method");
    if py_ne_str err_method "minuit_hesse" then
      raise (NotImplementedError
               ("Method " +:+ py_str err_method
                  +:+ " not implemented, only minuit_hesse allowed"))
    else
      res ← call_hesse res (py_str err_method);
      emit EvFreeze;;
      let res := freeze res in
      lift (fill_parameter ∅ (res_params res)).

Definition _fit (self : t) (zdt : zdata) : M ParameterSet :=
  log INFO ("Fitting component " +:+ py_str (_name self));;
  emit PrintPdf;;
  emit EvUnbinnedNLL;;
  res ← call_minimize (_minimizer self) zdt;
  emit PrintResult;;
  par ← _res_to_par self res;
  mret par.

Definition _get_data (self : t) : M zdata :=
  if is_none (_fit_cfg self) then
    raise (ValueError "Cannot find fit configuration")
  else
    weights_column ← lift (py_getitem (_fit_cfg self) "weights_column");
    match _rdf self with
    | None => raise (AttributeError "GetColumnNames")
    | Some rdf0 =>
        rdf ← _add_weights rdf0 weights_column;
        match weights_column with
        | PyStr w =>
            d_data ← as_numpy rdf [_obs_name self; w];
            arr_obs ← lift (array_getitem d_data (_obs_name self));
            arr_wgt ← lift (array_getitem d_data w);
            emit EvFromNumpy;;
            mret {| zd_obs := _obs self; zd_array := arr_obs;
                    zd_weights := arr_wgt |}
        | _ => raise (TypeError "AsNumpy: column names must be strings")
        end
    end.

(** [self._out_dir], an attribute that may never have been assigned *)
Definition out_dir_attr (self : t) : M pyval :=
  match _out_dir self with
  | Some d => mret d
  | None => raise (AttributeError "_out_dir")
  end.

Definition _plot_fit (self : t) (data : zdata) : M unit :=
  plt_cfg ← read w_plt_cfg;
  if is_none plt_cfg then
    log WARNING "No plotting configuration found, will skip plotting"
  else
    out_dir ← out_dir_attr self;
    makedirs out_dir;;
    plot data plt_cfg;;
    let plot_path :=
      py_str out_dir +:+ "/" +:+ py_str (_name self) +:+ ".png" in
    log INFO ("Saving fit plot to: " +:+ plot_path);;
    savefig plot_path.

(** The body of the loop of [_fix_tails], for the parameter [par]. *)
Definition fix_tail (sig_par : ParameterSet) (par : nat) : M unit :=
  name ← name_of par;
  if negb (contains sig_par name) then
    log DEBUG ("Skipping non signal parameter: " +:+ name)
  else if endswith name "_flt" then
    log DEBUG ("Not fixing " +:+ name)
  else
    '(val, _) ← lift (getitem sig_par name);
    set_value par val;;
    set_floating par false;;
    emit (LogValue INFO name val).

Definition _fix_tails (sig_par : ParameterSet) : M unit :=
  s_par ← get_params;
  log INFO (str_mul 60 "-");;
  log INFO "Fixing tails";;
  log INFO (str_mul 60 "-");;
  for_each (fix_tail sig_par) s_par.

(** [pars_path] of [run] *)
Definition pars_path (out_dir name : pyval) : string :=
  py_str out_dir +:+ "/" +:+ py_str name +:+ ".json".

Definition run (self : t) : M run_result :=
  if is_none (_fit_cfg self) then
    pdf ← read w_pdf;
    mret (RetPdf pdf)
  else
    match _rdf self with
    | None => raise (ValueError "Dataframe not found")
    | Some _ =>
        out_dir ← out_dir_attr self;
        let pars_path := pars_path out_dir (_name self) in
        found ← isfile pars_path;
        par ← (if negb found then
                 data ← _get_data self;
                 par ← _fit self data;
                 _plot_fit self data;;
                 to_json par pars_path;;
                 mret par
               else
                 log WARNING ("Fit parameters for component "
                                +:+ py_str (_name self)
                                +:+ " found, loading: " +:+ pars_path);;
                 from_json pars_path);
        _fix_tails par;;
        mret (RetPar par)
    end.
End methods.
End MCFitter.

(** ** fit_component.py: class FitComponent *)

Module FitComponent.
(** The attributes [__init__] sets; [_pdf] is the model of the world and
    [_plt_cfg] the plotting dictionary of the world. *)
Record t := {
  _name : pyval;
  _fit_cfg : pyval;
  _rdf : option RDataFrame;
  _obs : Space;
  _obs_name : string;
  _minimizer : Minimizer;
}.

Section methods.
Context {engine : Engine}.

Definition __init__ (cfg : gmap string pyval) (rdf : option RDataFrame)
  : M t :=
  name ← lift (py_getitem (PyDict cfg) "name");
  let fit_cfg := default PyNone (cfg !! "fitting") in
  modify (set_plt_cfg (default PyNone (cfg !! "plotting")));;
  pdf ← read w_pdf;
  obs_name ← lift (unpack_single (pdf_obs pdf));
  mret {| _name := name; _fit_cfg := fit_cfg; _rdf := rdf;
          _obs := pdf_space pdf; _obs_name := obs_name;
          _minimizer := Minuit |}.

Definition _add_weights (rdf : RDataFrame) (wgt_name : pyval)
  : M RDataFrame :=
  emit EvGetColumnNames;;
  let l_col := GetColumnNames rdf in
  if py_in wgt_name l_col then
    log DEBUG ("Weights column " +:+ py_str wgt_name
                 +:+ " found, not defining ones");;
    mret rdf
  else
    log DEBUG ("Weights column " +:+ py_str wgt_name
                 +:+ " not found, defining " +:+ dquote +:+ "weights"
                 +:+ dquote +:+ " as ones");;
    match wgt_name with
    | PyStr w =>
        emit (EvDefine w "1");;
        mret (Define rdf w (NInt 1))
    | _ => raise (TypeError "Define: the column name must be a string")
    end.

Definition _res_to_par (self : t) (res : FitResult) : M ParameterSet :=
  if is_none (_fit_cfg self) then
    raise (ValueError "Cannot find fit configuration")
  else
    err_method ← lift (py_getitem (_fit_cfg self) "error_method");
    if py_ne_str err_method "minuit_hesse" then
      raise (NotImplementedError
               ("Method " +:+ py_str err_method
                  +:+ " not implemented, only minuit_hesse allowed"))
    else
      res ← call_hesse res (py_str err_method);
      emit EvFreeze;;
      let res := freeze res in
      lift (fill_parameter ∅ (res_params res)).

Definition _fit (self : t) (zdt : zdata) : M ParameterSet :=
  log INFO ("Fitting component " +:+ py_str (_name self));;
  emit PrintPdf;;
  emit EvUnbinnedNLL;;
  res ← call_minimize (_minimizer self) zdt;
  emit PrintResult;;
  par ← _res_to_par self res;
  mret par.

Definition _get_data (self : t) : M zdata :=
  if is_none (_fit_cfg self) then
    raise (ValueError "Cannot find fit configuration")
  else
    weights_column ← lift (py_getitem (_fit_cfg self) "weights_column");
    match _rdf self with
    | None => raise (AttributeError "GetColumnNames")
    | Some rdf0 =>
        rdf ← _add_weights rdf0 weights_column;
        match weights_column with
        | PyStr w =>
            d_data ← as_numpy rdf [_obs_name self; w];
            arr_obs ← lift (array_getitem d_data (_obs_name self));
            arr_wgt ← lift (array_getitem d_data w);
            emit EvFromNumpy;;
            mret {| zd_obs := _obs self; zd_array := arr_obs;
                    zd_weights := arr_wgt |}
        | _ => raise (TypeError "AsNumpy: column names must be strings")
        end
    end.

(** [del self._plt_cfg[key]]: the shared dictionary loses the key. *)
Definition del_plt_cfg (key : string) : M unit :=
  plt_cfg ← read w_plt_cfg;
  match plt_cfg with
  | PyDict d =>
      match d !! key with
      | Some _ => modify (set_plt_cfg (PyDict (delete key d)))
      | None => raise (KeyError key)
      end
  | _ => raise (TypeError "object does not support item deletion")
  end.

Definition _plot_fit (self : t) (data : zdata) : M unit :=
  plt_cfg ← read w_plt_cfg;
  if is_none plt_cfg then
    log WARNING "No plotting configuration found, will skip plotting"
  else
    plot_dir ← lift (py_getitem plt_cfg "plot_dir");
    del_plt_cfg "plot_dir";;
    makedirs plot_dir;;
    plt_cfg ← read w_plt_cfg;
    plot data plt_cfg;;
    let plot_path :=
      py_str plot_dir +:+ "/" +:+ py_str (_name self) +:+ ".png" in
    log INFO ("Saving fit plot to: " +:+ plot_path);;
    savefig plot_path.

(** The body of the loop of [_fix_tails], for the parameter [par]. *)
Definition fix_tail (sig_par : ParameterSet) (par : nat) : M unit :=
  name ← name_of par;
  if negb (contains sig_par name) then
    log DEBUG ("Skipping non signal parameter: " +:+ name)
  else if endswith name "_flt" then
    log DEBUG ("Not fixing " +:+ name)
  else
    '(val, _) ← lift (getitem sig_par name);
    set_value par val;;
    set_floating par true;;
    emit (LogValue INFO name val).

Definition _fix_tails (sig_par : ParameterSet) : M unit :=
  s_par ← get_params;
  log INFO (str_mul 60 "-");;
  log INFO "Fixing tails";;
  log INFO (str_mul 60 "-");;
  for_each (fix_tail sig_par) s_par.

Definition get_pdf (self : t) : M BasePDF :=
  if is_none (_fit_cfg self) then
    read w_pdf
  else
    match _rdf self with
    | None => raise (ValueError "Dataframe not found")
    | Some _ =>
        data ← _get_data self;
        par ← _fit self data;
        _fix_tails par;;
        _plot_fit self data;;
        read w_pdf
    end.
End methods.
End FitComponent.

(** ** The tail-fixing policy, as the spec words it

    The spec's TailFixingPolicy (section 4.3), for one live parameter [p]:
    skip it when its name is not in [fittedParams]; skip it when its name
    ends with the reserved suffix; otherwise set its value to the fitted
    value and its floating flag to [not freeze]. The loops of the two
    classes are compared with it below. *)
Definition TailFixingPolicy (freeze : bool) (fittedParams : ParameterSet)
    (p : zparam) : zparam :=
  match fittedParams !! par_name p with
  | None => p
  | Some (val, _) =>
      if endswith (par_name p) "_flt" then p
      else with_floating (with_value p val) (negb freeze)
  end.

(** ** The tail-fixing loop, parameter by parameter

    What the loop of [_fix_tails] does with a parameter [p] of the model:
    a fixed parameter is not listed by [get_params]; a listed one is
    skipped when its name is not in the set or carries the reserved
    suffix; otherwise the value of the set is assigned, or refused by
    [set_value] when it lies outside the limits of [p]. *)
Inductive visit :=
| NotListed
| NotSignal
| Exempt
| Assigned (val : float)
| Refused (val : float).

Definition visit_of (sig_par : ParameterSet) (p : zparam) : visit :=
  if par_floating p then
    match sig_par !! par_name p with
    | None => NotSignal
    | Some (val, _) =>
        if endswith (par_name p) "_flt" then Exempt
        else if outside_limits p val then Refused val
        else Assigned val
    end
  else NotListed.

(** The parameter [p] after an iteration that did not raise. *)
Definition visited (freeze : bool) (sig_par : ParameterSet) (p : zparam)
  : zparam :=
  match visit_of sig_par p with
  | Assigned val => with_floating (with_value p val) (negb freeze)
  | _ => p
  end.

(** The parameters as the loop leaves them: the first refused assignment
    ends the loop, and the parameters after it are not reached. *)
Fixpoint tails_params (freeze : bool) (sig_par : ParameterSet)
    (l : list zparam) : list zparam :=
  match l with
  | [] => []
  | p :: rest =>
      match visit_of sig_par p with
      | Assigned val =>
          with_floating (with_value p val) (negb freeze)
            :: tails_params freeze sig_par rest
      | Refused _ => p :: rest
      | _ => p :: tails_params freeze sig_par rest
      end
  end.

(** The lines the loop logs, one per parameter it gets past. *)
Fixpoint loop_log (sig_par : ParameterSet) (l : list zparam) : list event :=
  match l with
  | [] => []
  | p :: rest =>
      match visit_of sig_par p with
      | NotListed => loop_log sig_par rest
      | NotSignal =>
          Log DEBUG ("Skipping non signal parameter: " +:+ par_name p)
            :: loop_log sig_par rest
      | Exempt =>
          Log DEBUG ("Not fixing " +:+ par_name p) :: loop_log sig_par rest
      | Assigned val =>
          LogValue INFO (par_name p) val :: loop_log sig_par rest
      | Refused _ => []
      end
  end.

(** The outcome of the loop: the error of the first refused assignment. *)
Fixpoint tails_result (sig_par : ParameterSet) (l : list zparam)
  : result unit :=
  match l with
  | [] => Ok tt
  | p :: rest =>
      match visit_of sig_par p with
      | Refused _ => Err (ValueError (limits_msg (par_name p)))
      | _ => tails_result sig_par rest
      end
  end.

(** One iteration of the loop, on the listed parameter [p] that stands
    after the parameters [pre] and before [rest]: its outcome and the world
    it leaves. *)
Definition tail_step (freeze : bool) (sig_par : ParameterSet)
    (pre : list zparam) (p : zparam) (rest : list zparam) (w : World)
  : result unit * World :=
  match visit_of sig_par p with
  | NotListed => (Ok tt, w)
  | NotSignal =>
      (Ok tt,
       add_trace [Log DEBUG ("Skipping non signal parameter: "
                               +:+ par_name p)] w)
  | Exempt => (Ok tt, add_trace [Log DEBUG ("Not fixing " +:+ par_name p)] w)
  | Assigned val =>
      (Ok tt,
       add_trace [LogValue INFO (par_name p) val]
         (with_pdf_params
            (pre ++ with_floating (with_value p val) (negb freeze) :: rest)
            w))
  | Refused _ => (Err (ValueError (limits_msg (par_name p))), w)
  end.

(** Everything [_fix_tails] logs on the model [pdf]. *)
Definition tails_log (sig_par : ParameterSet) (pdf : BasePDF) : list event :=
  [Log INFO (str_mul 60 "-"); Log INFO "Fixing tails";
   Log INFO (str_mul 60 "-")]
  ++ loop_log sig_par (pdf_params pdf).

(** The lines of the logger. *)
Definition is_log (e : event) : bool :=
  match e with
  | Log _ _ | LogValue _ _ _ => true
  | _ => false
  end.

(** The calls that fit, plot, read the data or write the cache. *)
Definition is_fit_or_plot (e : event) : bool :=
  match e with
  | EvGetColumnNames | EvDefine _ _ | EvAsNumpy _ | EvFromNumpy
  | EvUnbinnedNLL | EvMinimize _ | EvHesse _ | EvFreeze
  | EvMakedirs _ | EvPlot | EvSavefig _ | EvToJson _ => true
  | _ => false
  end.

(** ** A toy instance: the configuration of tests/test_fit_component.py *)

(** The toy minimiser moves every floating parameter up by one and
    reports the floating parameters; it fails when a value it would report
    is outside the limits of a parameter of that name. *)
Definition toy_moved (pdf : BasePDF) : list zparam :=
  (λ p, if par_floating p then with_value p (par_value p + 1)%float else p)
    <$> pdf_params pdf.

Definition toy_result (moved : list zparam) : FitResult :=
  {| res_params :=
       (λ p, (par_name p, (par_value p, None)))
         <$> filter (λ p, par_floating p = true) moved;
     res_frozen := false |}.

Definition toy_minimize (pdf : BasePDF) : result (BasePDF * FitResult) :=
  let moved := toy_moved pdf in
  let res := toy_result moved in
  if decide (Forall (λ p, Forall (λ it, par_name p = it.1 →
                                        outside_limits p it.2.1 = false)
                            (res_params res)) moved)
  then Ok (with_params pdf moved, res)
  else Err (ExternalError "no minimum within the limits").

Definition toy_hesse (res : FitResult) : FitResult :=
  {| res_params :=
       (λ it, (it.1, (it.2.1, Some 0.5%float))) <$> res_params res;
     res_frozen := res_frozen res |}.

Definition toy_engine : Engine.
Proof.
  refine {| minimize := λ _ pdf _, toy_minimize pdf;
            hesse := λ res _, Ok (toy_hesse res);
            zfit_plot := λ _ _ _, Ok tt;
            py_repr := λ _, "<object>" |}.
  - intros _ pdf _ pdf' res. unfold toy_minimize.
    destruct (decide _) as [Hall|]; [|discriminate].
    intros [= <- <-] p n v e Hp Hit Hn.
    rewrite Forall_forall in Hall. specialize (Hall p Hp).
    rewrite Forall_forall in Hall. exact (Hall (n, (v, e)) Hit Hn).
  - intros res _ res' [= <-]. unfold res_values, toy_hesse. simpl.
    rewrite <- list_fmap_compose. apply list_fmap_ext.
    by intros i [n [v e]] _.
Defined.

Definition toy_space : Space :=
  {| space_obs := ["mass"]; space_limits := [(5200, 5400)%float] |}.

(** The two parameters of the toy Gaussian of the tests. *)
Definition toy_mu : zparam :=
  {| par_name := "mu_flt"; par_value := 5300; par_floating := true;
     par_lower := Some 5200%float; par_upper := Some 5400%float |}.

Definition toy_sg : zparam :=
  {| par_name := "sg"; par_value := 10; par_floating := true;
     par_lower := Some 10%float; par_upper := Some 100%float |}.

Definition toy_pdf : BasePDF :=
  {| pdf_space := toy_space; pdf_params := [toy_mu; toy_sg] |}.

Definition toy_rdf : RDataFrame :=
  {| rdf_nentries := 3;
     rdf_columns :=
       [("mass", λ i, NDouble (match i with
                               | 0 => 5290
                               | 1 => 5300
                               | _ => 5310
                               end))] |}.

Definition toy_fitting (error_method : string) : pyval :=
  PyDict (<["error_method" := PyStr error_method]>
          (<["weights_column" := PyStr "weights"]> ∅)).

Definition toy_plotting : pyval :=
  PyDict (<["nbins" := PyInt 50]> (<["stacked" := PyBool true]> ∅)).

Definition toy_out_dir : string :=
  "/tmp/rx_calibration/tests/fit_component/toy".

Definition toy_cfg : gmap string pyval :=
  <["name" := PyStr "toy"]>
  (<["out_dir" := PyStr toy_out_dir]>
  (<["fitting" := toy_fitting "minuit_hesse"]>
  (<["plotting" := toy_plotting]> ∅))).

Definition toy_world : World :=
  {| w_pdf := toy_pdf; w_plt_cfg := toy_plotting; w_files := ∅;
     w_dirs := ∅; w_trace := [] |}.

Definition toy_mc (error_method : string) (rdf : option RDataFrame)
  : MCFitter.t :=
  {| MCFitter._name := PyStr "toy";
     MCFitter._fit_cfg := toy_fitting error_method;
     MCFitter._out_dir := Some (PyStr toy_out_dir);
     MCFitter._rdf := rdf;
     MCFitter._obs := toy_space;
     MCFitter._obs_name := "mass";
     MCFitter._minimizer := AnealingMinimizer 10 0.05 |}.

Definition toy_fc (error_method : string) (rdf : option RDataFrame)
  : FitComponent.t :=
  {| FitComponent._name := PyStr "toy";
     FitComponent._fit_cfg := toy_fitting error_method;
     FitComponent._rdf := rdf;
     FitComponent._obs := toy_space;
     FitComponent._obs_name := "mass";
     FitComponent._minimizer := Minuit |}.

Definition toy_data : zdata :=
  {| zd_obs := toy_space;
     zd_array := [NDouble 5290; NDouble 5300; NDouble 5310];
     zd_weights := [NDouble 1; NDouble 1; NDouble 1] |}.

(** A parameter set as a previous run would have cached it. *)
Definition toy_par : ParameterSet :=
  <["mu_flt" := (5301, 0.5)%float]> (<["sg" := (11, 0.5)%float]> ∅).

Definition toy_json : string := toy_out_dir +:+ "/toy.json".

Definition cached_world : World :=
  set_files (<[toy_json := FileParameter toy_par]> ∅) toy_world.

(** The world [_fix_tails] leaves, whether it returns or raises: the
    parameters as the loop leaves them, and the log lines. *)
Definition fixed_world (freeze : bool) (sp : ParameterSet) (w : World)
  : World :=
  with_pdf_params (tails_params freeze sp (pdf_params (w_pdf w)))
    (add_trace (tails_log sp (w_pdf w)) w).

(** The toy model with [sg] already fixed at 10, and the world with that
    model and the cached record, which holds 11 for [sg]. *)
Definition stale_pdf : BasePDF :=
  {| pdf_space := toy_space;
     pdf_params := [toy_mu; with_floating toy_sg false] |}.

Definition stale_world : World := set_pdf stale_pdf cached_world.

(** A record whose value for [sg] is below the lower limit of [sg]. *)
Definition low_par : ParameterSet := <["sg" := (5, 0.5)%float]> ∅.

(** The calls [_fit] makes up to and including the minimisation. *)
Definition fit_prologue (name : string) (m : Minimizer) : list event :=
  [Log INFO ("Fitting component " +:+ name); PrintPdf; EvUnbinnedNLL;
   EvMinimize m].

(** The message of the [NotImplementedError] of [_res_to_par]. *)
Definition unsupported_msg (method : string) : string :=
  "Method " +:+ method +:+ " not implemented, only minuit_hesse allowed".

(** The two debug lines of [_add_weights]. *)
Definition weights_found_msg (wgt_name : string) : string :=
  "Weights column " +:+ wgt_name +:+ " found, not defining ones".

Definition weights_ones_msg (wgt_name : string) : string :=
  "Weights column " +:+ wgt_name +:+ " not found, defining " +:+ dquote
    +:+ "weights" +:+ dquote +:+ " as ones".

(** What the plotting stage of a fit records: the skip warning without a
    plotting configuration, the rendering and the saved figure with one. *)
Definition plot_stage (plt_cfg : pyval) (evs : list event) : Prop :=
  if is_none plt_cfg
  then evs = [Log WARNING "No plotting configuration found, will skip plotting"]
  else EvPlot ∈ evs ∧ ∃ png, EvSavefig png ∈ evs.

(** The configuration of the tests with its [out_dir] entry removed. *)
Definition cfg_no_out_dir : gmap string pyval := delete "out_dir" toy_cfg.

(** The fitter and the component the tests construct, and the worlds their
    entry points are run in. *)
Definition toy_fitter : MCFitter.t := toy_mc "minuit_hesse" (Some toy_rdf).

Definition toy_component : FitComponent.t :=
  toy_fc "minuit_hesse" (Some toy_rdf).

(** [FitComponent] reads its plot directory from the plotting dictionary. *)
Definition fc_world : World :=
  set_plt_cfg
    (PyDict (<["plot_dir" := PyStr toy_out_dir]> (<["nbins" := PyInt 50]> ∅)))
    toy_world.

(** The configuration of the tests without its fitting section. *)
Definition cfg_no_fitting : gmap string pyval := delete "fitting" toy_cfg.


(** ** Definitions for the further properties *)

(** The world a fit that returned leaves: the calls of [_fit] in order and
    the model where the minimiser put it. *)
Definition fitted_world (name : string) (m : Minimizer) (pdf' : BasePDF)
    (w : World) : World :=
  add_trace [EvHesse "minuit_hesse"; EvFreeze]
    (add_trace [PrintResult] (set_pdf pdf' (add_trace (fit_prologue name m) w))).

(** The dataset [_get_data] builds from the source [rdf], the observable
    [obs] and the weight column [wcol], [one] being the constant the class
    defines a missing weight column with: one value and one weight per
    entry, read from the source, the weights all [one] when the source has
    no such column. *)
Definition dataset_of (rdf : RDataFrame) (obs wcol : string) (one : num)
    (data : zdata) : Prop :=
  length (zd_array data) = rdf_nentries rdf
  ∧ length (zd_weights data) = rdf_nentries rdf
  ∧ if bool_decide (wcol ∈ GetColumnNames rdf)
    then column rdf obs = Some (zd_array data)
         ∧ column rdf wcol = Some (zd_weights data)
    else column (Define rdf wcol one) obs = Some (zd_array data)
         ∧ zd_weights data = replicate (rdf_nentries rdf) one.

(** The path of the figure [_plot_fit] saves. *)
Definition plot_path {engine : Engine} (dir : string) (name : pyval) : string :=
  dir +:+ "/" +:+ py_str name +:+ ".png".

(** The warning of [_plot_fit] without a plotting configuration. *)
Definition skip_plot_msg : string :=
  "No plotting configuration found, will skip plotting".

(** The calls that look up, read or write the cached parameter record. *)
Definition is_cache_io (e : event) : bool :=
  match e with
  | EvIsFile _ | EvToJson _ | EvFromJson _ => true
  | _ => false
  end.

(** One step from [w] to [w'] that stays clear of the cache: the calls
    recorded in between are no cache calls, and every parameter record
    found afterwards was there before. *)
Definition no_cache_step (w w' : World) : Prop :=
  (∃ evs, w_trace w' = w_trace w ++ evs
          ∧ Forall (λ e, is_cache_io e = false) evs)
  ∧ ∀ p par, w_files w' !! p = Some (FileParameter par) →
             w_files w !! p = Some (FileParameter par).

(** A computation that stays clear of the cache whatever its outcome. *)
Definition cache_free {A : Type} (m : M A) : Prop :=
  ∀ w r w', m w = (r, w') → no_cache_step w w'.

(** The dataset the toy component builds: its default weights are the
    integer one. *)
Definition toy_data_fc : zdata :=
  {| zd_obs := toy_space;
     zd_array := [NDouble 5290; NDouble 5300; NDouble 5310];
     zd_weights := [NInt 1; NInt 1; NInt 1] |}.

(** A fitted set that knows [sg] only. *)
Definition sg_only : ParameterSet := <["sg" := (11, 0.5)%float]> ∅.

(** The items of a fit result after the Hessian step, for the toy model. *)
Definition toy_items : list (string * (float * option float)) :=
  [("mu_flt", (5301, Some 0.5)%float); ("sg", (11, Some 0.5)%float)].

(** A fitter like the toy one with another fitting configuration, another
    dataframe and another minimiser. *)
Definition other_fitter : MCFitter.t :=
  {| MCFitter._name := PyStr "toy";
     MCFitter._fit_cfg := toy_fitting "bootstrap";
     MCFitter._out_dir := Some (PyStr toy_out_dir);
     MCFitter._rdf := Some (Define toy_rdf "weights" (NDouble 1));
     MCFitter._obs := toy_space;
     MCFitter._obs_name := "mass";
     MCFitter._minimizer := Minuit |}.

(** ** Proofs *)

Section proofs.
Context {engine : Engine}.

(** *** The monad *)

Local Arguments add_trace : simpl never.

Lemma add_trace_nil (w : World) : add_trace [] w = w.
Proof. destruct w. unfold add_trace. simpl. by rewrite app_nil_r. Qed.

Lemma add_trace_app (a b : list event) (w : World) :
  add_trace b (add_trace a w) = add_trace (a ++ b) w.
Proof. unfold add_trace. simpl. by rewrite app_assoc. Qed.

(** Runs the binds of a computation whose steps do not branch. *)
Ltac mrun :=
  unfold mbind, M_bind, mret, M_ret, log, emit, read, modify, lift, raise;
  simpl; rewrite ?add_trace_app; simpl.

Lemma bind_ok_inv {A B : Type} (m : M A) (f : A → M B) w b w' :
  (m ≫= f) w = (Ok b, w') →
  ∃ a w1, m w = (Ok a, w1) ∧ f a w1 = (Ok b, w').
Proof.
  unfold mbind, M_bind. destruct (m w) as [[a|e] w1]; [eauto | discriminate].
Qed.

Lemma bind_run {A B : Type} (m : M A) (f : A → M B) w a w1 :
  m w = (Ok a, w1) → (m ≫= f) w = f a w1.
Proof. unfold mbind, M_bind. by intros ->. Qed.

Lemma bind_err {A B : Type} (m : M A) (f : A → M B) w e w1 :
  m w = (Err e, w1) → (m ≫= f) w = (Err e, w1).
Proof. unfold mbind, M_bind. by intros ->. Qed.

(** *** The parameter objects *)

Lemma with_pdf_params_trace (l : list zparam) (evs : list event) (w : World) :
  with_pdf_params l (add_trace evs w) = add_trace evs (with_pdf_params l w).
Proof. done. Qed.

Lemma with_pdf_params_twice (l l' : list zparam) (w : World) :
  with_pdf_params l (with_pdf_params l' w) = with_pdf_params l w.
Proof. done. Qed.

Lemma with_pdf_params_id (l : list zparam) (w : World) :
  pdf_params (w_pdf w) = l → with_pdf_params l w = w.
Proof. intros <-. by destruct w as [[? ?] ? ? ? ?]. Qed.

Lemma deref_middle (pre : list zparam) (p : zparam) (rest : list zparam)
    (w : World) :
  pdf_params (w_pdf w) = pre ++ p :: rest →
  deref (length pre) w = (Ok p, w).
Proof.
  intros Hw. unfold deref, mbind, M_bind, read. simpl.
  by rewrite Hw, list_lookup_middle.
Qed.

Lemma store_middle (pre : list zparam) (p q : zparam) (rest : list zparam)
    (w : World) :
  pdf_params (w_pdf w) = pre ++ p :: rest →
  store (length pre) q w = (Ok tt, with_pdf_params (pre ++ q :: rest) w).
Proof.
  intros Hw. unfold store, modify. rewrite Hw.
  by rewrite insert_app_r_alt, Nat.sub_diag.
Qed.

Lemma set_value_middle (pre : list zparam) (p : zparam) (rest : list zparam)
    (val : float) (w : World) :
  pdf_params (w_pdf w) = pre ++ p :: rest →
  set_value (length pre) val w =
    if outside_limits p val
    then (Err (ValueError (limits_msg (par_name p))), w)
    else (Ok tt, with_pdf_params (pre ++ with_value p val :: rest) w).
Proof.
  intros Hw. unfold set_value.
  rewrite (bind_run _ _ _ _ _ (deref_middle _ _ _ _ Hw)).
  destruct (outside_limits p val); [done|]. by apply (store_middle _ p).
Qed.

Lemma set_floating_middle (pre : list zparam) (p : zparam)
    (rest : list zparam) (b : bool) (w : World) :
  pdf_params (w_pdf w) = pre ++ p :: rest →
  set_floating (length pre) b w
  = (Ok tt, with_pdf_params (pre ++ with_floating p b :: rest) w).
Proof.
  intros Hw. unfold set_floating.
  rewrite (bind_run _ _ _ _ _ (deref_middle _ _ _ _ Hw)).
  by apply (store_middle _ p).
Qed.

(** *** The loops, iteration by iteration *)

Lemma visit_fixed (sp : ParameterSet) (p : zparam) :
  par_floating p = false → visit_of sp p = NotListed.
Proof. unfold visit_of. by intros ->. Qed.

Lemma visit_listed (sp : ParameterSet) (p : zparam) :
  par_floating p = true → visit_of sp p ≠ NotListed.
Proof.
  unfold visit_of. intros ->. destruct (sp !! par_name p) as [[v e]|]; [|done].
  destruct (endswith _ _); [done|]. by destruct (outside_limits p v).
Qed.

Lemma mc_fix_tail (sp : ParameterSet) (pre : list zparam) (p : zparam)
    (rest : list zparam) (w : World) :
  pdf_params (w_pdf w) = pre ++ p :: rest →
  par_floating p = true →
  MCFitter.fix_tail sp (length pre) w = tail_step true sp pre p rest w.
Proof.
  intros Hw Hf. unfold MCFitter.fix_tail, name_of, tail_step, visit_of.
  rewrite Hf.
  rewrite (bind_run _ _ _ _ _
             (bind_run _ _ _ _ _ (deref_middle _ _ _ _ Hw))).
  unfold contains, getitem.
  destruct (sp !! par_name p) as [[v e]|] eqn:Hl.
  - rewrite bool_decide_eq_true_2 by eauto. simpl.
    destruct (endswith (par_name p) "_flt"); [done|].
    unfold lift, mbind at 1, M_bind at 1.
    unfold mbind at 1, M_bind at 1.
    rewrite (set_value_middle _ _ _ _ _ Hw).
    destruct (outside_limits p v); [done|].
    unfold mbind at 1, M_bind at 1.
    rewrite (set_floating_middle pre (with_value p v) rest false) by done.
    by rewrite with_pdf_params_twice.
  - rewrite bool_decide_eq_false_2 by (by intros [? ?]). done.
Qed.

Lemma fc_fix_tail (sp : ParameterSet) (pre : list zparam) (p : zparam)
    (rest : list zparam) (w : World) :
  pdf_params (w_pdf w) = pre ++ p :: rest →
  par_floating p = true →
  FitComponent.fix_tail sp (length pre) w = tail_step false sp pre p rest w.
Proof.
  intros Hw Hf. unfold FitComponent.fix_tail, name_of, tail_step, visit_of.
  rewrite Hf.
  rewrite (bind_run _ _ _ _ _
             (bind_run _ _ _ _ _ (deref_middle _ _ _ _ Hw))).
  unfold contains, getitem.
  destruct (sp !! par_name p) as [[v e]|] eqn:Hl.
  - rewrite bool_decide_eq_true_2 by eauto. simpl.
    destruct (endswith (par_name p) "_flt"); [done|].
    unfold lift, mbind at 1, M_bind at 1.
    unfold mbind at 1, M_bind at 1.
    rewrite (set_value_middle _ _ _ _ _ Hw).
    destruct (outside_limits p v); [done|].
    unfold mbind at 1, M_bind at 1.
    rewrite (set_floating_middle pre (with_value p v) rest true) by done.
    by rewrite with_pdf_params_twice.
  - rewrite bool_decide_eq_false_2 by (by intros [? ?]). done.
Qed.

(** A loop whose body does what [tail_step] says, run over the floating
    parameters of [l], the parameters [pre] before them. *)
Lemma tails_loop (body : nat → M unit) (freeze : bool) (sp : ParameterSet) :
  (∀ pre p rest w,
     pdf_params (w_pdf w) = pre ++ p :: rest → par_floating p = true →
     body (length pre) w = tail_step freeze sp pre p rest w) →
  ∀ l pre w,
    pdf_params (w_pdf w) = pre ++ l →
    for_each body (floating_refs (length pre) l) w
    = (tails_result sp l,
       add_trace (loop_log sp l)
         (with_pdf_params (pre ++ tails_params freeze sp l) w)).
Proof.
  intros Hbody. induction l as [|p l IH]; intros pre w Hw.
  - simpl. rewrite add_trace_nil, with_pdf_params_id; done.
  - assert (∀ q w1, pdf_params (w_pdf w1) = pre ++ q :: l →
              for_each body (floating_refs (S (length pre)) l) w1
              = (tails_result sp l,
                 add_trace (loop_log sp l)
                   (with_pdf_params (pre ++ q :: tails_params freeze sp l)
                      w1))) as Hrest.
    { intros q w1 Hw1. specialize (IH (pre ++ [q]) w1).
      rewrite length_app, Nat.add_1_r, <- !app_assoc in IH. by apply IH. }
    simpl. destruct (par_floating p) eqn:Hf.
    + simpl. unfold mbind, M_bind. rewrite (Hbody pre p l w Hw Hf).
      unfold tail_step.
      pose proof (visit_listed sp p Hf) as Hv.
      destruct (visit_of sp p) as [| | |val|val]; [done|..].
      * rewrite (Hrest p) by done.
        by rewrite with_pdf_params_trace, add_trace_app.
      * rewrite (Hrest p) by done.
        by rewrite with_pdf_params_trace, add_trace_app.
      * rewrite (Hrest (with_floating (with_value p val) (negb freeze)))
          by done.
        by rewrite with_pdf_params_trace, with_pdf_params_twice,
          add_trace_app.
      * rewrite add_trace_nil, with_pdf_params_id; done.
    + rewrite (visit_fixed sp p Hf). by apply (Hrest p).
Qed.

Lemma mc_fix_tails (sp : ParameterSet) (w : World) :
  MCFitter._fix_tails sp w
  = (tails_result sp (pdf_params (w_pdf w)), fixed_world true sp w).
Proof.
  unfold MCFitter._fix_tails, get_params, read, log, emit.
  unfold mbind, M_bind at 1 2 3 4. simpl. rewrite !add_trace_app.
  etrans; [apply (tails_loop _ true sp (mc_fix_tail sp) (pdf_params (w_pdf w)) []
                     (add_trace _ w) eq_refl)|].
  unfold fixed_world, tails_log.
  by rewrite with_pdf_params_trace, add_trace_app.
Qed.

Lemma fc_fix_tails (sp : ParameterSet) (w : World) :
  FitComponent._fix_tails sp w
  = (tails_result sp (pdf_params (w_pdf w)), fixed_world false sp w).
Proof.
  unfold FitComponent._fix_tails, get_params, read, log, emit.
  unfold mbind, M_bind at 1 2 3 4. simpl. rewrite !add_trace_app.
  etrans; [apply (tails_loop _ false sp (fc_fix_tail sp) (pdf_params (w_pdf w)) []
                     (add_trace _ w) eq_refl)|].
  unfold fixed_world, tails_log.
  by rewrite with_pdf_params_trace, add_trace_app.
Qed.

(** *** What the loop does to the parameters *)

Lemma visit_assigned (sp : ParameterSet) (p : zparam) (val : float) :
  visit_of sp p = Assigned val ↔
  par_floating p = true
  ∧ (∃ e, sp !! par_name p = Some (val, e))
  ∧ endswith (par_name p) "_flt" = false
  ∧ outside_limits p val = false.
Proof.
  unfold visit_of. destruct (par_floating p).
  - destruct (sp !! par_name p) as [[v e]|].
    + destruct (endswith _ _).
      * split; [done | by intros (_ & _ & ? & _)].
      * destruct (outside_limits p v) eqn:Ho.
        -- split; [done|]. intros (_ & [e' [= -> ->]] & _ & Ho').
           congruence.
        -- split.
           ++ intros [= <-]. eauto.
           ++ by intros (_ & [e' [= -> ->]] & _ & _).
    + split; [done | by intros (_ & [? ?] & _)].
  - split; [done | by intros (? & _)].
Qed.

Lemma visit_refused (sp : ParameterSet) (p : zparam) (val : float) :
  visit_of sp p = Refused val ↔
  par_floating p = true
  ∧ (∃ e, sp !! par_name p = Some (val, e))
  ∧ endswith (par_name p) "_flt" = false
  ∧ outside_limits p val = true.
Proof.
  unfold visit_of. destruct (par_floating p).
  - destruct (sp !! par_name p) as [[v e]|].
    + destruct (endswith _ _).
      * split; [done | by intros (_ & _ & ? & _)].
      * destruct (outside_limits p v) eqn:Ho.
        -- split.
           ++ intros [= <-]. eauto.
           ++ by intros (_ & [e' [= -> ->]] & _ & _).
        -- split; [done|]. intros (_ & [e' [= -> ->]] & _ & Ho').
           congruence.
    + split; [done | by intros (_ & [? ?] & _)].
  - split; [done | by intros (? & _)].
Qed.

(** The parameter a successful iteration leaves, spelled out. *)
Lemma visited_spec (freeze : bool) (sp : ParameterSet) (p : zparam) :
  (∀ val, visit_of sp p ≠ Refused val) →
  visited freeze sp p =
    match sp !! par_name p with
    | Some (v, _) =>
        if par_floating p && negb (endswith (par_name p) "_flt")
        then with_floating (with_value p v) (negb freeze) else p
    | None => p
    end.
Proof.
  unfold visited, visit_of. intros Hr.
  destruct (par_floating p); simpl.
  - destruct (sp !! par_name p) as [[v e]|]; [|done].
    destruct (endswith _ _); [done|]. simpl.
    destruct (outside_limits p v); [by destruct (Hr v) | done].
  - by destruct (sp !! par_name p) as [[v e]|].
Qed.

Lemma tails_params_length (freeze : bool) (sp : ParameterSet)
    (l : list zparam) :
  length (tails_params freeze sp l) = length l.
Proof.
  induction l as [|p l IH]; [done|]. cbn [tails_params].
  destruct (visit_of sp p); rewrite !length_cons; by rewrite ?IH.
Qed.

(** A parameter the loop assigns nothing to is left as it is, whether
    the loop returns or raises. *)
Lemma tails_params_keep (freeze : bool) (sp : ParameterSet)
    (l : list zparam) (i : nat) (p : zparam) :
  l !! i = Some p →
  (∀ val, visit_of sp p ≠ Assigned val) →
  tails_params freeze sp l !! i = Some p.
Proof.
  revert i. induction l as [|q l IH]; intros i; [done|].
  destruct i as [|i]; simpl.
  - intros [= ->] Hv. destruct (visit_of sp p) eqn:Hp; try done.
    by destruct (Hv val).
  - intros Hi Hv. destruct (visit_of sp q); simpl; auto.
Qed.

(** When the loop returns, no assignment was refused and every parameter
    is as its iteration left it. *)
Lemma tails_result_ok (sp : ParameterSet) (l : list zparam) :
  tails_result sp l = Ok tt ↔ ∀ p val, p ∈ l → visit_of sp p ≠ Refused val.
Proof.
  induction l as [|q l IH]; simpl.
  - split; [|done]. by intros _ p val ?%elem_of_nil.
  - destruct (visit_of sp q) eqn:Hq.
    5: { split; [done|]. intros H. by destruct (H q val); [left|]. }
    all: rewrite IH; split.
    all: try (intros H p v [->|Hin]%elem_of_cons; [by rewrite Hq | by apply H]).
    all: intros H p v Hin; apply H; by right.
Qed.

Lemma tails_params_ok (freeze : bool) (sp : ParameterSet) (l : list zparam) :
  tails_result sp l = Ok tt →
  tails_params freeze sp l = visited freeze sp <$> l.
Proof.
  induction l as [|q l IH]; simpl; [done|]. unfold visited at 1.
  destruct (visit_of sp q); try done; intros Hr; by rewrite IH.
Qed.

Lemma tails_result_inv (sp : ParameterSet) (l : list zparam) :
  tails_result sp l = Ok tt
  ∨ ∃ p val, p ∈ l ∧ visit_of sp p = Refused val
             ∧ tails_result sp l = Err (ValueError (limits_msg (par_name p))).
Proof.
  induction l as [|q l IH]; simpl; [by left|].
  destruct (visit_of sp q) eqn:Hq.
  5: { right. exists q, val. split; [by left | done]. }
  all: destruct IH as [?|(p & v & Hin & Hv & He)]; [by left|].
  all: right; exists p, v; split; [by right | done].
Qed.

(** The loop changes values and floating flags only. *)
Lemma tails_params_names (freeze : bool) (sp : ParameterSet)
    (l : list zparam) :
  par_name <$> tails_params freeze sp l = par_name <$> l.
Proof.
  induction l as [|p l IH]; [done|]. cbn [tails_params].
  destruct (visit_of sp p); rewrite !fmap_cons; by rewrite ?IH.
Qed.

Lemma tails_params_limits (freeze : bool) (sp : ParameterSet)
    (l : list zparam) :
  (λ p, (par_lower p, par_upper p)) <$> tails_params freeze sp l
  = (λ p, (par_lower p, par_upper p)) <$> l.
Proof.
  induction l as [|p l IH]; [done|]. cbn [tails_params].
  destruct (visit_of sp p); rewrite !fmap_cons; by rewrite ?IH.
Qed.

(** A second pass of the loop finds nothing to change and ends the way the
    first one did. *)
Lemma visit_of_assigned_again (freeze : bool) (sp : ParameterSet)
    (p : zparam) (val : float) :
  visit_of sp p = Assigned val →
  visit_of sp (with_floating (with_value p val) (negb freeze))
  = if freeze then NotListed else Assigned val.
Proof.
  intros (Hf & [e Hl] & Hs & Ho)%visit_assigned.
  destruct freeze; [done|]. apply visit_assigned. eauto.
Qed.

Lemma tails_params_idem (freeze : bool) (sp : ParameterSet)
    (l : list zparam) :
  tails_params freeze sp (tails_params freeze sp l)
  = tails_params freeze sp l
  ∧ tails_result sp (tails_params freeze sp l) = tails_result sp l.
Proof.
  induction l as [|p l [IH1 IH2]]; simpl; [done|].
  destruct (visit_of sp p) eqn:Hp; simpl; rewrite ?Hp.
  1-3: by rewrite IH1, IH2.
  - rewrite (visit_of_assigned_again freeze sp p val Hp).
    destruct freeze; simpl; by rewrite IH1, IH2.
  - done.
Qed.

(** Everything the loop logs is a line of the logger. *)
Lemma loop_log_lines (sp : ParameterSet) (l : list zparam) :
  Forall (λ e, is_log e = true) (loop_log sp l).
Proof.
  induction l as [|p l IH]; simpl; [done|].
  destruct (visit_of sp p); by repeat constructor.
Qed.

Lemma tails_log_lines (sp : ParameterSet) (pdf : BasePDF) :
  Forall (λ e, is_log e = true) (tails_log sp pdf).
Proof.
  unfold tails_log. apply Forall_app. split; [|apply loop_log_lines].
  by repeat constructor.
Qed.

Lemma tails_log_quiet (sp : ParameterSet) (pdf : BasePDF) :
  Forall (λ e, is_fit_or_plot e = false) (tails_log sp pdf).
Proof.
  eapply Forall_impl; [apply tails_log_lines|]. by intros [].
Qed.

Lemma fixed_world_params freeze (sp : ParameterSet) (w : World) :
  pdf_params (w_pdf (fixed_world freeze sp w))
  = tails_params freeze sp (pdf_params (w_pdf w)).
Proof. done. Qed.

Lemma fixed_world_idem freeze (sp : ParameterSet) (w : World) :
  w_pdf (fixed_world freeze sp (fixed_world freeze sp w))
  = w_pdf (fixed_world freeze sp w).
Proof.
  unfold fixed_world, with_pdf_params, with_params. simpl. f_equal.
  apply tails_params_idem.
Qed.

(** *** The policy of the spec *)

Lemma policy_flt freeze (sp : ParameterSet) (p : zparam) :
  endswith (par_name p) "_flt" = true → TailFixingPolicy freeze sp p = p.
Proof.
  intros Hs. unfold TailFixingPolicy.
  destruct (sp !! par_name p) as [[v e]|]; [|done]. by rewrite Hs.
Qed.

(** On a floating parameter whose assignment is not refused, the loop
    does what the policy of the spec says. *)
Lemma visited_policy freeze (sp : ParameterSet) (p : zparam) :
  par_floating p = true →
  (∀ val, visit_of sp p ≠ Refused val) →
  visited freeze sp p = TailFixingPolicy freeze sp p.
Proof.
  unfold visited, visit_of, TailFixingPolicy. intros -> Hr.
  destruct (sp !! par_name p) as [[v e]|]; [|done].
  destruct (endswith _ _); [done|].
  destruct (outside_limits p v); [by destruct (Hr v) | done].
Qed.

Lemma visit_flt (sp : ParameterSet) (p : zparam) (val : float) :
  endswith (par_name p) "_flt" = true → visit_of sp p ≠ Assigned val.
Proof. intros Hs (_ & _ & Hs' & _)%visit_assigned. congruence. Qed.

Lemma visit_unmatched (sp : ParameterSet) (p : zparam) (val : float) :
  sp !! par_name p = None → visit_of sp p ≠ Assigned val.
Proof. intros Hl (_ & [e He] & _)%visit_assigned. congruence. Qed.

(** C5: a live parameter whose name ends with the reserved suffix [_flt]
    comes out of the tail-fixing loop of either class exactly as it went
    in, value and floating flag, whatever the fitted set holds; and the
    spec's policy leaves it alone for either value of [freeze]. *)
Theorem flt_suffix_exempt (sig_par : ParameterSet) (w : World) (i : nat)
    (p : zparam) :
  pdf_params (w_pdf w) !! i = Some p →
  endswith (par_name p) "_flt" = true →
  pdf_params (w_pdf (MCFitter._fix_tails sig_par w).2) !! i = Some p
  ∧ pdf_params (w_pdf (FitComponent._fix_tails sig_par w).2) !! i = Some p
  ∧ ∀ freeze, TailFixingPolicy freeze sig_par p = p.
Proof.
  intros Hp Hs. rewrite mc_fix_tails, fc_fix_tails. cbn [snd].
  rewrite !fixed_world_params.
  rewrite !(tails_params_keep _ sig_par _ i p Hp)
    by (intros val; by apply visit_flt).
  auto using policy_flt.
Qed.

(** C6: applying [_fix_tails] a second time with the same fitted set
    leaves the model, every parameter's value and floating flag, as the
    first application left it, for the loop of either class; and the
    second application ends as the first did: it returns when the first
    returned, and raises the same [ValueError] when the first raised. *)
Theorem fix_tails_idempotent (sig_par : ParameterSet) (w : World) :
  (MCFitter._fix_tails sig_par (MCFitter._fix_tails sig_par w).2).1
  = (MCFitter._fix_tails sig_par w).1
  ∧ w_pdf (MCFitter._fix_tails sig_par (MCFitter._fix_tails sig_par w).2).2
    = w_pdf (MCFitter._fix_tails sig_par w).2
  ∧ (FitComponent._fix_tails sig_par
       (FitComponent._fix_tails sig_par w).2).1
    = (FitComponent._fix_tails sig_par w).1
  ∧ w_pdf (FitComponent._fix_tails sig_par
             (FitComponent._fix_tails sig_par w).2).2
    = w_pdf (FitComponent._fix_tails sig_par w).2.
Proof.
  repeat (rewrite ?mc_fix_tails, ?fc_fix_tails; cbn [fst snd]).
  rewrite !fixed_world_idem, !fixed_world_params.
  by rewrite !(proj2 (tails_params_idem _ _ _)).
Qed.

(** *** The entry points *)

Lemma is_none_true (v : pyval) : is_none v = true ↔ v = PyNone.
Proof. destruct v; simpl; split; congruence. Qed.

Lemma is_none_false (v : pyval) : is_none v = false ↔ v ≠ PyNone.
Proof. destruct v; simpl; split; congruence. Qed.

Lemma mc_init_inv (cfg : gmap string pyval) rdf w self w1 :
  MCFitter.__init__ cfg rdf w = (Ok self, w1) →
  MCFitter._fit_cfg self = default PyNone (cfg !! "fitting")
  ∧ MCFitter._rdf self = rdf
  ∧ cfg !! "name" = Some (MCFitter._name self)
  ∧ w1 = set_plt_cfg (default PyNone (cfg !! "plotting")) w.
Proof.
  unfold MCFitter.__init__.
  intros (name & w2 & Hname & Hrun)%bind_ok_inv.
  apply bind_ok_inv in Hrun as ([] & w3 & Hplt & Hrun).
  apply bind_ok_inv in Hrun as (out_dir & w4 & Hout & Hrun).
  apply bind_ok_inv in Hrun as (pdf & w5 & Hpdf & Hrun).
  apply bind_ok_inv in Hrun as (obs_name & w6 & Hobs & Hrun).
  injection Hrun as <- <-. simpl.
  unfold lift, py_getitem in Hname.
  destruct (cfg !! "name") as [x|] eqn:Hn; [|done].
  injection Hname as <- <-. injection Hplt as <-.
  injection Hpdf as <- <-. injection Hobs as _ <-.
  assert (w4 = set_plt_cfg (default PyNone (cfg !! "plotting")) w) as ->.
  { destruct (is_none (default PyNone (cfg !! "fitting"))).
    - by injection Hout as _ <-.
    - apply bind_ok_inv in Hout as (d & w7 & Hd & Hret).
      injection Hret as _ <-. by injection Hd as _ <-. }
  done.
Qed.

(** A fitter constructed with a fitting configuration carries the output
    directory of its configuration. *)
Lemma mc_init_out_dir (cfg : gmap string pyval) rdf w self w1 :
  MCFitter.__init__ cfg rdf w = (Ok self, w1) →
  MCFitter._fit_cfg self ≠ PyNone →
  ∃ d, cfg !! "out_dir" = Some d ∧ MCFitter._out_dir self = Some d.
Proof.
  unfold MCFitter.__init__.
  intros (name & w2 & _ & Hrun)%bind_ok_inv.
  apply bind_ok_inv in Hrun as ([] & w3 & _ & Hrun).
  apply bind_ok_inv in Hrun as (out_dir & w4 & Hout & Hrun).
  apply bind_ok_inv in Hrun as (pdf & w5 & _ & Hrun).
  apply bind_ok_inv in Hrun as (obs_name & w6 & _ & Hrun).
  injection Hrun as <- <-. simpl. intros Hfit%is_none_false.
  rewrite Hfit in Hout.
  apply bind_ok_inv in Hout as (d & w7 & Hd & [= <- _]).
  unfold lift, py_getitem in Hd.
  destruct (cfg !! "out_dir") as [x|]; [|done].
  injection Hd as <- _. eauto.
Qed.

Lemma fc_init_inv (cfg : gmap string pyval) rdf w self w1 :
  FitComponent.__init__ cfg rdf w = (Ok self, w1) →
  FitComponent._fit_cfg self = default PyNone (cfg !! "fitting")
  ∧ FitComponent._rdf self = rdf
  ∧ cfg !! "name" = Some (FitComponent._name self)
  ∧ w1 = set_plt_cfg (default PyNone (cfg !! "plotting")) w.
Proof.
  unfold FitComponent.__init__.
  intros (name & w2 & Hname & Hrun)%bind_ok_inv.
  apply bind_ok_inv in Hrun as ([] & w3 & Hplt & Hrun).
  apply bind_ok_inv in Hrun as (pdf & w5 & Hpdf & Hrun).
  apply bind_ok_inv in Hrun as (obs_name & w6 & Hobs & Hrun).
  injection Hrun as <- <-. simpl.
  unfold lift, py_getitem in Hname.
  destruct (cfg !! "name") as [x|] eqn:Hn; [|done].
  injection Hname as <- <-. injection Hplt as <-.
  injection Hpdf as <- <-. by injection Hobs as _ <-.
Qed.

(** C8: a component constructed with a fitting sub-configuration and no
    dataframe ([rdf] is [None]) fails at its entry point, [MCFitter.run]
    or [FitComponent.get_pdf], with [ValueError('Dataframe not found')]
    (the spec's DataMissingError), and leaves the world as construction
    left it: no call was made, no file written, no parameter touched. *)
Theorem missing_dataframe_fails (cfg : gmap string pyval) (fit : pyval)
    (w_mc w_fc w1 w2 : World) (mc : MCFitter.t) (fc : FitComponent.t) :
  cfg !! "fitting" = Some fit →
  fit ≠ PyNone →
  MCFitter.__init__ cfg None w_mc = (Ok mc, w1) →
  FitComponent.__init__ cfg None w_fc = (Ok fc, w2) →
  MCFitter.run mc w1 = (Err (ValueError "Dataframe not found"), w1)
  ∧ FitComponent.get_pdf fc w2
    = (Err (ValueError "Dataframe not found"), w2).
Proof.
  intros Hfit Hne (Hc1 & Hr1 & _)%mc_init_inv (Hc2 & Hr2 & _)%fc_init_inv.
  rewrite Hfit in Hc1, Hc2. simpl in Hc1, Hc2.
  apply is_none_false in Hne.
  unfold MCFitter.run, FitComponent.get_pdf.
  by rewrite Hc1, Hc2, Hne, Hr1, Hr2.
Qed.

(** C9: a component constructed from a configuration without a fitting
    sub-configuration (the key is absent, or holds [None]) is a
    pass-through: its entry point returns the model as it is and leaves
    the world as construction left it, so no call is recorded, no file is
    read or written and no parameter is changed. *)
Theorem no_fitting_is_pass_through (cfg : gmap string pyval)
    (rdf : option RDataFrame) (w_mc w_fc w1 w2 : World)
    (mc : MCFitter.t) (fc : FitComponent.t) :
  cfg !! "fitting" = None ∨ cfg !! "fitting" = Some PyNone →
  MCFitter.__init__ cfg rdf w_mc = (Ok mc, w1) →
  FitComponent.__init__ cfg rdf w_fc = (Ok fc, w2) →
  MCFitter.run mc w1 = (Ok (MCFitter.RetPdf (w_pdf w1)), w1)
  ∧ w_pdf w1 = w_pdf w_mc
  ∧ FitComponent.get_pdf fc w2 = (Ok (w_pdf w2), w2)
  ∧ w_pdf w2 = w_pdf w_fc.
Proof.
  intros Hfit (Hc1 & _ & _ & ->)%mc_init_inv (Hc2 & _ & _ & ->)%fc_init_inv.
  assert (default PyNone (cfg !! "fitting") = PyNone) as Hd
    by (destruct Hfit as [-> | ->]; done).
  rewrite Hd in Hc1, Hc2.
  unfold MCFitter.run, FitComponent.get_pdf.
  by rewrite Hc1, Hc2.
Qed.

(** *** Construction *)

Lemma mc_init_run (cfg : gmap string pyval) rdf w name obs :
  cfg !! "name" = Some name →
  pdf_obs (w_pdf w) = [obs] →
  let w1 := set_plt_cfg (default PyNone (cfg !! "plotting")) w in
  MCFitter.__init__ cfg rdf w =
    if is_none (default PyNone (cfg !! "fitting")) then
      (Ok {| MCFitter._name := name;
             MCFitter._fit_cfg := default PyNone (cfg !! "fitting");
             MCFitter._out_dir := None; MCFitter._rdf := rdf;
             MCFitter._obs := pdf_space (w_pdf w);
             MCFitter._obs_name := obs;
             MCFitter._minimizer := AnealingMinimizer 10 0.05 |}, w1)
    else
      match cfg !! "out_dir" with
      | Some d =>
          (Ok {| MCFitter._name := name;
                 MCFitter._fit_cfg := default PyNone (cfg !! "fitting");
                 MCFitter._out_dir := Some d; MCFitter._rdf := rdf;
                 MCFitter._obs := pdf_space (w_pdf w);
                 MCFitter._obs_name := obs;
                 MCFitter._minimizer := AnealingMinimizer 10 0.05 |}, w1)
      | None => (Err (KeyError "out_dir"), w1)
      end.
Proof.
  intros Hname Hobs. unfold pdf_obs in Hobs. simpl.
  unfold MCFitter.__init__, mbind, M_bind, lift, modify, read, py_getitem.
  rewrite Hname. simpl. unfold pdf_obs.
  destruct (is_none (default PyNone (cfg !! "fitting"))); simpl.
  - by rewrite Hobs.
  - destruct (cfg !! "out_dir"); simpl; [by rewrite Hobs | done].
Qed.

(** C10, in the form that holds of the code: the output directory is
    optional only without a
    fitting sub-configuration. For a configuration with a name and a model
    with a single observable, constructing the [MCFitter] succeeds exactly
    when the fitting sub-configuration is absent (or [None]) or an
    [out_dir] entry is present; with a fitting sub-configuration and no
    [out_dir] entry it raises [KeyError('out_dir')]. *)
Theorem out_dir_required_with_fitting (cfg : gmap string pyval)
    (rdf : option RDataFrame) (w : World) (name : pyval) (obs : string) :
  cfg !! "name" = Some name →
  pdf_obs (w_pdf w) = [obs] →
  ((∃ self w', MCFitter.__init__ cfg rdf w = (Ok self, w'))
   ↔ default PyNone (cfg !! "fitting") = PyNone ∨ is_Some (cfg !! "out_dir"))
  ∧ (default PyNone (cfg !! "fitting") ≠ PyNone →
     cfg !! "out_dir" = None →
     ∃ w', MCFitter.__init__ cfg rdf w = (Err (KeyError "out_dir"), w')).
Proof.
  intros Hname Hobs. rewrite (mc_init_run cfg rdf w name obs Hname Hobs).
  destruct (is_none (default PyNone (cfg !! "fitting"))) eqn:Hfit.
  - apply is_none_true in Hfit. split; [|done]. split; eauto.
  - apply is_none_false in Hfit.
    destruct (cfg !! "out_dir") as [d|] eqn:Hout.
    + split; [|done]. split; eauto.
    + split; [|eauto]. split.
      * by intros (? & ? & ?).
      * by intros [?|[? ?]].
Qed.

(** *** The weighted-dataset builder *)

Lemma assoc_None {A : Type} (key : string) (l : list (string * A)) :
  key ∉ l.*1 → assoc key l = None.
Proof.
  induction l as [|[k a] l IH]; simpl; [done|].
  intros [Hne Hl]%not_elem_of_cons.
  destruct (String.eqb_spec k key); [congruence | auto].
Qed.

Lemma assoc_app_l {A : Type} (key : string) (l l' : list (string * A)) f :
  assoc key l = Some f → assoc key (l ++ l') = Some f.
Proof.
  induction l as [|[k a] l IH]; simpl; [done|].
  by destruct (String.eqb k key).
Qed.

Lemma assoc_app_r {A : Type} (key : string) (l l' : list (string * A)) :
  assoc key l = None → assoc key (l ++ l') = assoc key l'.
Proof.
  induction l as [|[k a] l IH]; simpl; [done|].
  by destruct (String.eqb k key).
Qed.

(** The column [Define] adds holds the constant at every entry. *)
Lemma column_Define_new (rdf : RDataFrame) (name : string) (c : num) :
  name ∉ GetColumnNames rdf →
  column (Define rdf name c) name = Some (replicate (rdf_nentries rdf) c).
Proof.
  intros Hn. unfold column, Define. simpl.
  rewrite (assoc_app_r _ _ _ (assoc_None _ _ Hn)). simpl.
  rewrite String.eqb_refl. f_equal.
  generalize 0. induction (rdf_nentries rdf) as [|n IH]; intros s; simpl.
  - done.
  - f_equal. apply IH.
Qed.

(** The columns already there are read as before, and every array has one
    value per entry. *)
Lemma column_Define_old (rdf : RDataFrame) (name : string) (c : num)
    (obs : string) (arr : list num) :
  column rdf obs = Some arr →
  column (Define rdf name c) obs = Some arr
  ∧ length arr = rdf_nentries rdf.
Proof.
  unfold column, Define. simpl.
  destruct (assoc obs (rdf_columns rdf)) as [f|] eqn:Hf; [|done].
  intros [= <-]. rewrite (assoc_app_l _ _ _ _ Hf).
  by rewrite length_fmap, length_seq.
Qed.

Lemma mc_add_weights_found (rdf : RDataFrame) (wgt_name : string) w :
  wgt_name ∈ GetColumnNames rdf →
  MCFitter._add_weights rdf (PyStr wgt_name) w
  = (Ok rdf, add_trace [EvGetColumnNames;
                        Log DEBUG (weights_found_msg wgt_name)] w).
Proof.
  intros Hin. unfold MCFitter._add_weights, py_in.
  rewrite bool_decide_eq_true_2 by done. by mrun.
Qed.

Lemma fc_add_weights_found (rdf : RDataFrame) (wgt_name : string) w :
  wgt_name ∈ GetColumnNames rdf →
  FitComponent._add_weights rdf (PyStr wgt_name) w
  = (Ok rdf, add_trace [EvGetColumnNames;
                        Log DEBUG (weights_found_msg wgt_name)] w).
Proof.
  intros Hin. unfold FitComponent._add_weights, py_in.
  rewrite bool_decide_eq_true_2 by done. by mrun.
Qed.

Lemma mc_add_weights_ones (rdf : RDataFrame) (wgt_name : string) w :
  wgt_name ∉ GetColumnNames rdf →
  MCFitter._add_weights rdf (PyStr wgt_name) w
  = (Ok (Define rdf wgt_name (NDouble 1)),
     add_trace [EvGetColumnNames; Log DEBUG (weights_ones_msg wgt_name);
                EvDefine wgt_name "1.0"] w).
Proof.
  intros Hin. unfold MCFitter._add_weights, py_in.
  rewrite bool_decide_eq_false_2 by done. by mrun.
Qed.

Lemma fc_add_weights_ones (rdf : RDataFrame) (wgt_name : string) w :
  wgt_name ∉ GetColumnNames rdf →
  FitComponent._add_weights rdf (PyStr wgt_name) w
  = (Ok (Define rdf wgt_name (NInt 1)),
     add_trace [EvGetColumnNames; Log DEBUG (weights_ones_msg wgt_name);
                EvDefine wgt_name "1"] w).
Proof.
  intros Hin. unfold FitComponent._add_weights, py_in.
  rewrite bool_decide_eq_false_2 by done. by mrun.
Qed.

(** C7: [_add_weights] of either class, for a weight column name. When
    the column is in the source, the source itself is returned and nothing
    is defined. When it is absent, the call does not fail, logs the
    substitution and returns the source with one more column, which reads
    as the constant one ([1.0] in [MCFitter], [1] in [FitComponent]) at
    every entry, so it is as long as any observable array; the columns
    already there read as before. *)
Theorem add_weights_default_ones (rdf : RDataFrame) (wgt_name : string)
    (w : World) :
  (wgt_name ∈ GetColumnNames rdf →
     MCFitter._add_weights rdf (PyStr wgt_name) w
     = (Ok rdf, add_trace [EvGetColumnNames;
                           Log DEBUG (weights_found_msg wgt_name)] w)
     ∧ FitComponent._add_weights rdf (PyStr wgt_name) w
       = (Ok rdf, add_trace [EvGetColumnNames;
                             Log DEBUG (weights_found_msg wgt_name)] w))
  ∧ (wgt_name ∉ GetColumnNames rdf →
     ∃ rdf_mc rdf_fc,
       MCFitter._add_weights rdf (PyStr wgt_name) w
       = (Ok rdf_mc,
          add_trace [EvGetColumnNames;
                     Log DEBUG (weights_ones_msg wgt_name);
                     EvDefine wgt_name "1.0"] w)
       ∧ FitComponent._add_weights rdf (PyStr wgt_name) w
         = (Ok rdf_fc,
            add_trace [EvGetColumnNames;
                       Log DEBUG (weights_ones_msg wgt_name);
                       EvDefine wgt_name "1"] w)
       ∧ ∀ obs arr, column rdf obs = Some arr →
           column rdf_mc obs = Some arr
           ∧ column rdf_fc obs = Some arr
           ∧ column rdf_mc wgt_name
             = Some (replicate (length arr) (NDouble 1))
           ∧ column rdf_fc wgt_name
             = Some (replicate (length arr) (NInt 1))).
Proof.
  split; intros Hin.
  - by rewrite mc_add_weights_found, fc_add_weights_found.
  - eexists _, _. rewrite mc_add_weights_ones, fc_add_weights_ones by done.
    do 2 (split; [done|]). intros obs arr Harr.
    destruct (column_Define_old rdf wgt_name (NDouble 1) obs arr Harr)
      as [-> Hlen].
    destruct (column_Define_old rdf wgt_name (NInt 1) obs arr Harr)
      as [-> _].
    by rewrite Hlen, !column_Define_new.
Qed.

(** *** The fit and its error-method check *)

Lemma bind_ret {A : Type} (m : M A) (w : World) :
  (a ← m; mret a) w = m w.
Proof. unfold mbind, M_bind. by destruct (m w) as [[a|e] w1]. Qed.

Lemma py_ne_str_false (v : pyval) (s : string) :
  py_ne_str v s = false → v = PyStr s.
Proof.
  destruct v; simpl; try done.
  intros Heq%negb_false_iff%String.eqb_eq. by subst.
Qed.

Lemma py_getitem_not_none (v : pyval) (key : string) (x : pyval) :
  py_getitem v key = Ok x → is_none v = false.
Proof. by destruct v. Qed.

(** [_fit] up to the conversion of the result: the minimiser is called
    first, whatever the configuration says. *)
Lemma mc_fit_run (self : MCFitter.t) (zdt : zdata) (w : World) :
  let m := MCFitter._minimizer self in
  let w1 := add_trace (fit_prologue (py_str (MCFitter._name self)) m) w in
  MCFitter._fit self zdt w =
    match minimize m (w_pdf w) zdt with
    | Ok (pdf', res) =>
        MCFitter._res_to_par self res
          (add_trace [PrintResult] (set_pdf pdf' w1))
    | Err e => (Err e, w1)
    end.
Proof.
  simpl. unfold MCFitter._fit, call_minimize.
  unfold mbind at 1 2 3 4, M_bind at 1 2 3 4. unfold log, emit at 1 2 3.
  rewrite !add_trace_app. simpl.
  unfold mbind at 1 2 3, M_bind at 1 2 3, emit at 1, read, lift.
  rewrite !add_trace_app. simpl.
  destruct (minimize _ _ _) as [[pdf' res]|e]; [|done].
  unfold mbind at 1 2 3, M_bind at 1 2 3, modify, emit, mret, M_ret.
  apply bind_ret.
Qed.

Lemma fc_fit_run (self : FitComponent.t) (zdt : zdata) (w : World) :
  let m := FitComponent._minimizer self in
  let w1 :=
    add_trace (fit_prologue (py_str (FitComponent._name self)) m) w in
  FitComponent._fit self zdt w =
    match minimize m (w_pdf w) zdt with
    | Ok (pdf', res) =>
        FitComponent._res_to_par self res
          (add_trace [PrintResult] (set_pdf pdf' w1))
    | Err e => (Err e, w1)
    end.
Proof.
  simpl. unfold FitComponent._fit, call_minimize.
  unfold mbind at 1 2 3 4, M_bind at 1 2 3 4. unfold log, emit at 1 2 3.
  rewrite !add_trace_app. simpl.
  unfold mbind at 1 2 3, M_bind at 1 2 3, emit at 1, read, lift.
  rewrite !add_trace_app. simpl.
  destruct (minimize _ _ _) as [[pdf' res]|e]; [|done].
  unfold mbind at 1 2 3, M_bind at 1 2 3, modify, emit, mret, M_ret.
  apply bind_ret.
Qed.

Lemma mc_res_to_par_unsupported (self : MCFitter.t) res w em :
  py_getitem (MCFitter._fit_cfg self) "error_method" = Ok em →
  py_ne_str em "minuit_hesse" = true →
  MCFitter._res_to_par self res w
  = (Err (NotImplementedError (unsupported_msg (py_str em))), w).
Proof.
  intros Hem Hne. unfold MCFitter._res_to_par.
  rewrite (py_getitem_not_none _ _ _ Hem), Hem. mrun. by rewrite Hne.
Qed.

Lemma fc_res_to_par_unsupported (self : FitComponent.t) res w em :
  py_getitem (FitComponent._fit_cfg self) "error_method" = Ok em →
  py_ne_str em "minuit_hesse" = true →
  FitComponent._res_to_par self res w
  = (Err (NotImplementedError (unsupported_msg (py_str em))), w).
Proof.
  intros Hem Hne. unfold FitComponent._res_to_par.
  rewrite (py_getitem_not_none _ _ _ Hem), Hem. mrun. by rewrite Hne.
Qed.

(** A result converted without error went through the Hessian step with
    the one supported method. *)
Lemma mc_res_to_par_ok (self : MCFitter.t) res w par w' :
  MCFitter._res_to_par self res w = (Ok par, w') →
  w' = add_trace [EvHesse "minuit_hesse"; EvFreeze] w
  ∧ MCFitter._fit_cfg self ≠ PyNone
  ∧ py_getitem (MCFitter._fit_cfg self) "error_method"
    = Ok (PyStr "minuit_hesse").
Proof.
  unfold MCFitter._res_to_par.
  destruct (is_none (MCFitter._fit_cfg self)) eqn:Hn; [done|].
  apply is_none_false in Hn.
  intros (em & w1 & Hem & Hrun)%bind_ok_inv.
  injection Hem as Hem <-.
  destruct (py_ne_str em "minuit_hesse") eqn:Hne; [done|].
  apply py_ne_str_false in Hne as ->.
  apply bind_ok_inv in Hrun as (res' & w2 & Hh & Hrun).
  apply bind_ok_inv in Hh as ([] & w3 & [= <-] & [= _ <-]).
  apply bind_ok_inv in Hrun as ([] & w4 & [= <-] & [= _ <-]).
  by rewrite add_trace_app.
Qed.

Lemma fc_res_to_par_ok (self : FitComponent.t) res w par w' :
  FitComponent._res_to_par self res w = (Ok par, w') →
  w' = add_trace [EvHesse "minuit_hesse"; EvFreeze] w
  ∧ FitComponent._fit_cfg self ≠ PyNone
  ∧ py_getitem (FitComponent._fit_cfg self) "error_method"
    = Ok (PyStr "minuit_hesse").
Proof.
  unfold FitComponent._res_to_par.
  destruct (is_none (FitComponent._fit_cfg self)) eqn:Hn; [done|].
  apply is_none_false in Hn.
  intros (em & w1 & Hem & Hrun)%bind_ok_inv.
  injection Hem as Hem <-.
  destruct (py_ne_str em "minuit_hesse") eqn:Hne; [done|].
  apply py_ne_str_false in Hne as ->.
  apply bind_ok_inv in Hrun as (res' & w2 & Hh & Hrun).
  apply bind_ok_inv in Hh as ([] & w3 & [= <-] & [= _ <-]).
  apply bind_ok_inv in Hrun as ([] & w4 & [= <-] & [= _ <-]).
  by rewrite add_trace_app.
Qed.

(** C3, in the form that holds of the code: with a configured error
    method other than
    ['minuit_hesse'], [_fit] of either class never yields a parameter set
    and never runs the Hessian step, but it does minimise first: the
    minimiser is called once, and when it returns a result the fit then
    fails with [NotImplementedError] (the spec's UnsupportedMethodError),
    the model left where the minimiser moved it; when the minimiser
    itself raises, that exception is the one that surfaces. *)
Theorem unsupported_method_rejected_after_minimize
    (mc : MCFitter.t) (fc : FitComponent.t) (zdt : zdata) (w : World)
    (em_mc em_fc : pyval) :
  py_getitem (MCFitter._fit_cfg mc) "error_method" = Ok em_mc →
  py_ne_str em_mc "minuit_hesse" = true →
  py_getitem (FitComponent._fit_cfg fc) "error_method" = Ok em_fc →
  py_ne_str em_fc "minuit_hesse" = true →
  MCFitter._fit mc zdt w =
    (let m := MCFitter._minimizer mc in
     let w1 := add_trace (fit_prologue (py_str (MCFitter._name mc)) m) w in
     match minimize m (w_pdf w) zdt with
     | Ok (pdf', _) =>
         (Err (NotImplementedError (unsupported_msg (py_str em_mc))),
          add_trace [PrintResult] (set_pdf pdf' w1))
     | Err e => (Err e, w1)
     end)
  ∧ FitComponent._fit fc zdt w =
    (let m := FitComponent._minimizer fc in
     let w1 :=
       add_trace (fit_prologue (py_str (FitComponent._name fc)) m) w in
     match minimize m (w_pdf w) zdt with
     | Ok (pdf', _) =>
         (Err (NotImplementedError (unsupported_msg (py_str em_fc))),
          add_trace [PrintResult] (set_pdf pdf' w1))
     | Err e => (Err e, w1)
     end).
Proof.
  intros Hm1 Hn1 Hm2 Hn2. rewrite mc_fit_run, fc_fit_run. simpl. split.
  - destruct (minimize _ _ _) as [[pdf' res]|e]; [|done].
    by apply mc_res_to_par_unsupported.
  - destruct (minimize _ _ _) as [[pdf' res]|e]; [|done].
    by apply fc_res_to_par_unsupported.
Qed.

(** *** Plotting *)


(** *** The cache protocol of [MCFitter.run] *)

(** The plotting stage: it leaves the model alone and records the skip
    warning or the rendering. *)
Lemma mc_plot_fit_ok (self : MCFitter.t) data w w3 :
  MCFitter._plot_fit self data w = (Ok tt, w3) →
  w_pdf w3 = w_pdf w
  ∧ ∃ evs : list event,
      w_trace w3 = w_trace w ++ evs ∧ plot_stage (w_plt_cfg w) evs.
Proof.
  unfold MCFitter._plot_fit, MCFitter.out_dir_attr, makedirs, plot,
    savefig, plot_stage.
  unfold mbind, M_bind, mret, M_ret, log, emit, read, modify, lift, raise.
  simpl. intros Hrun.
  repeat case_match; simplify_eq; simpl; (split; [done|]);
    eexists; (split; [rewrite <- ?app_assoc; done|]);
    rewrite ?elem_of_app, ?elem_of_cons; eauto 10.
  split; [eauto 10|]. eexists.
  rewrite ?elem_of_app, ?elem_of_cons; eauto 10.
Qed.

(** [run] past its two guards: the cache file is looked up, one of the
    two branches yields the parameter set, and the tails are fixed. *)
Lemma mc_run_unfold (self : MCFitter.t) rdf out_dir w :
  MCFitter._fit_cfg self ≠ PyNone →
  MCFitter._rdf self = Some rdf →
  MCFitter._out_dir self = Some out_dir →
  let path := MCFitter.pars_path out_dir (MCFitter._name self) in
  MCFitter.run self w =
    (par ← (if bool_decide (is_Some (w_files w !! path)) then
              log WARNING ("Fit parameters for component "
                             +:+ py_str (MCFitter._name self)
                             +:+ " found, loading: " +:+ path);;
              from_json path
            else
              data ← MCFitter._get_data self;
              par ← MCFitter._fit self data;
              MCFitter._plot_fit self data;;
              to_json par path;;
              mret par);
     MCFitter._fix_tails par;;
     mret (MCFitter.RetPar par)) (add_trace [EvIsFile path] w).
Proof.
  intros Hcfg%is_none_false Hrdf Hout. simpl.
  unfold MCFitter.run, MCFitter.out_dir_attr, isfile.
  rewrite Hcfg, Hrdf, Hout.
  unfold mbind at 1 2 3, M_bind at 1 2 3, mret at 1, M_ret at 1, emit at 1,
    read at 1.
  simpl. by destruct (bool_decide _).
Qed.

(** The cached branch: the warning, then the record is read. *)
Lemma load_cached (msg path : string) (w : World) :
  (log WARNING msg;; from_json path) w =
    let w1 := add_trace [Log WARNING msg; EvFromJson path] w in
    match w_files w !! path with
    | Some (FileParameter par) => (Ok par, w1)
    | Some _ => (Err (ValueError "not a parameter record"), w1)
    | None => (Err (ExternalError "FileNotFoundError"), w1)
    end.
Proof.
  unfold from_json.
  unfold mbind, M_bind, mret, M_ret, log, emit, read, modify, lift, raise.
  rewrite !add_trace_app. simpl.
  destruct (w_files w !! path) as [[par| |]|]; done.
Qed.

#[local] Set Warnings "-clear-no-such-hyp".

(** *** The reserved suffix *)

Lemma list_of_rev_app (s1 s2 : string) :
  String.list_ascii_of_string (String.rev_app s1 s2)
  = reverse (String.list_ascii_of_string s1) ++ String.list_ascii_of_string s2.
Proof.
  revert s2. induction s1 as [|a s1 IH]; intros s2; simpl; [done|].
  rewrite IH, reverse_cons, <- app_assoc. done.
Qed.

Lemma list_of_rev (s : string) :
  String.list_ascii_of_string (String.rev s)
  = reverse (String.list_ascii_of_string s).
Proof. unfold String.rev. by rewrite list_of_rev_app, app_nil_r. Qed.

Lemma list_of_app (s1 s2 : string) :
  String.list_ascii_of_string (s1 +:+ s2)
  = String.list_ascii_of_string s1 ++ String.list_ascii_of_string s2.
Proof. induction s1 as [|a s1 IH]; simpl; [done | by rewrite IH]. Qed.

Lemma string_prefix_list (s1 s2 : string) :
  String.prefix s1 s2 = true
  ↔ String.list_ascii_of_string s1 `prefix_of` String.list_ascii_of_string s2.
Proof.
  revert s2. induction s1 as [|a s1 IH]; intros [|b s2]; simpl.
  - split; [intros _; apply prefix_nil | done].
  - split; [intros _; apply prefix_nil | done].
  - split; [done | by intros ?%prefix_nil_not].
  - destruct (Ascii.ascii_dec a b) as [->|Hne].
    + rewrite IH. split; [apply prefix_cons | apply prefix_cons_inv_2].
    + split; [done|]. intros ?%prefix_cons_inv_1. done.
Qed.

Lemma string_of_list_app (k l : list Ascii.ascii) :
  String.string_of_list_ascii (k ++ l)
  = String.string_of_list_ascii k +:+ String.string_of_list_ascii l.
Proof. induction k as [|a k IH]; simpl; [done | by rewrite IH]. Qed.

(** X1: [name.endswith(suffix)], the test that exempts a parameter from the
    tail-fixing loops, holds exactly of the names that are some string
    followed by the suffix; so the exempt names are the ones of the form
    [p + '_flt'], the bare ['_flt'] included. *)
Theorem endswith_spec (s suffix : string) :
  endswith s suffix = true ↔ ∃ p, s = p +:+ suffix.
Proof.
  unfold endswith. rewrite string_prefix_list, !list_of_rev.
  rewrite <- suffix_prefix_reverse. split.
  - intros [k Hk]. exists (String.string_of_list_ascii k).
    rewrite <- (String.string_of_list_ascii_of_string s), Hk.
    rewrite string_of_list_app.
    by rewrite String.string_of_list_ascii_of_string.
  - intros [p ->]. rewrite list_of_app. by eexists.
Qed.

(** *** What the tail-fixing loops leave alone *)

(** X2: a live parameter whose name is not in the fitted set (a parameter
    of another component, say) goes through [_fix_tails] of either class
    with its value and its floating flag as they were. *)
Theorem fix_tails_skips_unmatched (sig_par : ParameterSet) (w : World)
    (i : nat) (p : zparam) :
  pdf_params (w_pdf w) !! i = Some p →
  sig_par !! par_name p = None →
  pdf_params (w_pdf (MCFitter._fix_tails sig_par w).2) !! i = Some p
  ∧ pdf_params (w_pdf (FitComponent._fix_tails sig_par w).2) !! i = Some p.
Proof.
  intros Hp Hl. rewrite mc_fix_tails, fc_fix_tails. cbn [snd].
  rewrite !fixed_world_params.
  by rewrite !(tails_params_keep _ sig_par _ i p Hp)
    by (intros val; by apply visit_unmatched).
Qed.

(** When the loop returns it has logged one line per listed parameter. *)
Lemma loop_log_length (sp : ParameterSet) (l : list zparam) (k : nat) :
  tails_result sp l = Ok tt →
  length (loop_log sp l) = length (floating_refs k l).
Proof.
  revert k. induction l as [|p l IH]; intros k; [done|]. simpl.
  unfold visit_of at 1 2. destruct (par_floating p) eqn:Hf; [|by apply IH].
  destruct (sp !! par_name p) as [[v e]|]; simpl.
  - destruct (endswith _ _); simpl; [intros; f_equal; by apply IH|].
    destruct (outside_limits p v); [done|]. simpl. intros. f_equal. by apply IH.
  - intros. f_equal. by apply IH.
Qed.

(** X3: [_fix_tails] of either class touches values and floating flags
    only, whether it returns or raises: the parameters keep their names,
    their order and their limits, a parameter that is already fixed is
    left as it is, the observable space of the model, the files, the
    directories and the plotting dictionary are as before, and the trace
    only grows by lines of the logger; when the call returns these are the
    three header lines and one line per floating parameter. *)
Theorem fix_tails_frame (sig_par : ParameterSet) (w : World) :
  let mc := MCFitter._fix_tails sig_par w in
  let fc := FitComponent._fix_tails sig_par w in
  let floating := floating_refs 0 (pdf_params (w_pdf w)) in
  par_name <$> pdf_params (w_pdf mc.2) = par_name <$> pdf_params (w_pdf w)
  ∧ par_name <$> pdf_params (w_pdf fc.2) = par_name <$> pdf_params (w_pdf w)
  ∧ (λ p, (par_lower p, par_upper p)) <$> pdf_params (w_pdf mc.2)
    = (λ p, (par_lower p, par_upper p)) <$> pdf_params (w_pdf w)
  ∧ (λ p, (par_lower p, par_upper p)) <$> pdf_params (w_pdf fc.2)
    = (λ p, (par_lower p, par_upper p)) <$> pdf_params (w_pdf w)
  ∧ (∀ i p, pdf_params (w_pdf w) !! i = Some p → par_floating p = false →
       pdf_params (w_pdf mc.2) !! i = Some p
       ∧ pdf_params (w_pdf fc.2) !! i = Some p)
  ∧ pdf_space (w_pdf mc.2) = pdf_space (w_pdf w)
  ∧ pdf_space (w_pdf fc.2) = pdf_space (w_pdf w)
  ∧ (w_files mc.2, w_dirs mc.2, w_plt_cfg mc.2)
    = (w_files w, w_dirs w, w_plt_cfg w)
  ∧ (w_files fc.2, w_dirs fc.2, w_plt_cfg fc.2)
    = (w_files w, w_dirs w, w_plt_cfg w)
  ∧ (∃ evs, w_trace mc.2 = w_trace w ++ evs
            ∧ Forall (λ e, is_log e = true) evs
            ∧ (mc.1 = Ok tt → length evs = 3 + length floating))
  ∧ (∃ evs, w_trace fc.2 = w_trace w ++ evs
            ∧ Forall (λ e, is_log e = true) evs
            ∧ (fc.1 = Ok tt → length evs = 3 + length floating)).
Proof.
  simpl. rewrite mc_fix_tails, fc_fix_tails. cbn [fst snd].
  rewrite !fixed_world_params.
  rewrite !tails_params_names, !tails_params_limits.
  do 4 (split; [done|]). split.
  { intros i p Hp Hf.
    rewrite !(tails_params_keep _ sig_par _ i p Hp); [done|..].
    all: intros val; by rewrite (visit_fixed _ _ Hf). }
  do 4 (split; [done|]).
  split; exists (tails_log sig_par (w_pdf w)).
  all: split; [done|]; split; [apply tails_log_lines|].
  all: intros Hok; unfold tails_log; simpl; do 3 f_equal.
  all: by apply loop_log_length.
Qed.

(** *** Construction *)

Lemma fc_init_run (cfg : gmap string pyval) rdf w :
  FitComponent.__init__ cfg rdf w =
    match cfg !! "name" with
    | None => (Err (KeyError "name"), w)
    | Some name =>
        let w1 := set_plt_cfg (default PyNone (cfg !! "plotting")) w in
        match unpack_single (pdf_obs (w_pdf w)) with
        | Ok obs =>
            (Ok {| FitComponent._name := name;
                   FitComponent._fit_cfg := default PyNone (cfg !! "fitting");
                   FitComponent._rdf := rdf;
                   FitComponent._obs := pdf_space (w_pdf w);
                   FitComponent._obs_name := obs;
                   FitComponent._minimizer := Minuit |}, w1)
        | Err e => (Err e, w1)
        end
    end.
Proof.
  unfold FitComponent.__init__, mbind, M_bind, lift, modify, read, py_getitem.
  destruct (cfg !! "name"); [|done]. simpl.
  by destruct (unpack_single _).
Qed.

Lemma unpack_single_ok (l : list string) :
  (∃ obs, unpack_single l = Ok obs) ↔ ∃ obs, l = [obs].
Proof.
  destruct l as [|x [|y l]]; simpl; split; intros [obs Ho]; try done; eauto.
Qed.

(** X4: constructing a [FitComponent] never reads [out_dir]. It succeeds
    exactly when the configuration has a name and the model has a single
    observable; a missing name raises [KeyError('name')] before anything
    is bound, and with a name any other number of observables raises
    [ValueError] from the unpacking. *)
Theorem fc_init_succeeds_iff (cfg : gmap string pyval)
    (rdf : option RDataFrame) (w : World) :
  ((∃ self w', FitComponent.__init__ cfg rdf w = (Ok self, w'))
   ↔ is_Some (cfg !! "name") ∧ ∃ obs, pdf_obs (w_pdf w) = [obs])
  ∧ (cfg !! "name" = None →
     FitComponent.__init__ cfg rdf w = (Err (KeyError "name"), w))
  ∧ (is_Some (cfg !! "name") → (¬ ∃ obs, pdf_obs (w_pdf w) = [obs]) →
     ∃ msg w', FitComponent.__init__ cfg rdf w = (Err (ValueError msg), w')).
Proof.
  rewrite fc_init_run. split; [|split].
  - destruct (cfg !! "name") as [name|] eqn:Hn.
    + simpl. rewrite <- unpack_single_ok.
      destruct (unpack_single _) as [obs|e]; split.
      * eauto.
      * eauto.
      * by intros (? & ? & ?).
      * by intros (_ & ? & ?).
    + split; [by intros (? & ? & ?) | by intros ([? ?] & _)].
  - by intros ->.
  - intros [name ->] Hobs. simpl.
    destruct (pdf_obs (w_pdf w)) as [|x [|y l]]; simpl; eauto.
    destruct Hobs. eauto.
Qed.

Lemma mc_init_run_name (cfg : gmap string pyval) rdf w :
  cfg !! "name" = None →
  MCFitter.__init__ cfg rdf w = (Err (KeyError "name"), w).
Proof.
  intros Hn.
  unfold MCFitter.__init__, mbind, M_bind, lift, py_getitem. by rewrite Hn.
Qed.

Lemma mc_init_run_out_dir (cfg : gmap string pyval) rdf w name :
  cfg !! "name" = Some name →
  default PyNone (cfg !! "fitting") ≠ PyNone →
  cfg !! "out_dir" = None →
  MCFitter.__init__ cfg rdf w
  = (Err (KeyError "out_dir"),
     set_plt_cfg (default PyNone (cfg !! "plotting")) w).
Proof.
  intros Hn Hfit%is_none_false Hout.
  unfold MCFitter.__init__, mbind, M_bind, lift, modify, read, py_getitem.
  rewrite Hn. simpl. by rewrite Hfit, Hout.
Qed.

Lemma mc_init_run_obs (cfg : gmap string pyval) rdf w name :
  cfg !! "name" = Some name →
  default PyNone (cfg !! "fitting") = PyNone ∨ is_Some (cfg !! "out_dir") →
  (¬ ∃ obs, pdf_obs (w_pdf w) = [obs]) →
  ∃ msg, MCFitter.__init__ cfg rdf w
         = (Err (ValueError msg),
            set_plt_cfg (default PyNone (cfg !! "plotting")) w).
Proof.
  intros Hn Hout Hobs.
  unfold MCFitter.__init__, mbind, M_bind, lift, modify, read, py_getitem.
  rewrite Hn. simpl.
  assert (∃ msg, unpack_single (pdf_obs (w_pdf w)) = Err (ValueError msg))
    as [msg Hmsg].
  { destruct (pdf_obs (w_pdf w)) as [|x [|y l]]; simpl; eauto.
    destruct Hobs. eauto. }
  exists msg.
  destruct (is_none (default PyNone (cfg !! "fitting"))) eqn:Hfit.
  - unfold mret, M_ret. simpl. unfold pdf_obs in *. by rewrite Hmsg.
  - destruct Hout as [Hnone | [d Hd]].
    + apply is_none_false in Hfit. done.
    + rewrite Hd. unfold mret, M_ret. simpl. unfold pdf_obs in *.
      by rewrite Hmsg.
Qed.

(** X5: the order of the checks of [MCFitter.__init__]. A missing name
    raises [KeyError('name')] with nothing bound yet; with a name and a
    fitting sub-configuration, a missing [out_dir] raises
    [KeyError('out_dir')] whatever the model looks like; only then does a
    model without exactly one observable raise [ValueError]. *)
Theorem mc_init_error_order (cfg : gmap string pyval)
    (rdf : option RDataFrame) (w : World) :
  (cfg !! "name" = None →
   MCFitter.__init__ cfg rdf w = (Err (KeyError "name"), w))
  ∧ (is_Some (cfg !! "name") →
     default PyNone (cfg !! "fitting") ≠ PyNone →
     cfg !! "out_dir" = None →
     MCFitter.__init__ cfg rdf w
     = (Err (KeyError "out_dir"),
        set_plt_cfg (default PyNone (cfg !! "plotting")) w))
  ∧ (is_Some (cfg !! "name") →
     default PyNone (cfg !! "fitting") = PyNone ∨ is_Some (cfg !! "out_dir") →
     (¬ ∃ obs, pdf_obs (w_pdf w) = [obs]) →
     ∃ msg, MCFitter.__init__ cfg rdf w
            = (Err (ValueError msg),
               set_plt_cfg (default PyNone (cfg !! "plotting")) w)).
Proof.
  split; [apply mc_init_run_name|]. split.
  - intros [name Hn]. by apply mc_init_run_out_dir with name.
  - intros [name Hn]. by apply mc_init_run_obs with name.
Qed.

(** *** The fitted parameter set *)

Lemma fill_parameter_lookup (items : list (string * (float * option float)))
    (obj par : ParameterSet) (n : string) (v e : float) :
  NoDup (items.*1) →
  fill_parameter obj items = Ok par →
  par !! n = Some (v, e)
  ↔ (n, (v, Some e)) ∈ items ∨ ((n ∉ items.*1) ∧ obj !! n = Some (v, e)).
Proof.
  revert obj. induction items as [|[k [v0 [e0|]]] items IH]; intros obj Hnd.
  - simpl. intros [= <-]. split; [intros ?; right; split; [|done] | ].
    + by intros ?%elem_of_nil.
    + by intros [?%elem_of_nil | [_ ?]].
  - intros Hfill. simpl in Hfill. rewrite fmap_cons in Hnd |- *.
    apply NoDup_cons in Hnd as [Hk Hnd]. simpl in Hk.
    rewrite (IH _ Hnd Hfill). rewrite not_elem_of_cons, !elem_of_cons.
    cbn [fst].
    assert (∀ x, (k, x) ∈ items → False) as Hk'.
    { intros x Hin. apply Hk, list_elem_of_fmap. by exists (k, x). }
    destruct (decide (n = k)) as [->|Hne].
    + rewrite lookup_insert_eq. split.
      * intros [Hin | [_ [= <- <-]]]; [by destruct (Hk' _ Hin) | by left; left].
      * intros [[[= <- <-] | Hin] | [[? _] _]]; [|by destruct (Hk' _ Hin)|done].
        right. by split.
    + rewrite lookup_insert_ne by done. split.
      * intros [Hin | [Hni Hl]]; [left; by right | right; by repeat split].
      * intros [[[= -> _ _] | Hin] | [[_ Hni] Hl]]; [done|by left|by right].
  - simpl. done.
Qed.

Lemma fill_parameter_errors (items : list (string * (float * option float)))
    (obj : ParameterSet) :
  (∃ par, fill_parameter obj items = Ok par)
  ↔ Forall (λ it, is_Some it.2.2) items.
Proof.
  revert obj. induction items as [|[k [v0 [e0|]]] items IH]; intros obj; simpl.
  - split; [by constructor | eauto].
  - rewrite IH, Forall_cons. simpl. split; [eauto | by intros [_ ?]].
  - rewrite Forall_cons. simpl. split; [by intros [? ?] | ].
    by intros [[? ?] _].
Qed.

(** Whatever the set holds came from an item of the result. *)
Lemma fill_parameter_from (items : list (string * (float * option float)))
    (obj par : ParameterSet) (n : string) (v e : float) :
  fill_parameter obj items = Ok par →
  par !! n = Some (v, e) →
  (n, (v, Some e)) ∈ items ∨ obj !! n = Some (v, e).
Proof.
  revert obj. induction items as [|[k [v0 [e0|]]] items IH]; intros obj.
  - simpl. intros [= <-]. by right.
  - simpl. intros Hfill Hl.
    destruct (IH _ Hfill Hl) as [Hin|Hobj]; [left; by right|].
    destruct (decide (n = k)) as [->|Hne].
    + rewrite lookup_insert_eq in Hobj. injection Hobj as <- <-.
      left. by left.
    + rewrite lookup_insert_ne in Hobj by done. by right.
  - done.
Qed.

(** X6: the loop of [_res_to_par] that fills the parameter set from the
    items of the fit result. It fails, with [KeyError('hesse')], exactly
    when some item carries no Hessian error; when the names are distinct
    (they are the keys of a dictionary), the set it returns maps a name to
    [(value, error)] exactly when the result holds that item. *)
Theorem fill_parameter_content
    (items : list (string * (float * option float))) :
  ((∃ par, fill_parameter ∅ items = Ok par)
   ↔ Forall (λ it, is_Some it.2.2) items)
  ∧ ((¬ Forall (λ it, is_Some it.2.2) items) →
     fill_parameter ∅ items = Err (KeyError "hesse"))
  ∧ (NoDup (items.*1) →
     ∀ par, fill_parameter ∅ items = Ok par →
       ∀ n v e, par !! n = Some (v, e) ↔ (n, (v, Some e)) ∈ items).
Proof.
  split; [apply fill_parameter_errors|]. split.
  - generalize (∅ : ParameterSet) as obj.
    induction items as [|[k [v0 [e0|]]] items IH]; intros obj Hn; simpl.
    + destruct Hn. constructor.
    + apply IH. intros Hf. apply Hn. constructor; [by eexists | done].
    + done.
  - intros Hnd par Hfill n v e.
    rewrite (fill_parameter_lookup items ∅ par n v e Hnd Hfill).
    rewrite lookup_empty. split; [by intros [? | [_ ?]] | by left].
Qed.

(** *** The fit *)

Lemma mc_res_to_par_run (self : MCFitter.t) (res : FitResult) (w : World) :
  py_getitem (MCFitter._fit_cfg self) "error_method"
  = Ok (PyStr "minuit_hesse") →
  MCFitter._res_to_par self res w =
    match hesse res "minuit_hesse" with
    | Ok res' =>
        (fill_parameter ∅ (res_params res'),
         add_trace [EvHesse "minuit_hesse"; EvFreeze] w)
    | Err e => (Err e, add_trace [EvHesse "minuit_hesse"] w)
    end.
Proof.
  intros Hem. unfold MCFitter._res_to_par.
  rewrite (py_getitem_not_none _ _ _ Hem), Hem.
  unfold call_hesse, mbind, M_bind, mret, M_ret, log, emit, lift. simpl.
  destruct (hesse res "minuit_hesse") as [res'|e]; [|done].
  by rewrite add_trace_app.
Qed.

Lemma fc_res_to_par_run (self : FitComponent.t) (res : FitResult) (w : World) :
  py_getitem (FitComponent._fit_cfg self) "error_method"
  = Ok (PyStr "minuit_hesse") →
  FitComponent._res_to_par self res w =
    match hesse res "minuit_hesse" with
    | Ok res' =>
        (fill_parameter ∅ (res_params res'),
         add_trace [EvHesse "minuit_hesse"; EvFreeze] w)
    | Err e => (Err e, add_trace [EvHesse "minuit_hesse"] w)
    end.
Proof.
  intros Hem. unfold FitComponent._res_to_par.
  rewrite (py_getitem_not_none _ _ _ Hem), Hem.
  unfold call_hesse, mbind, M_bind, mret, M_ret, log, emit, lift. simpl.
  destruct (hesse res "minuit_hesse") as [res'|e]; [|done].
  by rewrite add_trace_app.
Qed.

(** A fit that returned: the calls to the engine behind it. *)
Lemma mc_fit_inv (self : MCFitter.t) (zdt : zdata) (w w' : World)
    (par : ParameterSet) :
  MCFitter._fit self zdt w = (Ok par, w') →
  ∃ pdf' res res',
    minimize (MCFitter._minimizer self) (w_pdf w) zdt = Ok (pdf', res)
    ∧ hesse res "minuit_hesse" = Ok res'
    ∧ fill_parameter ∅ (res_params res') = Ok par
    ∧ w' = fitted_world (py_str (MCFitter._name self))
             (MCFitter._minimizer self) pdf' w.
Proof.
  rewrite mc_fit_run. simpl. unfold fitted_world.
  destruct (minimize _ _ _) as [[pdf' res]|e]; [|done].
  intros Hrun. pose proof (mc_res_to_par_ok _ _ _ _ _ Hrun) as (_ & _ & Hem).
  rewrite (mc_res_to_par_run _ _ _ Hem) in Hrun.
  destruct (hesse res "minuit_hesse") as [res'|e] eqn:Hh; [|done].
  injection Hrun as Hfill <-. by exists pdf', res, res'.
Qed.


(** The set a fit returns holds values the minimiser reported, so the
    parameters of the fitted model accept them: the tail-fixing loop that
    follows a fit does not raise. *)
Lemma fitted_within_limits (m : Minimizer) (pdf pdf' : BasePDF)
    (zdt : zdata) (res res' : FitResult) (method : string)
    (par : ParameterSet) :
  minimize m pdf zdt = Ok (pdf', res) →
  hesse res method = Ok res' →
  fill_parameter ∅ (res_params res') = Ok par →
  tails_result par (pdf_params pdf') = Ok tt.
Proof.
  intros Hmin Hh Hfill. apply tails_result_ok.
  intros p val Hp (_ & [e Hl] & _ & Hout)%visit_refused.
  destruct (fill_parameter_from _ _ _ _ _ _ Hfill Hl) as [Hin|?]; [|done].
  assert ((par_name p, val) ∈ res_values res) as Hval.
  { rewrite <- (hesse_keeps_values _ _ _ Hh). unfold res_values.
    apply list_elem_of_fmap. by exists (par_name p, (val, Some e)). }
  apply list_elem_of_fmap in Hval as ([n [v e0]] & [= <- <-] & Hin0).
  pose proof (minimize_within_limits _ _ _ _ _ Hmin p _ _ _ Hp Hin0 eq_refl).
  congruence.
Qed.

(** X7: [_fit] of either class returns a parameter set exactly when the
    minimiser returns a result, the configured error method is
    ['minuit_hesse'], the Hessian step succeeds and every item of the
    result carries an error; the set is then the one filled from the items
    after the Hessian step, the model is where the minimiser left it, and
    nothing but the model and the trace has changed. *)
Theorem fit_ok_iff (mc : MCFitter.t) (fc : FitComponent.t) (zdt : zdata)
    (w w' : World) (par : ParameterSet) :
  (MCFitter._fit mc zdt w = (Ok par, w')
   ↔ ∃ pdf' res res',
       minimize (MCFitter._minimizer mc) (w_pdf w) zdt = Ok (pdf', res)
       ∧ py_getitem (MCFitter._fit_cfg mc) "error_method"
         = Ok (PyStr "minuit_hesse")
       ∧ hesse res "minuit_hesse" = Ok res'
       ∧ fill_parameter ∅ (res_params res') = Ok par
       ∧ w' = fitted_world (py_str (MCFitter._name mc))
                (MCFitter._minimizer mc) pdf' w)
  ∧ (FitComponent._fit fc zdt w = (Ok par, w')
     ↔ ∃ pdf' res res',
         minimize (FitComponent._minimizer fc) (w_pdf w) zdt = Ok (pdf', res)
         ∧ py_getitem (FitComponent._fit_cfg fc) "error_method"
           = Ok (PyStr "minuit_hesse")
         ∧ hesse res "minuit_hesse" = Ok res'
         ∧ fill_parameter ∅ (res_params res') = Ok par
         ∧ w' = fitted_world (py_str (FitComponent._name fc))
                  (FitComponent._minimizer fc) pdf' w).
Proof.
  rewrite mc_fit_run, fc_fit_run. simpl. unfold fitted_world. split.
  - destruct (minimize _ _ _) as [[pdf' res]|e].
    + split.
      * intros Hrun. pose proof (mc_res_to_par_ok _ _ _ _ _ Hrun)
          as (_ & _ & Hem).
        rewrite (mc_res_to_par_run _ _ _ Hem) in Hrun.
        destruct (hesse res "minuit_hesse") as [res'|e] eqn:Hh; [|done].
        injection Hrun as Hfill <-. by exists pdf', res, res'.
      * intros (pdf'' & res0 & res' & [= <- <-] & Hem & Hh & Hfill & ->).
        by rewrite (mc_res_to_par_run _ _ _ Hem), Hh, Hfill.
    + split; [done | by intros (? & ? & ? & ? & _)].
  - destruct (minimize _ _ _) as [[pdf' res]|e].
    + split.
      * intros Hrun. pose proof (fc_res_to_par_ok _ _ _ _ _ Hrun)
          as (_ & _ & Hem).
        rewrite (fc_res_to_par_run _ _ _ Hem) in Hrun.
        destruct (hesse res "minuit_hesse") as [res'|e] eqn:Hh; [|done].
        injection Hrun as Hfill <-. by exists pdf', res, res'.
      * intros (pdf'' & res0 & res' & [= <- <-] & Hem & Hh & Hfill & ->).
        by rewrite (fc_res_to_par_run _ _ _ Hem), Hh, Hfill.
    + split; [done | by intros (? & ? & ? & ? & _)].
Qed.

(** *** The dataset *)

Lemma column_length (rdf : RDataFrame) (c : string) (arr : list num) :
  column rdf c = Some arr → length arr = rdf_nentries rdf.
Proof.
  unfold column. destruct (assoc c (rdf_columns rdf)); [|done].
  intros [= <-]. by rewrite length_fmap, length_seq.
Qed.

Lemma two_columns_getitem (obs wcol : string) (a1 a2 x y : list num) :
  array_getitem (<[obs := a1]> (<[wcol := a2]> ∅)) obs = Ok x →
  array_getitem (<[obs := a1]> (<[wcol := a2]> ∅)) wcol = Ok y →
  x = a1 ∧ (wcol = obs ∧ y = a1 ∨ wcol ≠ obs ∧ y = a2).
Proof.
  unfold array_getitem. rewrite lookup_insert_eq. intros [= <-].
  destruct (decide (wcol = obs)) as [->|Hne].
  - rewrite lookup_insert_eq. intros [= <-]. auto.
  - rewrite lookup_insert_ne, lookup_insert_eq by done. intros [= <-]. auto.
Qed.

Lemma mc_get_data_inv (self : MCFitter.t) (w w' : World) (data : zdata) :
  MCFitter._get_data self w = (Ok data, w') →
  ∃ rdf wcol,
    MCFitter._rdf self = Some rdf
    ∧ py_getitem (MCFitter._fit_cfg self) "weights_column" = Ok (PyStr wcol)
    ∧ zd_obs data = MCFitter._obs self
    ∧ (w_pdf w', w_files w', w_dirs w', w_plt_cfg w')
      = (w_pdf w, w_files w, w_dirs w, w_plt_cfg w)
    ∧ dataset_of rdf (MCFitter._obs_name self) wcol (NDouble 1) data.
Proof.
  unfold MCFitter._get_data, MCFitter._add_weights, as_numpy, py_in.
  unfold mbind, M_bind, mret, M_ret, log, emit, read, modify, lift, raise.
  simpl. intros Hrun.
  repeat case_match; simplify_eq.
  all: eexists _, _; split; [done|]; split; [done|]; split; [done|].
  all: split; [done|].
  all: unfold dataset_of; simpl.
  all: match goal with
       | H1 : array_getitem _ _ = Ok ?x, H2 : array_getitem _ _ = Ok ?y |- _ =>
           destruct (two_columns_getitem _ _ _ _ _ _ H1 H2)
             as [-> [[-> ->] | [Hne ->]]]
       end.
  all: repeat match goal with
       | H : bool_decide _ = true |- _ =>
           rewrite H; apply bool_decide_eq_true_1 in H
       | H : bool_decide _ = false |- _ =>
           rewrite H; apply bool_decide_eq_false_1 in H;
           pose proof (column_Define_new _ _ (NDouble 1) H)
       end.
  all: simplify_eq.
  all: repeat split;
         first [ done
               | by eapply column_length
               | by eapply (column_length (Define _ _ _)) ].
Qed.

Lemma fc_get_data_inv (self : FitComponent.t) (w w' : World) (data : zdata) :
  FitComponent._get_data self w = (Ok data, w') →
  ∃ rdf wcol,
    FitComponent._rdf self = Some rdf
    ∧ py_getitem (FitComponent._fit_cfg self) "weights_column"
      = Ok (PyStr wcol)
    ∧ zd_obs data = FitComponent._obs self
    ∧ (w_pdf w', w_files w', w_dirs w', w_plt_cfg w')
      = (w_pdf w, w_files w, w_dirs w, w_plt_cfg w)
    ∧ dataset_of rdf (FitComponent._obs_name self) wcol (NInt 1) data.
Proof.
  unfold FitComponent._get_data, FitComponent._add_weights, as_numpy, py_in.
  unfold mbind, M_bind, mret, M_ret, log, emit, read, modify, lift, raise.
  simpl. intros Hrun.
  repeat case_match; simplify_eq.
  all: eexists _, _; split; [done|]; split; [done|]; split; [done|].
  all: split; [done|].
  all: unfold dataset_of; simpl.
  all: match goal with
       | H1 : array_getitem _ _ = Ok ?x, H2 : array_getitem _ _ = Ok ?y |- _ =>
           destruct (two_columns_getitem _ _ _ _ _ _ H1 H2)
             as [-> [[-> ->] | [Hne ->]]]
       end.
  all: repeat match goal with
       | H : bool_decide _ = true |- _ =>
           rewrite H; apply bool_decide_eq_true_1 in H
       | H : bool_decide _ = false |- _ =>
           rewrite H; apply bool_decide_eq_false_1 in H;
           pose proof (column_Define_new _ _ (NInt 1) H)
       end.
  all: simplify_eq.
  all: repeat split;
         first [ done
               | by eapply column_length
               | by eapply (column_length (Define _ _ _)) ].
Qed.

Lemma assoc_is_Some {A : Type} (key : string) (l : list (string * A)) :
  is_Some (assoc key l) ↔ key ∈ l.*1.
Proof.
  induction l as [|[k a] l IH]; simpl.
  - split; [by intros [? ?] | by intros ?%elem_of_nil].
  - rewrite elem_of_cons. simpl. destruct (String.eqb_spec k key) as [->|Hne].
    + split; [auto | eauto].
    + rewrite IH. split; [auto | by intros [?|?]].
Qed.

Lemma column_is_Some (rdf : RDataFrame) (c : string) :
  is_Some (column rdf c) ↔ c ∈ GetColumnNames rdf.
Proof.
  unfold column, GetColumnNames. rewrite <- assoc_is_Some.
  destruct (assoc c (rdf_columns rdf)); split; intros [? ?]; eauto; done.
Qed.

Lemma columns_Define (rdf : RDataFrame) (name : string) (c : num) :
  GetColumnNames (Define rdf name c) = GetColumnNames rdf ++ [name].
Proof. unfold GetColumnNames, Define. simpl. by rewrite fmap_app. Qed.

Lemma column_None (rdf : RDataFrame) (c : string) :
  column rdf c = None → c ∉ GetColumnNames rdf.
Proof.
  intros Hc Hin%column_is_Some. rewrite Hc in Hin. by destruct Hin.
Qed.

Lemma two_columns_present (obs wcol : string) (a1 a2 : list num) e :
  (array_getitem (<[obs := a1]> (<[wcol := a2]> ∅)) obs = Err e → False)
  ∧ (array_getitem (<[obs := a1]> (<[wcol := a2]> ∅)) wcol = Err e → False).
Proof.
  unfold array_getitem. rewrite lookup_insert_eq. split; [done|].
  destruct (decide (wcol = obs)) as [->|Hne].
  - by rewrite lookup_insert_eq.
  - by rewrite lookup_insert_ne, lookup_insert_eq.
Qed.

(** With a dataframe, a weight column name and the observable among the
    columns (those of the source, or the weight column itself), the
    dataset is built. *)
Lemma mc_get_data_run (self : MCFitter.t) (w : World) rdf wcol :
  MCFitter._rdf self = Some rdf →
  py_getitem (MCFitter._fit_cfg self) "weights_column" = Ok (PyStr wcol) →
  MCFitter._obs_name self ∈ GetColumnNames rdf ++ [wcol] →
  ∃ data w', MCFitter._get_data self w = (Ok data, w').
Proof.
  intros Hrdf Hw Hobs.
  unfold MCFitter._get_data, MCFitter._add_weights, as_numpy, py_in.
  rewrite (py_getitem_not_none _ _ _ Hw), Hw, Hrdf.
  unfold mbind, M_bind, mret, M_ret, log, emit, read, modify, lift, raise.
  simpl.
  repeat case_match; simplify_eq; eauto.
  all: exfalso.
  all: repeat match goal with
       | H : array_getitem _ _ = Err _ |- _ =>
           first [ by apply (proj1 (two_columns_present _ _ _ _ _)) in H
                 | by apply (proj2 (two_columns_present _ _ _ _ _)) in H ]
       | H : column _ _ = None |- _ =>
           apply column_None in H; rewrite ?columns_Define in H
       | H : bool_decide _ = true |- _ => apply bool_decide_eq_true_1 in H
       | H : bool_decide _ = false |- _ => apply bool_decide_eq_false_1 in H
       end.
  all: set_solver.
Qed.

Lemma fc_get_data_run (self : FitComponent.t) (w : World) rdf wcol :
  FitComponent._rdf self = Some rdf →
  py_getitem (FitComponent._fit_cfg self) "weights_column"
  = Ok (PyStr wcol) →
  FitComponent._obs_name self ∈ GetColumnNames rdf ++ [wcol] →
  ∃ data w', FitComponent._get_data self w = (Ok data, w').
Proof.
  intros Hrdf Hw Hobs.
  unfold FitComponent._get_data, FitComponent._add_weights, as_numpy, py_in.
  rewrite (py_getitem_not_none _ _ _ Hw), Hw, Hrdf.
  unfold mbind, M_bind, mret, M_ret, log, emit, read, modify, lift, raise.
  simpl.
  repeat case_match; simplify_eq; eauto.
  all: exfalso.
  all: repeat match goal with
       | H : array_getitem _ _ = Err _ |- _ =>
           first [ by apply (proj1 (two_columns_present _ _ _ _ _)) in H
                 | by apply (proj2 (two_columns_present _ _ _ _ _)) in H ]
       | H : column _ _ = None |- _ =>
           apply column_None in H; rewrite ?columns_Define in H
       | H : bool_decide _ = true |- _ => apply bool_decide_eq_true_1 in H
       | H : bool_decide _ = false |- _ => apply bool_decide_eq_false_1 in H
       end.
  all: set_solver.
Qed.

Lemma dataset_of_observable (rdf : RDataFrame) (obs wcol : string)
    (one : num) (data : zdata) :
  dataset_of rdf obs wcol one data → obs ∈ GetColumnNames rdf ++ [wcol].
Proof.
  intros (_ & _ & Hd). destruct (bool_decide _).
  - destruct Hd as [Ho _]. apply elem_of_app. left.
    apply column_is_Some. eauto.
  - destruct Hd as [Ho _]. rewrite <- (columns_Define rdf wcol one).
    apply column_is_Some. eauto.
Qed.

(** X8: the dataset [_get_data] of either class returns. It comes from
    the dataframe of the component and the configured weight column: the
    observable array and the weights have one element per entry of the
    source, hence the same length; they are the two columns of the source
    when it has the weight column, and otherwise the weights are all one
    ([1.0] in [MCFitter], [1] in [FitComponent]). Building it changes
    neither the model nor the files, directories or plotting dictionary. *)
Theorem get_data_content (mc : MCFitter.t) (fc : FitComponent.t)
    (w w_mc w_fc : World) (d_mc d_fc : zdata) :
  MCFitter._get_data mc w = (Ok d_mc, w_mc) →
  FitComponent._get_data fc w = (Ok d_fc, w_fc) →
  (∃ rdf wcol,
     MCFitter._rdf mc = Some rdf
     ∧ py_getitem (MCFitter._fit_cfg mc) "weights_column" = Ok (PyStr wcol)
     ∧ zd_obs d_mc = MCFitter._obs mc
     ∧ (w_pdf w_mc, w_files w_mc, w_dirs w_mc, w_plt_cfg w_mc)
       = (w_pdf w, w_files w, w_dirs w, w_plt_cfg w)
     ∧ dataset_of rdf (MCFitter._obs_name mc) wcol (NDouble 1) d_mc)
  ∧ (∃ rdf wcol,
       FitComponent._rdf fc = Some rdf
       ∧ py_getitem (FitComponent._fit_cfg fc) "weights_column"
         = Ok (PyStr wcol)
       ∧ zd_obs d_fc = FitComponent._obs fc
       ∧ (w_pdf w_fc, w_files w_fc, w_dirs w_fc, w_plt_cfg w_fc)
         = (w_pdf w, w_files w, w_dirs w, w_plt_cfg w)
       ∧ dataset_of rdf (FitComponent._obs_name fc) wcol (NInt 1) d_fc)
  ∧ length (zd_array d_mc) = length (zd_weights d_mc)
  ∧ length (zd_array d_fc) = length (zd_weights d_fc).
Proof.
  intros Hmc Hfc.
  pose proof (mc_get_data_inv _ _ _ _ Hmc) as (r1 & c1 & ? & ? & ? & ? & Hd1).
  pose proof (fc_get_data_inv _ _ _ _ Hfc) as (r2 & c2 & ? & ? & ? & ? & Hd2).
  split; [by exists r1, c1|]. split; [by exists r2, c2|].
  destruct Hd1 as (-> & -> & _), Hd2 as (-> & -> & _). done.
Qed.

(** X9: [_get_data] of either class returns a dataset exactly when the
    component has a dataframe, the fitting configuration names the weight
    column by a string, and the observable is a column of the source (or
    is the weight column itself); a source without the observable makes
    it fail. *)
Theorem get_data_succeeds_iff (mc : MCFitter.t) (fc : FitComponent.t)
    (w : World) :
  ((∃ data w', MCFitter._get_data mc w = (Ok data, w'))
   ↔ ∃ rdf wcol,
       MCFitter._rdf mc = Some rdf
       ∧ py_getitem (MCFitter._fit_cfg mc) "weights_column" = Ok (PyStr wcol)
       ∧ MCFitter._obs_name mc ∈ GetColumnNames rdf ++ [wcol])
  ∧ ((∃ data w', FitComponent._get_data fc w = (Ok data, w'))
     ↔ ∃ rdf wcol,
         FitComponent._rdf fc = Some rdf
         ∧ py_getitem (FitComponent._fit_cfg fc) "weights_column"
           = Ok (PyStr wcol)
         ∧ FitComponent._obs_name fc ∈ GetColumnNames rdf ++ [wcol]).
Proof.
  split; split.
  - intros (data & w' & Hrun).
    apply mc_get_data_inv in Hrun as (rdf & wcol & ? & ? & _ & _ & Hd).
    exists rdf, wcol. eauto using dataset_of_observable.
  - intros (rdf & wcol & ? & ? & ?). by apply mc_get_data_run with rdf wcol.
  - intros (data & w' & Hrun).
    apply fc_get_data_inv in Hrun as (rdf & wcol & ? & ? & _ & _ & Hd).
    exists rdf, wcol. eauto using dataset_of_observable.
  - intros (rdf & wcol & ? & ? & ?). by apply fc_get_data_run with rdf wcol.
Qed.

(** *** Plotting *)

Lemma fc_plot_fit_inv (self : FitComponent.t) data w w' :
  FitComponent._plot_fit self data w = (Ok tt, w') →
  w_plt_cfg w ≠ PyNone →
  ∃ d dir,
    w_plt_cfg w = PyDict d
    ∧ d !! "plot_dir" = Some (PyStr dir)
    ∧ zfit_plot data (w_pdf w) (delete "plot_dir" d) = Ok tt
    ∧ w_plt_cfg w' = PyDict (delete "plot_dir" d)
    ∧ w_files w'
      = <[plot_path dir (FitComponent._name self) := FilePlot]> (w_files w)
    ∧ w_dirs w' = {[dir]} ∪ w_dirs w
    ∧ w_pdf w' = w_pdf w.
Proof.
  unfold FitComponent._plot_fit, FitComponent.del_plt_cfg, makedirs, plot,
    savefig, py_getitem, plot_path.
  unfold mbind, M_bind, mret, M_ret, log, emit, read, modify, lift, raise.
  simpl. intros Hrun Hne%is_none_false. rewrite Hne in Hrun.
  repeat case_match; simplify_eq; simpl in *; simplify_eq.
  eexists _, _. repeat split; try done.
  match goal with H : zfit_plot _ _ _ = Ok ?u |- _ => by destruct u end.
Qed.

Lemma fc_plot_fit_consumed (self : FitComponent.t) data w d :
  w_plt_cfg w = PyDict d →
  d !! "plot_dir" = None →
  FitComponent._plot_fit self data w = (Err (KeyError "plot_dir"), w).
Proof.
  intros Hd Hk. unfold FitComponent._plot_fit, py_getitem.
  unfold mbind, M_bind, mret, M_ret, log, emit, read, modify, lift, raise.
  rewrite Hd. simpl. by rewrite Hk.
Qed.

(** X10: [FitComponent._plot_fit] uses its plotting dictionary up. A call
    that returns with a plotting configuration found a string under
    ['plot_dir'], created that directory, rendered with the remaining
    options, saved the figure to [{plot_dir}/{name}.png] and left the
    shared dictionary without its ['plot_dir'] key; from then on every
    call of [_plot_fit] raises [KeyError('plot_dir')]. The model is not
    touched. *)
Theorem fc_plot_fit_consumes_plot_dir (self : FitComponent.t)
    (data : zdata) (w w' : World) :
  FitComponent._plot_fit self data w = (Ok tt, w') →
  w_plt_cfg w ≠ PyNone →
  (∃ d dir,
     w_plt_cfg w = PyDict d
     ∧ d !! "plot_dir" = Some (PyStr dir)
     ∧ zfit_plot data (w_pdf w) (delete "plot_dir" d) = Ok tt
     ∧ w_plt_cfg w' = PyDict (delete "plot_dir" d)
     ∧ w_files w'
       = <[plot_path dir (FitComponent._name self) := FilePlot]> (w_files w)
     ∧ w_dirs w' = {[dir]} ∪ w_dirs w
     ∧ w_pdf w' = w_pdf w)
  ∧ ∀ data2 w2,
      w_plt_cfg w2 = w_plt_cfg w' →
      FitComponent._plot_fit self data2 w2 = (Err (KeyError "plot_dir"), w2).
Proof.
  intros Hrun Hne.
  pose proof (fc_plot_fit_inv _ _ _ _ Hrun Hne)
    as (d & dir & Hd & Hk & Hp & Hd' & Hf & Hdir & Hpdf).
  split; [by exists d, dir|].
  intros data2 w2 Hw2. apply fc_plot_fit_consumed with (delete "plot_dir" d).
  - by rewrite Hw2.
  - apply lookup_delete_eq.
Qed.

(** Building the dataset and fitting leave the plotting dictionary alone,
    whatever their outcome. *)
Lemma fc_get_data_plt (self : FitComponent.t) w r w' :
  FitComponent._get_data self w = (r, w') → w_plt_cfg w' = w_plt_cfg w.
Proof.
  unfold FitComponent._get_data, FitComponent._add_weights, as_numpy, py_in.
  unfold mbind, M_bind, mret, M_ret, log, emit, read, modify, lift, raise.
  simpl. intros Hrun.
  repeat case_match; simplify_eq; done.
Qed.

Lemma fc_res_to_par_plt (self : FitComponent.t) res w r w' :
  FitComponent._res_to_par self res w = (r, w') → w_plt_cfg w' = w_plt_cfg w.
Proof.
  unfold FitComponent._res_to_par, call_hesse.
  unfold mbind, M_bind, mret, M_ret, log, emit, read, modify, lift, raise.
  simpl. intros Hrun.
  repeat case_match; simplify_eq; done.
Qed.

Lemma fc_fit_plt (self : FitComponent.t) data w r w' :
  FitComponent._fit self data w = (r, w') → w_plt_cfg w' = w_plt_cfg w.
Proof.
  rewrite fc_fit_run. simpl.
  destruct (minimize _ _ _) as [[pdf' res]|e].
  - by intros ->%fc_res_to_par_plt.
  - by intros [= _ <-].
Qed.

(** Once the plotting dictionary has lost its ['plot_dir'] key, [get_pdf]
    raises and leaves the dictionary as it is. *)
Lemma fc_get_pdf_raises (self : FitComponent.t) (w : World)
    (d : gmap string pyval) :
  FitComponent._fit_cfg self ≠ PyNone →
  w_plt_cfg w = PyDict d →
  d !! "plot_dir" = None →
  ∃ e w', FitComponent.get_pdf self w = (Err e, w')
          ∧ w_plt_cfg w' = w_plt_cfg w.
Proof.
  intros Hcfg%is_none_false Hd Hk. unfold FitComponent.get_pdf. rewrite Hcfg.
  destruct (FitComponent._rdf self) as [rdf|]; [|by eexists _, _].
  destruct (FitComponent._get_data self w) as [[data|e] w1] eqn:Hdata.
  2: { rewrite (bind_err _ _ _ _ _ Hdata). eexists _, _. split; [done|].
       by apply fc_get_data_plt in Hdata. }
  rewrite (bind_run _ _ _ _ _ Hdata). apply fc_get_data_plt in Hdata.
  destruct (FitComponent._fit self data w1) as [[par|e] w2] eqn:Hfit.
  2: { rewrite (bind_err _ _ _ _ _ Hfit). eexists _, _. split; [done|].
       apply fc_fit_plt in Hfit. congruence. }
  rewrite (bind_run _ _ _ _ _ Hfit). apply fc_fit_plt in Hfit.
  unfold mbind at 1, M_bind at 1. rewrite fc_fix_tails.
  destruct (tails_result par (pdf_params (w_pdf w2))) as [[]|e].
  2: { eexists _, _. split; [done|]. simpl. congruence. }
  set (w3 := fixed_world false par w2).
  assert (w_plt_cfg w3 = PyDict d) as Hw3 by (simpl; congruence).
  rewrite (bind_err _ _ _ _ _
             (fc_plot_fit_consumed self data w3 d Hw3 Hk)).
  eexists _, _. split; [done|]. congruence.
Qed.

(** X11: [FitComponent.get_pdf] works once per plotting dictionary. After
    a call that returned, with a fitting and a plotting configuration, no
    later call on the same component returns: in every world that carries
    the plotting dictionary the first call left, whatever else has
    changed, [get_pdf] raises, and it leaves that dictionary as it is, so
    the call after it raises too. *)
Theorem fc_get_pdf_one_shot (self : FitComponent.t) (w w' : World)
    (pdf : BasePDF) :
  FitComponent._fit_cfg self ≠ PyNone →
  w_plt_cfg w ≠ PyNone →
  FitComponent.get_pdf self w = (Ok pdf, w') →
  ∀ w2, w_plt_cfg w2 = w_plt_cfg w' →
    ∃ e w3, FitComponent.get_pdf self w2 = (Err e, w3)
            ∧ w_plt_cfg w3 = w_plt_cfg w'.
Proof.
  intros Hcfg Hplt Hrun.
  assert (∃ d, w_plt_cfg w' = PyDict d ∧ d !! "plot_dir" = None)
    as (d' & Hd' & Hk').
  { apply is_none_false in Hcfg. unfold FitComponent.get_pdf in Hrun.
    rewrite Hcfg in Hrun.
    destruct (FitComponent._rdf self) as [rdf|]; [|done].
    apply bind_ok_inv in Hrun as (data & w1 & Hd & Hrun).
    apply bind_ok_inv in Hrun as (par & w2 & Hf & Hrun).
    apply bind_ok_inv in Hrun as ([] & w3 & Hfix & Hrun).
    apply bind_ok_inv in Hrun as ([] & w4 & Hplot & [= _ ->]).
    rewrite fc_fix_tails in Hfix. injection Hfix as _ <-.
    apply fc_get_data_plt in Hd. apply fc_fit_plt in Hf.
    apply fc_plot_fit_inv in Hplot as (d & dir & _ & _ & _ & Hgone & _).
    - exists (delete "plot_dir" d). split; [done|]. apply lookup_delete_eq.
    - simpl. congruence. }
  intros w2 Hw2. rewrite <- Hw2.
  apply fc_get_pdf_raises with d'; [done | congruence | done].
Qed.

Lemma mc_plot_fit_run (self : MCFitter.t) data w d dir :
  MCFitter._out_dir self = Some (PyStr dir) →
  w_plt_cfg w = PyDict d →
  zfit_plot data (w_pdf w) d = Ok tt →
  MCFitter._plot_fit self data w
  = (Ok tt,
     set_files
       (<[plot_path dir (MCFitter._name self) := FilePlot]> (w_files w))
       (add_trace
          [EvMakedirs dir; EvPlot;
           Log INFO ("Saving fit plot to: "
                       +:+ plot_path dir (MCFitter._name self));
           EvSavefig (plot_path dir (MCFitter._name self))]
          (set_dirs ({[dir]} ∪ w_dirs w) w))).
Proof.
  intros Hout Hd Hp.
  unfold MCFitter._plot_fit, MCFitter.out_dir_attr, makedirs, plot, savefig,
    plot_path.
  unfold mbind, M_bind, mret, M_ret, log, emit, read, modify, lift, raise.
  rewrite Hd, Hout. simpl. rewrite Hp. simpl.
  unfold set_files, set_dirs, add_trace. simpl. by rewrite <- !app_assoc.
Qed.

Lemma mc_plot_fit_inv (self : MCFitter.t) data w w' :
  MCFitter._plot_fit self data w = (Ok tt, w') →
  w_plt_cfg w ≠ PyNone →
  ∃ d dir,
    MCFitter._out_dir self = Some (PyStr dir)
    ∧ w_plt_cfg w = PyDict d
    ∧ zfit_plot data (w_pdf w) d = Ok tt.
Proof.
  unfold MCFitter._plot_fit, MCFitter.out_dir_attr, makedirs, plot, savefig.
  unfold mbind, M_bind, mret, M_ret, log, emit, read, modify, lift, raise.
  simpl. intros Hrun Hne%is_none_false. rewrite Hne in Hrun.
  repeat case_match; simplify_eq; simpl in *; simplify_eq.
  eexists _, _. repeat split; try done.
  match goal with H : zfit_plot _ _ _ = Ok ?u |- _ => by destruct u end.
Qed.

(** X12: [MCFitter._plot_fit] with a plotting configuration. A call that
    returns has created the output directory, rendered with the plotting
    dictionary as it stands and saved the figure to [{out_dir}/{name}.png];
    the dictionary and the model are left as they were, so the call can be
    repeated: a second call returns too and leaves the same files and
    directories. Without a plotting configuration the call only logs a
    warning. *)
Theorem mc_plot_fit_repeatable (self : MCFitter.t) (data : zdata)
    (w w' : World) :
  MCFitter._plot_fit self data w = (Ok tt, w') →
  if is_none (w_plt_cfg w) then
    w' = add_trace [Log WARNING skip_plot_msg] w
  else
    ∃ d dir,
      MCFitter._out_dir self = Some (PyStr dir)
      ∧ w_plt_cfg w = PyDict d
      ∧ zfit_plot data (w_pdf w) d = Ok tt
      ∧ (w_pdf w', w_plt_cfg w') = (w_pdf w, w_plt_cfg w)
      ∧ w_files w'
        = <[plot_path dir (MCFitter._name self) := FilePlot]> (w_files w)
      ∧ w_dirs w' = {[dir]} ∪ w_dirs w
      ∧ ∃ w2, MCFitter._plot_fit self data w' = (Ok tt, w2)
              ∧ (w_files w2, w_dirs w2) = (w_files w', w_dirs w').
Proof.
  intros Hrun. destruct (is_none (w_plt_cfg w)) eqn:Hn.
  - unfold MCFitter._plot_fit in Hrun.
    unfold mbind, M_bind, read in Hrun. rewrite Hn in Hrun.
    by injection Hrun as <-.
  - apply is_none_false in Hn.
    destruct (mc_plot_fit_inv _ _ _ _ Hrun Hn) as (d & dir & Hout & Hd & Hp).
    rewrite (mc_plot_fit_run _ _ _ _ _ Hout Hd Hp) in Hrun.
    injection Hrun as <-. exists d, dir. do 6 (split; [done|]).
    eexists. split.
    + by apply mc_plot_fit_run with d.
    + simpl. f_equal; [apply insert_insert_eq | set_solver].
Qed.

(** *** Running twice, failing, and stale records *)

Lemma to_json_run (par : ParameterSet) (path : string) (w : World) :
  to_json par path w
  = (Ok tt, set_files (<[path := FileParameter par]> (w_files w))
              (add_trace [EvToJson path] w)).
Proof. done. Qed.

(** A run that returned left the record of the set it returned at the
    canonical path, and fixed the tails last. *)
Lemma mc_run_ok_inv (self : MCFitter.t) rdf out_dir w r w' :
  MCFitter._fit_cfg self ≠ PyNone →
  MCFitter._rdf self = Some rdf →
  MCFitter._out_dir self = Some out_dir →
  MCFitter.run self w = (Ok r, w') →
  ∃ par w4,
    r = MCFitter.RetPar par
    ∧ w' = fixed_world true par w4
    ∧ tails_result par (pdf_params (w_pdf w4)) = Ok tt
    ∧ w_files w4 !! MCFitter.pars_path out_dir (MCFitter._name self)
      = Some (FileParameter par).
Proof.
  intros Hcfg Hrdf Hout.
  rewrite (mc_run_unfold self rdf out_dir w Hcfg Hrdf Hout). simpl.
  intros (par & w4 & Hpar & Hfix)%bind_ok_inv.
  apply bind_ok_inv in Hfix as ([] & w5 & Hfix & [= <- <-]).
  rewrite mc_fix_tails in Hfix. injection Hfix as Hres <-.
  exists par, w4. do 3 (split; [done|]).
  destruct (bool_decide _) eqn:Hfound.
  - rewrite load_cached in Hpar. simpl in Hpar.
    change (w_files (add_trace [EvIsFile (MCFitter.pars_path out_dir
              (MCFitter._name self))] w)) with (w_files w) in Hpar.
    destruct (w_files w !! _) as [[par'| |]|] eqn:Hfile; simplify_eq.
    done.
  - apply bind_ok_inv in Hpar as (data & w1 & _ & Hpar).
    apply bind_ok_inv in Hpar as (par' & w2 & _ & Hpar).
    apply bind_ok_inv in Hpar as ([] & w3 & _ & Hpar).
    apply bind_ok_inv in Hpar as ([] & w6 & Hjson & [= -> <-]).
    rewrite to_json_run in Hjson. injection Hjson as <-.
    apply lookup_insert_eq.
Qed.

(** The cached branch of [run], end to end: it ends as the tail-fixing
    loop does. *)
Lemma mc_run_cached (self : MCFitter.t) rdf out_dir w par :
  MCFitter._fit_cfg self ≠ PyNone →
  MCFitter._rdf self = Some rdf →
  MCFitter._out_dir self = Some out_dir →
  let path := MCFitter.pars_path out_dir (MCFitter._name self) in
  w_files w !! path = Some (FileParameter par) →
  MCFitter.run self w
  = (match tails_result par (pdf_params (w_pdf w)) with
     | Ok _ => Ok (MCFitter.RetPar par)
     | Err e => Err e
     end,
     fixed_world true par
       (add_trace
          [EvIsFile path;
           Log WARNING ("Fit parameters for component "
                          +:+ py_str (MCFitter._name self)
                          +:+ " found, loading: " +:+ path);
           EvFromJson path] w)).
Proof.
  intros Hcfg Hrdf Hout path Hfile.
  rewrite (mc_run_unfold self rdf out_dir w Hcfg Hrdf Hout). simpl.
  fold path. rewrite bool_decide_eq_true_2 by (rewrite Hfile; eauto).
  pose proof (load_cached
                ("Fit parameters for component "
                   +:+ py_str (MCFitter._name self)
                   +:+ " found, loading: " +:+ path)
                path (add_trace [EvIsFile path] w)) as Hload.
  simpl in Hload. rewrite add_trace_app in Hload.
  change (w_files (add_trace [EvIsFile path] w)) with (w_files w) in Hload.
  rewrite Hfile in Hload.
  rewrite (bind_run _ _ _ _ _ Hload).
  unfold mbind, M_bind. rewrite mc_fix_tails. simpl.
  by destruct (tails_result par (pdf_params (w_pdf w))) as [[]|e].
Qed.

(** X13: running an [MCFitter] twice. After a run that returned, a second
    run in the world it left takes the cached branch: it returns the same
    parameter set, makes no call that reads the data, fits, plots or
    writes, and leaves the model and the files exactly as the first run
    left them. *)
Theorem run_twice_fits_once (self : MCFitter.t) (rdf : RDataFrame)
    (out_dir : pyval) (w w' : World) (r : MCFitter.run_result) :
  MCFitter._fit_cfg self ≠ PyNone →
  MCFitter._rdf self = Some rdf →
  MCFitter._out_dir self = Some out_dir →
  MCFitter.run self w = (Ok r, w') →
  ∃ w'' (evs : list event),
    MCFitter.run self w' = (Ok r, w'')
    ∧ w_pdf w'' = w_pdf w'
    ∧ w_files w'' = w_files w'
    ∧ w_trace w'' = w_trace w' ++ evs
    ∧ Forall (λ e, is_fit_or_plot e = false) evs.
Proof.
  intros Hcfg Hrdf Hout Hrun.
  destruct (mc_run_ok_inv self rdf out_dir w r w' Hcfg Hrdf Hout Hrun)
    as (par & w4 & -> & -> & Hres & Hfile).
  set (path := MCFitter.pars_path out_dir (MCFitter._name self)) in *.
  set (evs := [EvIsFile path;
               Log WARNING ("Fit parameters for component "
                              +:+ py_str (MCFitter._name self)
                              +:+ " found, loading: " +:+ path);
               EvFromJson path]).
  set (w1 := fixed_world true par w4).
  exists (fixed_world true par (add_trace evs w1)),
    (evs ++ tails_log par (w_pdf w1)).
  split.
  { rewrite (mc_run_cached self rdf out_dir w1 par Hcfg Hrdf Hout Hfile).
    unfold w1. rewrite fixed_world_params.
    by rewrite (proj2 (tails_params_idem _ _ _)), Hres. }
  split; [apply fixed_world_idem|].
  split; [done|]. split.
  - unfold fixed_world, add_trace. simpl. by rewrite <- !app_assoc.
  - apply Forall_app. split; [|apply tails_log_quiet].
    unfold evs. by rewrite !Forall_cons.
Qed.

(** X14: two fitters that share their name and output directory but
    differ in everything else (fitting configuration, error method,
    dataframe, minimiser) run identically once the record exists: the
    cached branch consults none of these, so a record left by a
    differently configured run is reused as it is. *)
Theorem cached_run_ignores_configuration (s1 s2 : MCFitter.t)
    (rdf1 rdf2 : RDataFrame) (out_dir : pyval) (w : World) :
  MCFitter._fit_cfg s1 ≠ PyNone →
  MCFitter._fit_cfg s2 ≠ PyNone →
  MCFitter._rdf s1 = Some rdf1 →
  MCFitter._rdf s2 = Some rdf2 →
  MCFitter._out_dir s1 = Some out_dir →
  MCFitter._out_dir s2 = Some out_dir →
  MCFitter._name s1 = MCFitter._name s2 →
  is_Some (w_files w !! MCFitter.pars_path out_dir (MCFitter._name s1)) →
  MCFitter.run s1 w = MCFitter.run s2 w.
Proof.
  intros Hc1 Hc2 Hr1 Hr2 Ho1 Ho2 Hname Hfile.
  rewrite (mc_run_unfold s1 rdf1 out_dir w Hc1 Hr1 Ho1).
  rewrite (mc_run_unfold s2 rdf2 out_dir w Hc2 Hr2 Ho2). simpl.
  rewrite <- Hname. by rewrite bool_decide_eq_true_2.
Qed.

(** *** The cache and the file system *)

(** Whatever their outcome, building the dataset and fitting leave the
    files alone. *)
Lemma mc_get_data_files (self : MCFitter.t) w r w' :
  MCFitter._get_data self w = (r, w') → w_files w' = w_files w.
Proof.
  unfold MCFitter._get_data, MCFitter._add_weights, as_numpy, py_in.
  unfold mbind, M_bind, mret, M_ret, log, emit, read, modify, lift, raise.
  simpl. intros Hrun.
  repeat case_match; simplify_eq; done.
Qed.

Lemma mc_res_to_par_files (self : MCFitter.t) res w r w' :
  MCFitter._res_to_par self res w = (r, w') → w_files w' = w_files w.
Proof.
  unfold MCFitter._res_to_par, call_hesse.
  unfold mbind, M_bind, mret, M_ret, log, emit, read, modify, lift, raise.
  simpl. intros Hrun.
  repeat case_match; simplify_eq; done.
Qed.

Lemma mc_fit_files (self : MCFitter.t) data w r w' :
  MCFitter._fit self data w = (r, w') → w_files w' = w_files w.
Proof.
  rewrite mc_fit_run. simpl.
  destruct (minimize _ _ _) as [[pdf' res]|e].
  - by intros ->%mc_res_to_par_files.
  - by intros [= _ <-].
Qed.

(** A plotting stage that raised had not saved its figure yet. *)
Lemma mc_plot_fit_err_files (self : MCFitter.t) data w e w' :
  MCFitter._plot_fit self data w = (Err e, w') → w_files w' = w_files w.
Proof.
  unfold MCFitter._plot_fit, MCFitter.out_dir_attr, makedirs, plot, savefig.
  unfold mbind, M_bind, mret, M_ret, log, emit, read, modify, lift, raise.
  simpl. intros Hrun.
  repeat case_match; simplify_eq; done.
Qed.

Lemma mc_fresh_err_files (self : MCFitter.t) (path : string) w e w' :
  (data ← MCFitter._get_data self;
   par ← MCFitter._fit self data;
   MCFitter._plot_fit self data;;
   to_json par path;;
   mret par) w = (Err e, w') →
  w_files w' = w_files w.
Proof.
  unfold mbind, M_bind.
  destruct (MCFitter._get_data self w) as [[data|e1] w1] eqn:Hd.
  2: { intros [= _ <-]. by apply mc_get_data_files in Hd. }
  destruct (MCFitter._fit self data w1) as [[par|e2] w2] eqn:Hf.
  2: { intros [= _ <-]. apply mc_get_data_files in Hd.
       apply mc_fit_files in Hf. congruence. }
  destruct (MCFitter._plot_fit self data w2) as [[[]|e3] w3] eqn:Hp.
  - rewrite to_json_run. done.
  - intros [= _ <-]. apply mc_get_data_files in Hd.
    apply mc_fit_files in Hf. apply mc_plot_fit_err_files in Hp. congruence.
Qed.

(** The fresh branch of [run] that returned, call by call. *)
Lemma mc_fresh_inv (self : MCFitter.t) (path : string) w par w1 :
  (data ← MCFitter._get_data self;
   par ← MCFitter._fit self data;
   MCFitter._plot_fit self data;;
   to_json par path;;
   mret par) w = (Ok par, w1) →
  ∃ data wa pdf' res res' wc,
    MCFitter._get_data self w = (Ok data, wa)
    ∧ minimize (MCFitter._minimizer self) (w_pdf w) data = Ok (pdf', res)
    ∧ hesse res "minuit_hesse" = Ok res'
    ∧ fill_parameter ∅ (res_params res') = Ok par
    ∧ MCFitter._plot_fit self data
        (fitted_world (py_str (MCFitter._name self))
           (MCFitter._minimizer self) pdf' wa) = (Ok tt, wc)
    ∧ w1 = set_files (<[path := FileParameter par]> (w_files wc))
             (add_trace [EvToJson path] wc)
    ∧ w_pdf w1 = pdf'.
Proof.
  intros (data & wa & Hd & Hrun)%bind_ok_inv.
  apply bind_ok_inv in Hrun as (par' & wb & Hf & Hrun).
  apply bind_ok_inv in Hrun as ([] & wc & Hp & Hrun).
  apply bind_ok_inv in Hrun as ([] & wd & Hj & [= -> <-]).
  rewrite to_json_run in Hj. injection Hj as <-.
  pose proof (mc_get_data_inv _ _ _ _ Hd)
    as (_ & _ & _ & _ & _ & [= Hpdf _ _ _] & _).
  apply mc_fit_inv in Hf as (pdf' & res & res' & Hmin & Hh & Hfill & ->).
  rewrite Hpdf in Hmin.
  exists data, wa, pdf', res, res', wc. do 6 (split; [done|]).
  apply mc_plot_fit_ok in Hp as [Hpdf' _].
  unfold set_files, add_trace. simpl. by rewrite Hpdf'.
Qed.

(** X15: a run of an [MCFitter] that raises, in the fit, in the plotting
    or while reading a broken record, leaves the files as they were: no
    parameter record and no figure is written, so a failed fit leaves
    nothing in the cache. *)
Theorem failed_run_writes_no_file (self : MCFitter.t) (rdf : RDataFrame)
    (out_dir : pyval) (w w' : World) (e : exn) :
  MCFitter._fit_cfg self ≠ PyNone →
  MCFitter._rdf self = Some rdf →
  MCFitter._out_dir self = Some out_dir →
  MCFitter.run self w = (Err e, w') →
  w_files w' = w_files w.
Proof.
  intros Hcfg Hrdf Hout.
  rewrite (mc_run_unfold self rdf out_dir w Hcfg Hrdf Hout). simpl.
  set (path := MCFitter.pars_path out_dir (MCFitter._name self)).
  set (w0 := add_trace [EvIsFile path] w).
  match goal with
  | |- (?branch ≫= ?k) w0 = _ → _ =>
      destruct (branch w0) as [[par|e1] w1] eqn:Hb;
      [rewrite (bind_run _ _ _ _ _ Hb) | rewrite (bind_err _ _ _ _ _ Hb)]
  end.
  - unfold mbind, M_bind. rewrite mc_fix_tails.
    destruct (tails_result par (pdf_params (w_pdf w1))) as [[]|e2] eqn:Hres;
      [done|].
    intros [= _ <-]. change (w_files (fixed_world true par w1)) with (w_files w1).
    destruct (bool_decide _).
    + rewrite load_cached in Hb. simpl in Hb.
      destruct (w_files w !! path) as [[?| |]|]; by simplify_eq.
    + apply mc_fresh_inv in Hb
        as (data & wa & pdf' & res & res' & wc & _ & Hmin & Hh & Hfill
            & _ & _ & Hpdf).
      rewrite Hpdf, (fitted_within_limits _ _ _ _ _ _ _ _ Hmin Hh Hfill)
        in Hres.
      done.
  - intros [= _ <-]. destruct (bool_decide _).
    + rewrite load_cached in Hb. simpl in Hb.
      destruct (w_files w !! path) as [[?| |]|]; by simplify_eq.
    + by apply mc_fresh_err_files in Hb.
Qed.

(** *** What [FitComponent] never does *)

Lemma no_cache_refl (w : World) : no_cache_step w w.
Proof.
  split; [|done]. exists []. split; [by rewrite app_nil_r | constructor].
Qed.

Lemma no_cache_trans (w1 w2 w3 : World) :
  no_cache_step w1 w2 → no_cache_step w2 w3 → no_cache_step w1 w3.
Proof.
  intros [(e1 & Ht1 & Hq1) Hf1] [(e2 & Ht2 & Hq2) Hf2]. split.
  - exists (e1 ++ e2). split; [|by apply Forall_app].
    by rewrite Ht2, Ht1, app_assoc.
  - eauto.
Qed.

Lemma cache_free_ret {A : Type} (a : A) : cache_free (mret a).
Proof. intros w r w' [= _ <-]. apply no_cache_refl. Qed.

Lemma cache_free_raise {A : Type} (e : exn) : cache_free (raise (A := A) e).
Proof. intros w r w' [= _ <-]. apply no_cache_refl. Qed.

Lemma cache_free_lift {A : Type} (x : result A) : cache_free (lift x).
Proof. intros w r w' [= _ <-]. apply no_cache_refl. Qed.

Lemma cache_free_read {A : Type} (f : World → A) : cache_free (read f).
Proof. intros w r w' [= _ <-]. apply no_cache_refl. Qed.

Lemma cache_free_emit (e : event) :
  is_cache_io e = false → cache_free (emit e).
Proof.
  intros He w r w' [= _ <-]. split; [|done].
  exists [e]. split; [done | by apply Forall_singleton].
Qed.

Lemma cache_free_modify (f : World → World) :
  (∀ w, no_cache_step w (f w)) → cache_free (modify f).
Proof. intros Hf w r w' [= _ <-]. apply Hf. Qed.

Lemma cache_free_bind {A B : Type} (m : M A) (f : A → M B) :
  cache_free m → (∀ a, cache_free (f a)) → cache_free (m ≫= f).
Proof.
  intros Hm Hf w r w'. unfold mbind, M_bind.
  destruct (m w) as [[a|e] w1] eqn:Hmw.
  - intros Hfa. eapply no_cache_trans; [by eapply Hm | by eapply Hf].
  - intros [= _ <-]. by eapply Hm.
Qed.

Lemma no_cache_set_pdf pdf w : no_cache_step w (set_pdf pdf w).
Proof.
  split; [|done]. exists []. split; [by rewrite app_nil_r | constructor].
Qed.

Lemma no_cache_set_dirs ds w : no_cache_step w (set_dirs ds w).
Proof.
  split; [|done]. exists []. split; [by rewrite app_nil_r | constructor].
Qed.

Lemma no_cache_set_plt_cfg v w : no_cache_step w (set_plt_cfg v w).
Proof.
  split; [|done]. exists []. split; [by rewrite app_nil_r | constructor].
Qed.

Lemma no_cache_save_plot path w :
  no_cache_step w (set_files (<[path := FilePlot]> (w_files w)) w).
Proof.
  split.
  - exists []. split; [by rewrite app_nil_r | constructor].
  - intros p par. simpl. destruct (decide (path = p)) as [->|Hne].
    + by rewrite lookup_insert_eq.
    + by rewrite lookup_insert_ne.
Qed.

(** Peels a computation apart along its binds and branches. *)
Ltac cache_free :=
  repeat first
    [ apply cache_free_ret
    | apply cache_free_raise
    | apply cache_free_lift
    | apply cache_free_read
    | apply cache_free_emit; reflexivity
    | apply cache_free_modify; intros ?;
        first [ apply no_cache_set_pdf | apply no_cache_set_dirs
              | apply no_cache_set_plt_cfg | apply no_cache_save_plot ]
    | apply cache_free_bind; [|intros ?]
    | match goal with
      | |- cache_free (if ?c then _ else _) => destruct c
      | |- cache_free (match ?x with _ => _ end) => destruct x
      end ].

Lemma fc_get_data_cache_free (self : FitComponent.t) :
  cache_free (FitComponent._get_data self).
Proof.
  unfold FitComponent._get_data, FitComponent._add_weights, as_numpy, log.
  cache_free.
Qed.

Lemma fc_fit_cache_free (self : FitComponent.t) (data : zdata) :
  cache_free (FitComponent._fit self data).
Proof.
  unfold FitComponent._fit, FitComponent._res_to_par, call_minimize,
    call_hesse, log.
  cache_free.
Qed.

Lemma fc_fix_tails_cache_free (sp : ParameterSet) :
  cache_free (FitComponent._fix_tails sp).
Proof.
  intros w r w'. rewrite fc_fix_tails. intros [= _ <-]. split; [|done].
  exists (tails_log sp (w_pdf w)). split; [done|].
  eapply Forall_impl; [apply tails_log_lines|]. by intros [].
Qed.

Lemma fc_plot_fit_cache_free (self : FitComponent.t) (data : zdata) :
  cache_free (FitComponent._plot_fit self data).
Proof.
  unfold FitComponent._plot_fit, FitComponent.del_plt_cfg, makedirs, plot,
    savefig, log.
  cache_free.
Qed.

(** X16: [FitComponent.get_pdf] has no cache. Whatever its outcome, it
    makes no call that looks up, reads or writes a parameter record, and
    every parameter record in the files afterwards was there before: the
    only file it may write is the figure. *)
Theorem fc_get_pdf_never_caches (self : FitComponent.t) (w w' : World)
    (r : result BasePDF) :
  FitComponent.get_pdf self w = (r, w') →
  (∃ evs, w_trace w' = w_trace w ++ evs
          ∧ Forall (λ e, is_cache_io e = false) evs)
  ∧ ∀ p par, w_files w' !! p = Some (FileParameter par) →
             w_files w !! p = Some (FileParameter par).
Proof.
  revert w r w'. change (cache_free (FitComponent.get_pdf self)).
  unfold FitComponent.get_pdf.
  destruct (is_none _); [apply cache_free_read|].
  destruct (FitComponent._rdf self); [|apply cache_free_raise].
  apply cache_free_bind; [apply fc_get_data_cache_free | intros data].
  apply cache_free_bind; [apply fc_fit_cache_free | intros par].
  apply cache_free_bind; [apply fc_fix_tails_cache_free | intros _].
  apply cache_free_bind; [apply fc_plot_fit_cache_free | intros _].
  apply cache_free_read.
Qed.

(** *** The entry points, end to end *)

(** When the loop returns, every parameter is as its iteration left it:
    a floating parameter whose name is in the set and carries no reserved
    suffix holds the value of the set and the flag [not freeze], any other
    parameter is untouched. *)
Lemma tails_params_spec (freeze : bool) (sp : ParameterSet)
    (l : list zparam) :
  tails_result sp l = Ok tt →
  length (tails_params freeze sp l) = length l
  ∧ ∀ i p, l !! i = Some p →
      tails_params freeze sp l !! i
      = Some (match sp !! par_name p with
              | Some (v, _) =>
                  if par_floating p && negb (endswith (par_name p) "_flt")
                  then with_floating (with_value p v) (negb freeze) else p
              | None => p
              end).
Proof.
  intros Hres. split; [apply tails_params_length|]. intros i p Hp.
  rewrite (tails_params_ok _ _ _ Hres), list_lookup_fmap, Hp. simpl.
  f_equal. apply visited_spec. intros val.
  apply (proj1 (tails_result_ok sp l) Hres).
  by apply list_elem_of_lookup_2 with i.
Qed.

(** C1, in the form that holds of the code: whenever [run] of an
    [MCFitter] with a fitting configuration and a dataframe returns, it
    returns the parameter set, and the tail-fixing loop was its last step,
    on the model as the minimiser left it (fresh path) or as the run found
    it (cached path). Every parameter of that model that was floating,
    whose name is in the set and does not end with [_flt], then holds the
    value of the set and is fixed; every other parameter, and so every
    parameter that was already fixed, is as it was. *)
Theorem run_fixes_tails (self : MCFitter.t) (w w' : World)
    (r : MCFitter.run_result) :
  MCFitter._fit_cfg self ≠ PyNone →
  MCFitter._rdf self ≠ None →
  MCFitter.run self w = (Ok r, w') →
  ∃ par out_dir pdf0,
    r = MCFitter.RetPar par
    ∧ MCFitter._out_dir self = Some out_dir
    ∧ match w_files w !! MCFitter.pars_path out_dir (MCFitter._name self) with
      | Some file => file = FileParameter par ∧ pdf0 = w_pdf w
      | None =>
          ∃ data res,
            minimize (MCFitter._minimizer self) (w_pdf w) data
            = Ok (pdf0, res)
      end
    ∧ length (pdf_params (w_pdf w')) = length (pdf_params pdf0)
    ∧ ∀ i p, pdf_params pdf0 !! i = Some p →
        pdf_params (w_pdf w') !! i
        = Some (match par !! par_name p with
                | Some (v, _) =>
                    if par_floating p && negb (endswith (par_name p) "_flt")
                    then with_floating (with_value p v) false else p
                | None => p
                end).
Proof.
  intros Hcfg Hrdf Hrun.
  destruct (MCFitter._rdf self) as [rdf|] eqn:Hr; [clear Hrdf|done].
  destruct (MCFitter._out_dir self) as [out_dir|] eqn:Ho.
  2: { apply is_none_false in Hcfg.
       unfold MCFitter.run, MCFitter.out_dir_attr in Hrun.
       by rewrite Hcfg, Hr, Ho in Hrun. }
  rewrite (mc_run_unfold self rdf out_dir w Hcfg Hr Ho) in Hrun.
  simpl in Hrun.
  set (path := MCFitter.pars_path out_dir (MCFitter._name self)) in *.
  apply bind_ok_inv in Hrun as (par & w4 & Hpar & Hfix).
  apply bind_ok_inv in Hfix as ([] & w5 & Hfix & [= <- <-]).
  rewrite mc_fix_tails in Hfix. injection Hfix as Hres <-.
  exists par, out_dir, (w_pdf w4). do 2 (split; [done|]). split.
  - fold path. destruct (bool_decide _) eqn:Hfound.
    + rewrite load_cached in Hpar. simpl in Hpar.
      change (w_files (add_trace [EvIsFile path] w)) with (w_files w) in Hpar.
      destruct (w_files w !! path) as [[par'| |]|]; by simplify_eq.
    + apply bool_decide_eq_false_1 in Hfound.
      destruct (w_files w !! path) as [file|] eqn:Hfile;
        [by destruct Hfound; eauto|].
      apply mc_fresh_inv in Hpar
        as (data & wa & pdf' & res & res' & wc & _ & Hmin & _ & _ & _ & _
            & ->).
      by exists data, res.
  - rewrite fixed_world_params. by apply tails_params_spec.
Qed.


(** A dataset that was built was read with [AsNumpy] on the observable
    and the weight column; building it only records calls. *)
Lemma mc_get_data_trace (self : MCFitter.t) w data w1 :
  MCFitter._get_data self w = (Ok data, w1) →
  ∃ wcol evs,
    py_getitem (MCFitter._fit_cfg self) "weights_column" = Ok (PyStr wcol)
    ∧ w1 = add_trace evs w
    ∧ EvAsNumpy [MCFitter._obs_name self; wcol] ∈ evs.
Proof.
  unfold MCFitter._get_data, MCFitter._add_weights, as_numpy.
  unfold mbind, M_bind, mret, M_ret, log, emit, read, modify, lift, raise.
  simpl. intros Hrun.
  repeat case_match; simplify_eq; rewrite ?add_trace_app.
  all: eexists _, _; split; [done|]; split; [reflexivity|].
  all: rewrite ?elem_of_app, ?elem_of_cons; eauto 10.
Qed.

(** C2: [run] of an [MCFitter] with a fitting configuration, a dataframe
    and its output directory chooses its branch by the existence of the
    file at [{out_dir}/{name}.json] alone. Without the file, a run that
    returns has built the dataset from the dataframe (the observable and
    the weight column, read with [AsNumpy]), minimised on that dataset
    from the model it found, taken the set from the result after the
    Hessian step, rendered that dataset and the fitted model when there is
    a plotting configuration, and then written the set it returns to that
    path; after the write it only logs. With the file, whatever the
    configuration, the run reads the record, makes no call that reads the
    data, fits, plots or writes, and leaves the files as they are; it
    returns the recorded set, unless the record is no parameter record or
    holds, for a floating parameter it would fix, a value outside the
    limits of that parameter, in which case it raises. *)
Theorem run_cache_protocol (self : MCFitter.t) (rdf : RDataFrame)
    (out_dir : pyval) (w : World) :
  MCFitter._fit_cfg self ≠ PyNone →
  MCFitter._rdf self = Some rdf →
  MCFitter._out_dir self = Some out_dir →
  let path := MCFitter.pars_path out_dir (MCFitter._name self) in
  (w_files w !! path = None →
   ∀ r w', MCFitter.run self w = (Ok r, w') →
     ∃ (par : ParameterSet) (wcol : string) (data : zdata) (pdf' : BasePDF)
       (res res' : FitResult) (build fit plots post : list event),
       r = MCFitter.RetPar par
       ∧ py_getitem (MCFitter._fit_cfg self) "weights_column"
         = Ok (PyStr wcol)
       ∧ zd_obs data = MCFitter._obs self
       ∧ dataset_of rdf (MCFitter._obs_name self) wcol (NDouble 1) data
       ∧ minimize (MCFitter._minimizer self) (w_pdf w) data = Ok (pdf', res)
       ∧ hesse res "minuit_hesse" = Ok res'
       ∧ fill_parameter ∅ (res_params res') = Ok par
       ∧ (w_plt_cfg w ≠ PyNone →
          ∃ d, w_plt_cfg w = PyDict d ∧ zfit_plot data pdf' d = Ok tt)
       ∧ w_files w' !! path = Some (FileParameter par)
       ∧ w_trace w' = w_trace w ++ [EvIsFile path] ++ build ++ fit
                        ++ plots ++ [EvToJson path] ++ post
       ∧ EvAsNumpy [MCFitter._obs_name self; wcol] ∈ build
       ∧ EvMinimize (MCFitter._minimizer self) ∈ fit
       ∧ plot_stage (w_plt_cfg w) plots
       ∧ Forall (λ e, is_fit_or_plot e = false) post)
  ∧ (∀ file, w_files w !! path = Some file →
     ∃ r w' (evs : list event),
       MCFitter.run self w = (r, w')
       ∧ w_files w' = w_files w
       ∧ w_trace w' = w_trace w ++ [EvIsFile path] ++ evs
       ∧ EvFromJson path ∈ evs
       ∧ Forall (λ e, is_fit_or_plot e = false) evs
       ∧ match file with
         | FileParameter par =>
             (r = Ok (MCFitter.RetPar par)
              ∧ ∀ p v e,
                  p ∈ pdf_params (w_pdf w) → par_floating p = true →
                  par !! par_name p = Some (v, e) →
                  endswith (par_name p) "_flt" = false →
                  outside_limits p v = false)
             ∨ (∃ p v e,
                  p ∈ pdf_params (w_pdf w) ∧ par_floating p = true
                  ∧ par !! par_name p = Some (v, e)
                  ∧ endswith (par_name p) "_flt" = false
                  ∧ outside_limits p v = true
                  ∧ r = Err (ValueError (limits_msg (par_name p))))
         | _ => ∃ e, r = Err e
         end).
Proof.
  intros Hcfg Hrdf Hout path.
  pose proof (mc_run_unfold self rdf out_dir w Hcfg Hrdf Hout) as Hrun.
  simpl in Hrun. fold path in Hrun. split.
  - intros Hfile r w'. rewrite Hrun.
    rewrite bool_decide_eq_false_2 by (rewrite Hfile; by intros [? ?]).
    intros (par & w5 & Hpar & Hfix)%bind_ok_inv.
    apply bind_ok_inv in Hfix as ([] & w6 & Hfix & [= <- <-]).
    rewrite mc_fix_tails in Hfix. injection Hfix as _ <-.
    apply mc_fresh_inv in Hpar
      as (data & wa & pdf' & res & res' & wc & Hdata & Hmin & Hh & Hfill
          & Hplot & -> & Hpdf).
    pose proof (mc_get_data_inv _ _ _ _ Hdata)
      as (rdf' & wcol & Hrdf' & Hwcol & Hobs & [= _ _ _ Hplt] & Hds).
    rewrite Hrdf in Hrdf'. injection Hrdf' as <-.
    apply mc_get_data_trace in Hdata
      as (wcol' & build & Hwcol' & -> & Hbuild).
    rewrite Hwcol in Hwcol'. injection Hwcol' as <-.
    pose proof (mc_plot_fit_ok _ _ _ _ Hplot) as (_ & plots & Htr & Hplots).
    exists par, wcol, data, pdf', res, res', build,
      (fit_prologue (py_str (MCFitter._name self))
         (MCFitter._minimizer self)
       ++ [PrintResult; EvHesse "minuit_hesse"; EvFreeze]),
      plots, (tails_log par pdf').
    do 7 (split; [done|]). split.
    { intros Hne.
      apply mc_plot_fit_inv in Hplot as (d & dir & _ & Hd & Hp); [|done].
      exists d. split; [by rewrite <- Hd|done]. }
    split; [apply lookup_insert_eq|]. split.
    { change (w_pdf wc = pdf') in Hpdf.
      unfold fixed_world. simpl. rewrite Htr, Hpdf.
      unfold fitted_world, fit_prologue, add_trace. simpl.
      rewrite <- !app_assoc. reflexivity. }
    split; [done|]. split.
    { unfold fit_prologue. rewrite !elem_of_app, !elem_of_cons. eauto 10. }
    split; [done | apply tails_log_quiet].
  - intros file Hfile.
    destruct file as [par| |].
    + rewrite (mc_run_cached self rdf out_dir w par Hcfg Hrdf Hout Hfile).
      fold path.
      eexists _, _, ([Log WARNING _; EvFromJson path] ++ tails_log par _).
      split; [reflexivity|]. split; [done|].
      split; [simpl; by rewrite <- !app_assoc|].
      split; [rewrite !elem_of_app, !elem_of_cons; eauto 10|].
      split.
      { apply Forall_app. split; [|apply tails_log_quiet].
        by rewrite !Forall_cons. }
      destruct (tails_result_inv par (pdf_params (w_pdf w)))
        as [Hok|(p & v & Hp & Hv & He)].
      * left. rewrite Hok. split; [done|]. intros p v e Hp Hf Hl Hs.
        destruct (outside_limits p v) eqn:Ho; [|done].
        destruct (proj1 (tails_result_ok _ _) Hok p v Hp).
        apply visit_refused. eauto.
      * right. rewrite He.
        apply visit_refused in Hv as (Hf & [e Hl] & Hs & Ho).
        by exists p, v, e.
    + rewrite Hrun.
      rewrite bool_decide_eq_true_2 by (rewrite Hfile; eauto).
      pose proof (load_cached
                    ("Fit parameters for component "
                       +:+ py_str (MCFitter._name self)
                       +:+ " found, loading: " +:+ path)
                    path (add_trace [EvIsFile path] w)) as Hload.
      simpl in Hload. rewrite add_trace_app in Hload.
      change (w_files (add_trace [EvIsFile path] w)) with (w_files w)
        in Hload.
      rewrite Hfile in Hload.
      rewrite (bind_err _ _ _ _ _ Hload).
      eexists _, _, [Log WARNING _; EvFromJson path].
      split; [reflexivity|]. split; [done|].
      split; [done|]. split; [rewrite !elem_of_cons; eauto|].
      split; [by rewrite !Forall_cons | eauto].
    + rewrite Hrun.
      rewrite bool_decide_eq_true_2 by (rewrite Hfile; eauto).
      pose proof (load_cached
                    ("Fit parameters for component "
                       +:+ py_str (MCFitter._name self)
                       +:+ " found, loading: " +:+ path)
                    path (add_trace [EvIsFile path] w)) as Hload.
      simpl in Hload. rewrite add_trace_app in Hload.
      change (w_files (add_trace [EvIsFile path] w)) with (w_files w)
        in Hload.
      rewrite Hfile in Hload.
      rewrite (bind_err _ _ _ _ _ Hload).
      eexists _, _, [Log WARNING _; EvFromJson path].
      split; [reflexivity|]. split; [done|].
      split; [done|]. split; [rewrite !elem_of_cons; eauto|].
      split; [by rewrite !Forall_cons | eauto].
Qed.

End proofs.

(** ** The theorems at the toy instance

    Each theorem above that has hypotheses is applied here to the toy
    fitter, with its hypotheses computed. *)

(** [run] on the toy fitter, without and with a cached record. *)
Lemma run_fixes_tails_witness :
  (∃ par out_dir pdf0,
     MCFitter.RetPar toy_par = MCFitter.RetPar par
     ∧ MCFitter._out_dir toy_fitter = Some out_dir
     ∧ match w_files toy_world
               !! MCFitter.pars_path (engine := toy_engine) out_dir
                    (MCFitter._name toy_fitter) with
       | Some file => file = FileParameter par ∧ pdf0 = w_pdf toy_world
       | None =>
           ∃ data res,
             minimize (Engine := toy_engine) (MCFitter._minimizer toy_fitter)
               (w_pdf toy_world) data
             = Ok (pdf0, res)
       end
     ∧ length (pdf_params
                 (w_pdf (MCFitter.run (engine := toy_engine) toy_fitter
                           toy_world).2))
       = length (pdf_params pdf0)
     ∧ ∀ i p, pdf_params pdf0 !! i = Some p →
         pdf_params
           (w_pdf (MCFitter.run (engine := toy_engine) toy_fitter
                     toy_world).2) !! i
         = Some (match par !! par_name p with
                 | Some (v, _) =>
                     if par_floating p && negb (endswith (par_name p) "_flt")
                     then with_floating (with_value p v) false else p
                 | None => p
                 end))
  ∧ (∃ par out_dir pdf0,
       MCFitter.RetPar toy_par = MCFitter.RetPar par
       ∧ MCFitter._out_dir toy_fitter = Some out_dir
       ∧ match w_files cached_world
                 !! MCFitter.pars_path (engine := toy_engine) out_dir
                      (MCFitter._name toy_fitter) with
         | Some file => file = FileParameter par ∧ pdf0 = w_pdf cached_world
         | None =>
             ∃ data res,
               minimize (Engine := toy_engine)
                 (MCFitter._minimizer toy_fitter) (w_pdf cached_world) data
               = Ok (pdf0, res)
         end
       ∧ length (pdf_params
                   (w_pdf (MCFitter.run (engine := toy_engine) toy_fitter
                             cached_world).2))
         = length (pdf_params pdf0)
       ∧ ∀ i p, pdf_params pdf0 !! i = Some p →
           pdf_params
             (w_pdf (MCFitter.run (engine := toy_engine) toy_fitter
                       cached_world).2) !! i
           = Some (match par !! par_name p with
                   | Some (v, _) =>
                       if par_floating p
                          && negb (endswith (par_name p) "_flt")
                       then with_floating (with_value p v) false else p
                   | None => p
                   end)).
Proof.
  split.
  - apply (run_fixes_tails (engine := toy_engine) toy_fitter toy_world).
    + discriminate.
    + discriminate.
    + vm_compute. reflexivity.
  - apply (run_fixes_tails (engine := toy_engine) toy_fitter cached_world).
    + discriminate.
    + discriminate.
    + vm_compute. reflexivity.
Defined.

(** C1, as the spec states it, fails on the toy fitter when [sg] is
    already fixed at 10 and the cached record holds 11 for it: the run
    returns the recorded set, [sg] is in it and carries no reserved
    suffix, and [sg] still has the value 10 when the run returns, because
    [get_params] does not list a fixed parameter. *)
Lemma already_fixed_parameter_counterexample :
  MCFitter.run (engine := toy_engine) toy_fitter stale_world
  = (Ok (MCFitter.RetPar toy_par),
     (MCFitter.run (engine := toy_engine) toy_fitter stale_world).2)
  ∧ toy_par !! "sg" = Some (11, 0.5)%float
  ∧ pdf_params
      (w_pdf (MCFitter.run (engine := toy_engine) toy_fitter stale_world).2)
      !! 1
    = Some (with_floating toy_sg false)
  ∧ ¬ (∀ p v e,
         p ∈ pdf_params
               (w_pdf (MCFitter.run (engine := toy_engine) toy_fitter
                         stale_world).2) →
         toy_par !! par_name p = Some (v, e) →
         endswith (par_name p) "_flt" = false →
         par_value p = v ∧ par_floating p = false).
Proof.
  assert (pdf_params
            (w_pdf (MCFitter.run (engine := toy_engine) toy_fitter
                      stale_world).2) !! 1
          = Some (with_floating toy_sg false)) as Hsg
    by (vm_compute; reflexivity).
  split; [vm_compute; reflexivity|]. split; [vm_compute; reflexivity|].
  split; [done|]. intros Hall.
  destruct (Hall (with_floating toy_sg false) 11%float 0.5%float) as [Hv _].
  - by apply list_elem_of_lookup_2 with 1.
  - vm_compute. reflexivity.
  - reflexivity.
  - apply (f_equal (λ x, PrimFloat.eqb x 10)) in Hv. vm_compute in Hv.
    discriminate.
Qed.

(** The fresh run writes [toy.json]; the cached run only reads it. *)
Lemma run_cache_protocol_witness :
  let path := MCFitter.pars_path (engine := toy_engine) (PyStr toy_out_dir)
                (PyStr "toy") in
  (∃ (par : ParameterSet) (wcol : string) (data : zdata) (pdf' : BasePDF)
     (res res' : FitResult) (build fit plots post : list event),
     MCFitter.RetPar toy_par = MCFitter.RetPar par
     ∧ py_getitem (MCFitter._fit_cfg toy_fitter) "weights_column"
       = Ok (PyStr wcol)
     ∧ zd_obs data = MCFitter._obs toy_fitter
     ∧ dataset_of toy_rdf (MCFitter._obs_name toy_fitter) wcol (NDouble 1)
         data
     ∧ minimize (Engine := toy_engine) (MCFitter._minimizer toy_fitter)
         (w_pdf toy_world) data
       = Ok (pdf', res)
     ∧ hesse (Engine := toy_engine) res "minuit_hesse" = Ok res'
     ∧ fill_parameter ∅ (res_params res') = Ok par
     ∧ (w_plt_cfg toy_world ≠ PyNone →
        ∃ d, w_plt_cfg toy_world = PyDict d
             ∧ zfit_plot (Engine := toy_engine) data pdf' d = Ok tt)
     ∧ w_files (MCFitter.run (engine := toy_engine) toy_fitter toy_world).2
         !! path
       = Some (FileParameter par)
     ∧ w_trace (MCFitter.run (engine := toy_engine) toy_fitter toy_world).2
       = w_trace toy_world ++ [EvIsFile path] ++ build ++ fit ++ plots
           ++ [EvToJson path] ++ post
     ∧ EvAsNumpy [MCFitter._obs_name toy_fitter; wcol] ∈ build
     ∧ EvMinimize (MCFitter._minimizer toy_fitter) ∈ fit
     ∧ plot_stage (w_plt_cfg toy_world) plots
     ∧ Forall (λ e, is_fit_or_plot e = false) post)
  ∧ (∃ r w' (evs : list event),
       MCFitter.run (engine := toy_engine) toy_fitter cached_world = (r, w')
       ∧ w_files w' = w_files cached_world
       ∧ w_trace w' = w_trace cached_world ++ [EvIsFile path] ++ evs
       ∧ EvFromJson path ∈ evs
       ∧ Forall (λ e, is_fit_or_plot e = false) evs
       ∧ ((r = Ok (MCFitter.RetPar toy_par)
           ∧ ∀ p v e,
               p ∈ pdf_params (w_pdf cached_world) → par_floating p = true →
               toy_par !! par_name p = Some (v, e) →
               endswith (par_name p) "_flt" = false →
               outside_limits p v = false)
          ∨ (∃ p v e,
               p ∈ pdf_params (w_pdf cached_world) ∧ par_floating p = true
               ∧ toy_par !! par_name p = Some (v, e)
               ∧ endswith (par_name p) "_flt" = false
               ∧ outside_limits p v = true
               ∧ r = Err (ValueError (limits_msg (par_name p)))))).
Proof.
  split.
  - apply (run_cache_protocol (engine := toy_engine) toy_fitter toy_rdf
             (PyStr toy_out_dir) toy_world).
    + discriminate.
    + reflexivity.
    + reflexivity.
    + reflexivity.
    + vm_compute. reflexivity.
  - apply (proj2 (run_cache_protocol (engine := toy_engine) toy_fitter toy_rdf
                    (PyStr toy_out_dir) cached_world
                    ltac:(discriminate) eq_refl eq_refl)
             (FileParameter toy_par)).
    vm_compute. reflexivity.
Defined.



(** [mu_flt] goes through both loops untouched. *)
Lemma flt_suffix_exempt_witness :
  pdf_params (w_pdf (MCFitter._fix_tails toy_par toy_world).2) !! 0
  = Some toy_mu
  ∧ pdf_params (w_pdf (FitComponent._fix_tails toy_par toy_world).2) !! 0
    = Some toy_mu
  ∧ ∀ freeze, TailFixingPolicy freeze toy_par toy_mu = toy_mu.
Proof.
  apply (flt_suffix_exempt toy_par toy_world 0 toy_mu).
  - reflexivity.
  - reflexivity.
Defined.

(** The toy source has a [mass] column and no [weights] column. *)
Lemma add_weights_default_ones_witness :
  (MCFitter._add_weights (engine := toy_engine) toy_rdf (PyStr "mass") toy_world
   = (Ok toy_rdf,
      add_trace [EvGetColumnNames; Log DEBUG (weights_found_msg "mass")]
        toy_world)
   ∧ FitComponent._add_weights (engine := toy_engine) toy_rdf (PyStr "mass")
       toy_world
     = (Ok toy_rdf,
        add_trace [EvGetColumnNames; Log DEBUG (weights_found_msg "mass")]
          toy_world))
  ∧ ∃ rdf_mc rdf_fc,
      MCFitter._add_weights (engine := toy_engine) toy_rdf (PyStr "weights")
        toy_world
      = (Ok rdf_mc,
         add_trace [EvGetColumnNames; Log DEBUG (weights_ones_msg "weights");
                    EvDefine "weights" "1.0"] toy_world)
      ∧ FitComponent._add_weights (engine := toy_engine) toy_rdf (PyStr "weights")
          toy_world
        = (Ok rdf_fc,
           add_trace [EvGetColumnNames;
                      Log DEBUG (weights_ones_msg "weights");
                      EvDefine "weights" "1"] toy_world)
      ∧ ∀ obs arr, column toy_rdf obs = Some arr →
          column rdf_mc obs = Some arr
          ∧ column rdf_fc obs = Some arr
          ∧ column rdf_mc "weights"
            = Some (replicate (length arr) (NDouble 1))
          ∧ column rdf_fc "weights"
            = Some (replicate (length arr) (NInt 1)).
Proof.
  split.
  - apply (proj1 (add_weights_default_ones (engine := toy_engine)
                    toy_rdf "mass" toy_world)).
    vm_compute. apply list_elem_of_here.
  - apply (proj2 (add_weights_default_ones (engine := toy_engine)
                    toy_rdf "weights" toy_world)).
    vm_compute. intros Hin. by apply list_elem_of_singleton in Hin.
Defined.

(** The configuration of the tests, constructed without a dataframe. *)
Lemma missing_dataframe_fails_witness :
  MCFitter.run (engine := toy_engine) (toy_mc "minuit_hesse" None) toy_world
  = (Err (ValueError "Dataframe not found"), toy_world)
  ∧ FitComponent.get_pdf (engine := toy_engine) (toy_fc "minuit_hesse" None)
      toy_world
    = (Err (ValueError "Dataframe not found"), toy_world).
Proof.
  apply (missing_dataframe_fails (engine := toy_engine) toy_cfg
           (toy_fitting "minuit_hesse") toy_world toy_world).
  - vm_compute. reflexivity.
  - discriminate.
  - vm_compute. reflexivity.
  - vm_compute. reflexivity.
Defined.

(** The configuration of the tests without its fitting section. *)
Lemma no_fitting_is_pass_through_witness :
  ∃ mc fc,
    MCFitter.__init__ cfg_no_fitting (Some toy_rdf) toy_world
    = (Ok mc, toy_world)
    ∧ FitComponent.__init__ cfg_no_fitting (Some toy_rdf) toy_world
      = (Ok fc, toy_world)
    ∧ MCFitter.run (engine := toy_engine) mc toy_world
      = (Ok (MCFitter.RetPdf (w_pdf toy_world)), toy_world)
    ∧ w_pdf toy_world = w_pdf toy_world
    ∧ FitComponent.get_pdf (engine := toy_engine) fc toy_world
      = (Ok (w_pdf toy_world), toy_world)
    ∧ w_pdf toy_world = w_pdf toy_world.
Proof.
  eexists _, _. split; [vm_compute; reflexivity|].
  split; [vm_compute; reflexivity|].
  apply (no_fitting_is_pass_through (engine := toy_engine) cfg_no_fitting
           (Some toy_rdf) toy_world toy_world).
  - left. vm_compute. reflexivity.
  - vm_compute. reflexivity.
  - vm_compute. reflexivity.
Defined.

(** The toy fitter and component configured with ['bootstrap']. *)
Lemma unsupported_method_rejected_after_minimize_witness :
  MCFitter._fit (engine := toy_engine) (toy_mc "bootstrap" (Some toy_rdf))
    toy_data toy_world
  = (let m := AnealingMinimizer 10 0.05 in
     let w1 := add_trace (fit_prologue "toy" m) toy_world in
     match minimize (Engine := toy_engine) m (w_pdf toy_world) toy_data with
     | Ok (pdf', _) =>
         (Err (NotImplementedError (unsupported_msg "bootstrap")),
          add_trace [PrintResult] (set_pdf pdf' w1))
     | Err e => (Err e, w1)
     end)
  ∧ FitComponent._fit (engine := toy_engine) (toy_fc "bootstrap" (Some toy_rdf))
      toy_data toy_world
    = (let m := Minuit in
       let w1 := add_trace (fit_prologue "toy" m) toy_world in
       match minimize (Engine := toy_engine) m (w_pdf toy_world) toy_data with
       | Ok (pdf', _) =>
           (Err (NotImplementedError (unsupported_msg "bootstrap")),
            add_trace [PrintResult] (set_pdf pdf' w1))
       | Err e => (Err e, w1)
       end).
Proof.
  apply (unsupported_method_rejected_after_minimize (engine := toy_engine)
           (toy_mc "bootstrap" (Some toy_rdf))
           (toy_fc "bootstrap" (Some toy_rdf)) toy_data toy_world
           (PyStr "bootstrap") (PyStr "bootstrap")).
  - vm_compute. reflexivity.
  - reflexivity.
  - vm_compute. reflexivity.
  - reflexivity.
Defined.

(** C3, as the spec states it, fails on the toy fitter configured with
    [error_method = 'bootstrap']: the fit is rejected, but the trace it
    leaves holds the call to the minimiser. *)
Lemma no_minimization_counterexample :
  ¬ (∃ msg w',
       MCFitter._fit (engine := toy_engine) (toy_mc "bootstrap" (Some toy_rdf))
         toy_data toy_world
       = (Err (NotImplementedError msg), w')
       ∧ ∀ m, EvMinimize m ∉ w_trace w').
Proof.
  intros (msg & w' & Hrun & Hno).
  apply (Hno (AnealingMinimizer 10 0.05)).
  replace w' with
    (MCFitter._fit (engine := toy_engine) (toy_mc "bootstrap" (Some toy_rdf))
       toy_data toy_world).2 by (by rewrite Hrun).
  match goal with
  | |- _ ∈ ?t => let t' := eval vm_compute in t in change t with t'
  end.
  rewrite !elem_of_cons. auto 10.
Qed.

(** The configuration of the tests without its [out_dir] entry. *)
Lemma out_dir_required_with_fitting_witness :
  ((∃ self w',
      MCFitter.__init__ cfg_no_out_dir (Some toy_rdf) toy_world
      = (Ok self, w'))
   ↔ default PyNone (cfg_no_out_dir !! "fitting") = PyNone
     ∨ is_Some (cfg_no_out_dir !! "out_dir"))
  ∧ (default PyNone (cfg_no_out_dir !! "fitting") ≠ PyNone →
     cfg_no_out_dir !! "out_dir" = None →
     ∃ w', MCFitter.__init__ cfg_no_out_dir (Some toy_rdf) toy_world
           = (Err (KeyError "out_dir"), w')).
Proof.
  apply (out_dir_required_with_fitting cfg_no_out_dir
           (Some toy_rdf) toy_world (PyStr "toy") "mass").
  - vm_compute. reflexivity.
  - reflexivity.
Defined.

(** C10, as the spec states it, fails on the configuration of the tests
    with its [out_dir] entry removed: it has a name and a fitting
    sub-configuration, and constructing the [MCFitter] raises
    [KeyError('out_dir')]. *)
Lemma out_dir_optional_counterexample :
  is_Some (cfg_no_out_dir !! "name")
  ∧ cfg_no_out_dir !! "fitting" = Some (toy_fitting "minuit_hesse")
  ∧ cfg_no_out_dir !! "out_dir" = None
  ∧ MCFitter.__init__ cfg_no_out_dir (Some toy_rdf) toy_world
    = (Err (KeyError "out_dir"), toy_world)
  ∧ ¬ (∃ self w',
         MCFitter.__init__ cfg_no_out_dir (Some toy_rdf) toy_world
         = (Ok self, w')).
Proof.
  assert (MCFitter.__init__ cfg_no_out_dir (Some toy_rdf) toy_world
          = (Err (KeyError "out_dir"), toy_world)) as Hinit
    by (vm_compute; reflexivity).
  split; [vm_compute; eauto|]. split; [vm_compute; reflexivity|].
  split; [vm_compute; reflexivity|]. split; [done|].
  intros (self & w' & Hok). by rewrite Hinit in Hok.
Qed.

(** A record that holds, for [sg], a value below its lower limit: the loop
    of either class raises the [ValueError] of [set_value] and leaves the
    parameters as they were. *)
Lemma fix_tails_refuses_low_value :
  MCFitter._fix_tails low_par toy_world
  = (Err (ValueError (limits_msg "sg")),
     add_trace (tails_log low_par toy_pdf) toy_world)
  ∧ FitComponent._fix_tails low_par toy_world
    = (Err (ValueError (limits_msg "sg")),
       add_trace (tails_log low_par toy_pdf) toy_world).
Proof. split; vm_compute; reflexivity. Qed.

(** ** The further properties at the toy instance *)

(** [mu_flt] is not in a set that knows [sg] only. *)
Lemma fix_tails_skips_unmatched_witness :
  pdf_params (w_pdf (MCFitter._fix_tails sg_only toy_world).2) !! 0
  = Some toy_mu
  ∧ pdf_params (w_pdf (FitComponent._fix_tails sg_only toy_world).2) !! 0
    = Some toy_mu.
Proof.
  apply (fix_tails_skips_unmatched sg_only toy_world 0 toy_mu).
  - reflexivity.
  - vm_compute. reflexivity.
Defined.

(** The configuration of the tests constructs a component; without its
    name it does not. *)
Lemma fc_init_succeeds_iff_witness :
  (∃ self w', FitComponent.__init__ toy_cfg (Some toy_rdf) toy_world
              = (Ok self, w'))
  ∧ FitComponent.__init__ (delete "name" toy_cfg) (Some toy_rdf) toy_world
    = (Err (KeyError "name"), toy_world).
Proof.
  split.
  - apply (proj1 (fc_init_succeeds_iff toy_cfg (Some toy_rdf) toy_world)).
    split; [vm_compute; eauto | by exists "mass"].
  - apply (proj1 (proj2 (fc_init_succeeds_iff (delete "name" toy_cfg)
                           (Some toy_rdf) toy_world))).
    vm_compute. reflexivity.
Defined.

(** Without its name, and without its [out_dir], the configuration of the
    tests fails in that order. *)
Lemma mc_init_error_order_witness :
  MCFitter.__init__ (delete "name" cfg_no_out_dir) (Some toy_rdf) toy_world
  = (Err (KeyError "name"), toy_world)
  ∧ MCFitter.__init__ cfg_no_out_dir (Some toy_rdf) toy_world
    = (Err (KeyError "out_dir"),
       set_plt_cfg (default PyNone (cfg_no_out_dir !! "plotting")) toy_world).
Proof.
  split.
  - apply (proj1 (mc_init_error_order (delete "name" cfg_no_out_dir)
                    (Some toy_rdf) toy_world)).
    vm_compute. reflexivity.
  - apply (proj1 (proj2 (mc_init_error_order cfg_no_out_dir
                           (Some toy_rdf) toy_world))).
    + vm_compute. eauto.
    + vm_compute. discriminate.
    + vm_compute. reflexivity.
Defined.

(** The items of the toy fit have distinct names and all carry an error:
    [sg] is in the set with the value and the error of its item. *)
Lemma fill_parameter_content_witness :
  toy_par !! "sg" = Some (11, 0.5)%float
  ↔ ("sg", (11, Some 0.5)%float) ∈ toy_items.
Proof.
  apply (proj2 (proj2 (fill_parameter_content toy_items))).
  - by apply (bool_decide_unpack _).
  - vm_compute. reflexivity.
Defined.

(** The datasets the toy fitter and the toy component build. *)
Lemma get_data_content_witness :
  length (zd_array toy_data) = length (zd_weights toy_data)
  ∧ length (zd_array toy_data_fc) = length (zd_weights toy_data_fc).
Proof.
  apply (get_data_content (engine := toy_engine) toy_fitter toy_component
           toy_world
           (MCFitter._get_data (engine := toy_engine) toy_fitter toy_world).2
           (FitComponent._get_data (engine := toy_engine) toy_component
              toy_world).2
           toy_data toy_data_fc).
  - vm_compute. reflexivity.
  - vm_compute. reflexivity.
Defined.

(** The toy component plots once into [fc_world]; the dictionary it leaves
    has no [plot_dir]. *)
Lemma fc_plot_fit_consumes_plot_dir_witness :
  FitComponent._plot_fit (engine := toy_engine) toy_component toy_data_fc
    (FitComponent._plot_fit (engine := toy_engine) toy_component toy_data_fc
       fc_world).2
  = (Err (KeyError "plot_dir"),
     (FitComponent._plot_fit (engine := toy_engine) toy_component toy_data_fc
        fc_world).2).
Proof.
  apply (proj2 (fc_plot_fit_consumes_plot_dir (engine := toy_engine)
                  toy_component toy_data_fc fc_world
                  (FitComponent._plot_fit (engine := toy_engine)
                     toy_component toy_data_fc fc_world).2
                  ltac:(vm_compute; reflexivity)
                  ltac:(discriminate))).
  reflexivity.
Defined.

(** The toy component returns its model once; the call after it raises
    and leaves the plotting dictionary as the first call left it. *)
Lemma fc_get_pdf_one_shot_witness :
  ∃ e w3,
    FitComponent.get_pdf (engine := toy_engine) toy_component
      (FitComponent.get_pdf (engine := toy_engine) toy_component fc_world).2
    = (Err e, w3)
    ∧ w_plt_cfg w3
      = w_plt_cfg (FitComponent.get_pdf (engine := toy_engine) toy_component
                     fc_world).2.
Proof.
  apply (fc_get_pdf_one_shot (engine := toy_engine) toy_component fc_world
           (FitComponent.get_pdf (engine := toy_engine) toy_component
              fc_world).2
           (w_pdf (FitComponent.get_pdf (engine := toy_engine) toy_component
                     fc_world).2)).
  - discriminate.
  - discriminate.
  - vm_compute. reflexivity.
  - reflexivity.
Defined.

(** The toy fitter plots twice into the same file. *)
Lemma mc_plot_fit_repeatable_witness :
  ∃ w2,
    MCFitter._plot_fit (engine := toy_engine) toy_fitter toy_data
      (MCFitter._plot_fit (engine := toy_engine) toy_fitter toy_data
         toy_world).2
    = (Ok tt, w2)
    ∧ (w_files w2, w_dirs w2)
      = (w_files (MCFitter._plot_fit (engine := toy_engine) toy_fitter
                    toy_data toy_world).2,
         w_dirs (MCFitter._plot_fit (engine := toy_engine) toy_fitter
                   toy_data toy_world).2).
Proof.
  pose proof (mc_plot_fit_repeatable (engine := toy_engine) toy_fitter
                toy_data toy_world
                (MCFitter._plot_fit (engine := toy_engine) toy_fitter
                   toy_data toy_world).2
                ltac:(vm_compute; reflexivity)) as H.
  change (is_none (w_plt_cfg toy_world)) with false in H.
  destruct H as (d & dir & _ & _ & _ & _ & _ & _ & H).
  exact H.
Defined.

(** The toy fitter run twice from an empty file system. *)
Lemma run_twice_fits_once_witness :
  ∃ w'' (evs : list event),
    MCFitter.run (engine := toy_engine) toy_fitter
      (MCFitter.run (engine := toy_engine) toy_fitter toy_world).2
    = (Ok (MCFitter.RetPar toy_par), w'')
    ∧ w_pdf w''
      = w_pdf (MCFitter.run (engine := toy_engine) toy_fitter toy_world).2
    ∧ w_files w''
      = w_files (MCFitter.run (engine := toy_engine) toy_fitter toy_world).2
    ∧ w_trace w''
      = w_trace (MCFitter.run (engine := toy_engine) toy_fitter toy_world).2
        ++ evs
    ∧ Forall (λ e, is_fit_or_plot e = false) evs.
Proof.
  apply (run_twice_fits_once (engine := toy_engine) toy_fitter toy_rdf
           (PyStr toy_out_dir) toy_world).
  - discriminate.
  - reflexivity.
  - reflexivity.
  - vm_compute. reflexivity.
Defined.

(** With the record on disk, the toy fitter and a fitter with another
    configuration, dataframe and minimiser run alike. *)
Lemma cached_run_ignores_configuration_witness :
  MCFitter.run (engine := toy_engine) toy_fitter cached_world
  = MCFitter.run (engine := toy_engine) other_fitter cached_world.
Proof.
  apply (cached_run_ignores_configuration (engine := toy_engine) toy_fitter
           other_fitter toy_rdf (Define toy_rdf "weights" (NDouble 1))
           (PyStr toy_out_dir) cached_world).
  - discriminate.
  - discriminate.
  - reflexivity.
  - reflexivity.
  - reflexivity.
  - reflexivity.
  - reflexivity.
  - vm_compute. eauto.
Defined.

(** The toy fitter with the unsupported error method raises after the
    minimisation, and leaves the file system empty. *)
Lemma failed_run_writes_no_file_witness :
  w_files (MCFitter.run (engine := toy_engine)
             (toy_mc "bootstrap" (Some toy_rdf)) toy_world).2
  = w_files toy_world.
Proof.
  eapply (failed_run_writes_no_file (engine := toy_engine)
            (toy_mc "bootstrap" (Some toy_rdf)) toy_rdf (PyStr toy_out_dir)
            toy_world).
  - discriminate.
  - reflexivity.
  - reflexivity.
  - vm_compute. reflexivity.
Defined.

(** The toy component fits and plots without any cache traffic. *)
Lemma fc_get_pdf_never_caches_witness :
  ∃ evs,
    w_trace (FitComponent.get_pdf (engine := toy_engine) toy_component
               fc_world).2
    = w_trace fc_world ++ evs
    ∧ Forall (λ e, is_cache_io e = false) evs.
Proof.
  apply (proj1 (fc_get_pdf_never_caches (engine := toy_engine) toy_component
                  fc_world _ _ (surjective_pairing _))).
Defined.
